(** * Cricket auction backend: the live auction engine

    A shallow embedding of the bidding rules ([utils/auctionRules.js]), the
    Mongoose models ([Bid], [Player], [AuctionEvent], [Team],
    [TeamEventBudget]), the bid controller ([placeBid]), the timer callback of
    the event controller ([createTimerCallback]) and the category rotation
    ([autoMoveToNextPlayer]), followed by the properties of the engine.

    Conventions.
    - A JavaScript number that holds an amount of money, a counter or a
      timestamp is a [Z]; the non-finite numbers only occur where the code
      tests for them ([JsValue]).
    - An [ObjectId] is the string the code compares with [toString()].
    - A Mongo collection is the list of its documents in natural order; a
      collection with a unique compound key and the JavaScript [Map] of the
      timer manager are finite maps.
    - [await]ed persistence calls are steps on an explicit database value; a
      thrown exception is the [inl] of a sum and leaves the writes made so far
      in place, as the code has no transactions. *)

From Stdlib Require Import ZArith List Bool Lia DecimalString.
From stdpp Require Import gmap strings.

Import ListNotations.
Open Scope string_scope.
Open Scope list_scope.
Open Scope Z_scope.

(** ** JavaScript values and errors *)

Module Js.

Inductive JsNumber :=
| Finite (z : Z)
| PosInfinity
| NegInfinity
| NaN.

(** What a request body field or a function argument may hold. *)
Inductive JsValue :=
| JsNum (n : JsNumber)
| JsString (s : string)
| JsBool (b : bool)
| JsNull
| JsUndefined.

(** [typeof v === 'number'] *)
Definition is_number (v : JsValue) : bool :=
  match v with JsNum _ => true | _ => false end.

(** [Number.isFinite(v)] *)
Definition isFinite (v : JsValue) : bool :=
  match v with JsNum (Finite _) => true | _ => false end.

(** [v <= 0] on a number; a comparison with [NaN] is false. *)
Definition le_zero (n : JsNumber) : bool :=
  match n with
  | Finite z => z <=? 0
  | NegInfinity => true
  | PosInfinity | NaN => false
  end.

(** [a || d] where [a] is a number or [null]/[undefined]: [0] is falsy. *)
Definition or_default (a : option Z) (d : Z) : Z :=
  match a with
  | Some z => if z =? 0 then d else z
  | None => d
  end.

(** A parameter default [x = d]: only [undefined] takes the default. *)
Definition param_default {A} (a : option A) (d : A) : A :=
  match a with Some x => x | None => d end.

Abbreviation ObjectId := string (only parsing).

Definition id_eqb (a b : ObjectId) : bool := String.eqb a b.

(** [ids.includes(x)], [ids.some(i => i.toString() === x)] *)
Definition includes_id (x : ObjectId) (ids : list ObjectId) : bool :=
  existsb (id_eqb x) ids.

(** A number inside a template string. *)
Definition showZ (z : Z) : string := NilZero.string_of_int (Z.to_int z).


(** The errors the engine throws or receives.
    - [HttpError c m]: [new Error(m)] with [error.statusCode = c], the way
      the controllers signal their own failures;
    - [PlainError m]: [new Error(m)] thrown by a model method;
    - [ValidationError p m]: Mongoose validation failed on path [p];
    - [DuplicateKeyError ks]: the MongoDB server error with [code 11000];
      [ks] are the keys of [err.keyPattern] in index order. *)
Inductive JsError :=
| HttpError (statusCode : Z) (message : string)
| PlainError (message : string)
| ValidationError (path : string) (message : string)
| DuplicateKeyError (keyPattern : list string)
| DocumentNotFoundError.

Definition result (A : Type) : Type := JsError + A.

Definition is_ok {A} (r : result A) : bool :=
  match r with inr _ => true | inl _ => false end.

(** An [async] function over a store [S]: it returns a value or throws, and
    in both cases leaves the store as its writes made it. *)
Definition M (S A : Type) : Type := S -> result A * S.

Definition ret {S A} (a : A) : M S A := fun s => (inr a, s).

Definition throw {S A} (e : JsError) : M S A := fun s => (inl e, s).

Definition bind {S A B} (m : M S A) (k : A -> M S B) : M S B :=
  fun s =>
    match m s with
    | (inr a, s') => k a s'
    | (inl e, s') => (inl e, s')
    end.

Definition get {S} : M S S := fun s => (inr s, s).

Definition put {S} (s : S) : M S unit := fun _ => (inr tt, s).

Definition modify {S} (f : S -> S) : M S unit := fun s => (inr tt, f s).

(** [try { m } catch (error) { h(error) }] *)
Definition try_catch {S A} (m : M S A) (h : JsError -> M S A) : M S A :=
  fun s =>
    match m s with
    | (inr a, s') => (inr a, s')
    | (inl e, s') => h e s'
    end.

(** Run on a part of the store, read with [proj] and written back with [upd]. *)
Definition zoom {S T A} (proj : S -> T) (upd : T -> S -> S) (m : M T A) : M S A :=
  fun s =>
    let '(r, t') := m (proj s) in (r, upd t' s).

(** The store an operation leaves behind, and what it returned. *)
Definition exec {S A} (m : M S A) (s : S) : S := snd (m s).
Definition outcome {S A} (m : M S A) (s : S) : result A := fst (m s).

End Js.

Import Js.

Notation "'do' x <- m ; k" := (bind m (fun x => k))
  (at level 10, x name, m at level 100, k at level 200, only parsing).
Notation "'do' ' p <- m ; k" := (bind m (fun x => match x with p => k end))
  (at level 10, p pattern, m at level 100, k at level 200, only parsing).
Notation "'run' m ; k" := (bind m (fun _ => k))
  (at level 10, m at level 100, k at level 200, only parsing).

(** ** Bidding rules: [utils/auctionRules.js] *)

Module AuctionRules.

Record IncrementRule := {
  rule_min : Z;
  rule_max : option Z;   (* [None] is [Infinity] *)
  rule_increment : Z
}.

Record Constants := {
  TIMER_SECONDS : Z;
  BASE_PRICE : Z;
  MAX_BID_PER_PLAYER : Z;
  MAX_PLAYERS_PER_TEAM : Z;
  DEFAULT_OWNER_BALANCE : Z;
  TIMER_BEFORE_FIRST_BID : Z;
  TIMER_AFTER_FIRST_BID : Z;
  INCREMENT_RULES : list IncrementRule
}.

Definition AUCTION_CONSTANTS : Constants := {|
  TIMER_SECONDS := 10;
  BASE_PRICE := 20;
  MAX_BID_PER_PLAYER := 2000;
  MAX_PLAYERS_PER_TEAM := 10;
  DEFAULT_OWNER_BALANCE := 1000;
  TIMER_BEFORE_FIRST_BID := 20;
  TIMER_AFTER_FIRST_BID := 20;
  INCREMENT_RULES :=
    [ {| rule_min := 20; rule_max := Some 50; rule_increment := 5 |};
      {| rule_min := 50; rule_max := Some 100; rule_increment := 10 |};
      {| rule_min := 100; rule_max := None; rule_increment := 15 |} ]
|}.

(** [basePrice >= r.min && basePrice < r.max] *)
Definition rule_applies (basePrice : Z) (r : IncrementRule) : bool :=
  (basePrice >=? rule_min r) &&
  match rule_max r with
  | Some m => basePrice <? m
  | None => true
  end.

(** [INCREMENT_RULES[INCREMENT_RULES.length - 1]]; the table is a non-empty
    constant, the default is never taken. *)
Definition highestRule (rules : list IncrementRule) : IncrementRule :=
  List.last rules {| rule_min := 0; rule_max := None; rule_increment := 0 |}.

(** [getNextBidAmount(currentBid = null)]: [None] is the [null] result. *)
Definition getNextBidAmount (currentBid : option Z) : option Z :=
  let basePrice := or_default currentBid (BASE_PRICE AUCTION_CONSTANTS) in
  if basePrice >=? MAX_BID_PER_PLAYER AUCTION_CONSTANTS then None
  else
    match List.find (rule_applies basePrice) (INCREMENT_RULES AUCTION_CONSTANTS) with
    | None =>
        Some (Z.min (basePrice + rule_increment (highestRule (INCREMENT_RULES AUCTION_CONSTANTS)))
                    (MAX_BID_PER_PLAYER AUCTION_CONSTANTS))
    | Some rule =>
        let nextBid := basePrice + rule_increment rule in
        Some (Z.min nextBid (MAX_BID_PER_PLAYER AUCTION_CONSTANTS))
    end.

(** The [reason] strings of [canPlaceBid], with the numbers the template
    strings interpolate. *)
Inductive Reason :=
| NotPositiveNumber                      (* 'Bid amount must be a positive number' *)
| MaxBidExceeded (cap : Z)               (* 'Maximum bid per player is <cap>' *)
| MaxAlreadyReached                      (* 'Maximum bid for this player has already been reached' *)
| BelowMinimum (minimum current increment : Z)
                                         (* 'Bid must be at least <m> (current: <c>, increment: <i>)' *)
| IncrementRulesViolated (next : Z)      (* 'Bid must follow increment rules. Next valid bid is <n>' *)
| InsufficientBalance (required available : Z)
                                         (* 'Insufficient balance. Required: <r>, Available: <a>' *)
| TeamFull (limit : Z)                   (* 'Team has reached maximum player limit of <l>' *)
| InsufficientBalanceForBid              (* 'Insufficient balance to place this bid' *)
| BidIsValid.                            (* 'Bid is valid' *)

Record Validation := { valid : bool; reason : Reason }.

Record BidOptions := {
  opt_currentBidAmount : option Z;
  opt_isOwnerBidding : option bool
}.

Definition no_options : BidOptions :=
  {| opt_currentBidAmount := None; opt_isOwnerBidding := None |}.

Definition reject (r : Reason) : Validation := {| valid := false; reason := r |}.

(** [canPlaceBid(bidAmount, currentBid, ownerBalance, teamPlayerCount, options)];
    an argument that is [None] was not passed and takes its default. *)
Definition canPlaceBid (bidAmount : JsValue) (currentBid ownerBalance teamPlayerCount : option Z)
    (options : BidOptions) : Validation :=
  let currentBid := param_default currentBid (BASE_PRICE AUCTION_CONSTANTS) in
  let ownerBalance := param_default ownerBalance (DEFAULT_OWNER_BALANCE AUCTION_CONSTANTS) in
  let teamPlayerCount := param_default teamPlayerCount 0 in
  let currentBidAmount := param_default (opt_currentBidAmount options) currentBid in
  let isOwnerBidding := param_default (opt_isOwnerBidding options) false in
  (* Validation 1 *)
  match bidAmount with
  | JsNum n =>
      if le_zero n || negb (isFinite bidAmount) then reject NotPositiveNumber
      else
        match n with
        | Finite amount =>
            (* Validation 2 *)
            if amount >? MAX_BID_PER_PLAYER AUCTION_CONSTANTS
            then reject (MaxBidExceeded (MAX_BID_PER_PLAYER AUCTION_CONSTANTS))
            else
              (* Validation 3 *)
              match getNextBidAmount (Some currentBidAmount) with
              | None => reject MaxAlreadyReached
              | Some minimumRequiredBid =>
                  if amount <? minimumRequiredBid
                  then reject (BelowMinimum minimumRequiredBid currentBidAmount
                                 (minimumRequiredBid - currentBidAmount))
                  else
                    (* Validation 4 *)
                    match getNextBidAmount (Some currentBidAmount) with
                    | None => reject NotPositiveNumber   (* not reached: checked above *)
                    | Some expectedNextBid =>
                        if negb (amount =? expectedNextBid) && (amount <? expectedNextBid)
                        then reject (IncrementRulesViolated expectedNextBid)
                        (* Validation 5 *)
                        else if amount >? ownerBalance
                        then reject (InsufficientBalance amount ownerBalance)
                        (* Validation 6 *)
                        else if teamPlayerCount >=? MAX_PLAYERS_PER_TEAM AUCTION_CONSTANTS
                        then reject (TeamFull (MAX_PLAYERS_PER_TEAM AUCTION_CONSTANTS))
                        (* Validation 7 *)
                        else if isOwnerBidding && (amount >? ownerBalance)
                        then reject InsufficientBalanceForBid
                        else {| valid := true; reason := BidIsValid |}
                    end
              end
        | _ => reject NotPositiveNumber       (* not reached: not finite *)
        end
  | _ => reject NotPositiveNumber
  end.

(** [getIncrementAmount(currentBid)] *)
Definition getIncrementAmount (currentBid : option Z) : Z :=
  match getNextBidAmount currentBid with
  | None => 0
  | Some nextBid => nextBid - or_default currentBid (BASE_PRICE AUCTION_CONSTANTS)
  end.

(** [isValidIncrement(bidAmount, currentBid)] *)
Definition isValidIncrement (bidAmount : Z) (currentBid : option Z) : bool :=
  match getNextBidAmount currentBid with
  | None => false
  | Some expectedNext => bidAmount >=? expectedNext
  end.

(** [n] successive applications of [getNextBidAmount], stopping at [null]. *)
Fixpoint iterNextBid (n : nat) (x : Z) : option Z :=
  match n with
  | O => Some x
  | S k =>
      match getNextBidAmount (Some x) with
      | Some y => iterNextBid k y
      | None => None
      end
  end.

End AuctionRules.

(** ** Per-event budgets: [models/TeamEventBudget.js] *)

Module TeamEventBudget.

Record Doc := {
  teamId : ObjectId;
  auctionEventId : ObjectId;
  budget : Z;
  spent : Z;
  remainingBudget : Z
}.

(** The collection under its unique index [{ teamId: 1, auctionEventId: 1 }]. *)
Abbreviation Collection := (gmap (ObjectId * ObjectId) Doc) (only parsing).

Definition key (d : Doc) : ObjectId * ObjectId := (teamId d, auctionEventId d).

(** Schema validators, run by [save()] on the whole document:
    [budget] has [min: 0]; [spent] has [min: 0] and [value <= this.budget]. *)
Definition validate (d : Doc) : option JsError :=
  if budget d <? 0 then Some (ValidationError "budget" "Budget cannot be negative")
  else if spent d <? 0 then Some (ValidationError "spent" "Spent amount cannot be negative")
  else if negb (spent d <=? budget d)
       then Some (ValidationError "spent" "Spent amount cannot exceed budget")
  else None.

(** [pre('save')]: [this.remainingBudget = this.budget - this.spent]. *)
Definition pre_save (d : Doc) : Doc :=
  {| teamId := teamId d; auctionEventId := auctionEventId d;
     budget := budget d; spent := spent d;
     remainingBudget := budget d - spent d |}.

(** [doc.save()]: validation, then the hook, then the write. A new document
    meets the unique index; a loaded one replaces its stored version. *)
Definition save (isNew : bool) (d : Doc) : M (gmap (ObjectId * ObjectId) Doc) Doc :=
  match validate d with
  | Some e => throw e
  | None =>
      let d' := pre_save d in
      do c <- get;
      match c !! key d' with
      | Some _ =>
          if isNew then throw (DuplicateKeyError ["teamId"; "auctionEventId"])
          else run put (<[key d' := d']> c); ret d'
      | None =>
          if isNew then run put (<[key d' := d']> c); ret d'
          else throw DocumentNotFoundError
      end
  end.

(** [this.canAfford(bidAmount)] *)
Definition canAfford (this : Doc) (bidAmount : Z) : bool :=
  remainingBudget this >=? bidAmount.

(** [this.addPurchase(playerPrice)] *)
Definition addPurchase (this : Doc) (playerPrice : Z) : M (gmap (ObjectId * ObjectId) Doc) Doc :=
  if negb (canAfford this playerPrice)
  then throw (PlainError "Insufficient budget to purchase player in this event")
  else
    let spent' := spent this + playerPrice in
    save false
      {| teamId := teamId this; auctionEventId := auctionEventId this;
         budget := budget this; spent := spent';
         remainingBudget := budget this - spent' |}.

(** [TeamEventBudget.getOrCreate(teamId, eventId, defaultBudget)] *)
Definition getOrCreate (team event : ObjectId) (defaultBudget : option Z)
    : M (gmap (ObjectId * ObjectId) Doc) Doc :=
  do c <- get;
  match c !! (team, event) with
  | Some b => ret b
  | None =>
      save true
        {| teamId := team; auctionEventId := event;
           budget := or_default defaultBudget 10000;
           spent := 0;
           remainingBudget := or_default defaultBudget 10000 |}
  end.

(** [TeamEventBudget.findOne({ teamId, auctionEventId })] *)
Definition findOne (team event : ObjectId) (c : gmap (ObjectId * ObjectId) Doc) : option Doc :=
  c !! (team, event).

(** The ledger invariant of one row. *)
Definition row_ok (d : Doc) : Prop :=
  remainingBudget d = budget d - spent d /\ spent d <= budget d.

Definition ledger_ok (c : gmap (ObjectId * ObjectId) Doc) : Prop :=
  forall k d, c !! k = Some d -> row_ok d.

(** The operations the code performs on the collection. [OpAddPurchase] is
    [addPurchase] on the row read for the pair, [OpAddPurchaseOn] on any
    in-memory document, [OpSave] any [save()]. *)
Inductive Op :=
| OpGetOrCreate (team event : ObjectId) (defaultBudget : option Z)
| OpAddPurchase (team event : ObjectId) (playerPrice : Z)
| OpAddPurchaseOn (this : Doc) (playerPrice : Z)
| OpSave (isNew : bool) (d : Doc).

Definition step (op : Op) (c : gmap (ObjectId * ObjectId) Doc) : gmap (ObjectId * ObjectId) Doc :=
  match op with
  | OpGetOrCreate team event defaultBudget => exec (getOrCreate team event defaultBudget) c
  | OpAddPurchase team event playerPrice =>
      match findOne team event c with
      | Some this => exec (addPurchase this playerPrice) c
      | None => c
      end
  | OpAddPurchaseOn this playerPrice => exec (addPurchase this playerPrice) c
  | OpSave isNew d => exec (save isNew d) c
  end.

Definition steps (ops : list Op) (c : gmap (ObjectId * ObjectId) Doc) : gmap (ObjectId * ObjectId) Doc :=
  fold_left (fun c op => step op c) ops c.

End TeamEventBudget.

(** ** Bids: [models/Bid.js] *)

Module Bid.

Inductive Status := pending | accepted | outbid | winning | rejected.

Record Doc := {
  _id : ObjectId;
  auctionEventId : ObjectId;
  playerId : ObjectId;
  teamId : ObjectId;
  bidderId : ObjectId;
  amount : Z;
  status : Status;
  isWinningBid : bool;
  rejectionReason : option string;
  bidTime : Z;
  outbidAt : option Z
}.

Definition set_status (x : Status) (d : Doc) : Doc :=
  {| _id := _id d; auctionEventId := auctionEventId d; playerId := playerId d;
     teamId := teamId d; bidderId := bidderId d; amount := amount d;
     status := x; isWinningBid := isWinningBid d;
     rejectionReason := rejectionReason d; bidTime := bidTime d;
     outbidAt := outbidAt d |}.

Definition set_isWinningBid (x : bool) (d : Doc) : Doc :=
  {| _id := _id d; auctionEventId := auctionEventId d; playerId := playerId d;
     teamId := teamId d; bidderId := bidderId d; amount := amount d;
     status := status d; isWinningBid := x;
     rejectionReason := rejectionReason d; bidTime := bidTime d;
     outbidAt := outbidAt d |}.

Definition set_rejectionReason (x : option string) (d : Doc) : Doc :=
  {| _id := _id d; auctionEventId := auctionEventId d; playerId := playerId d;
     teamId := teamId d; bidderId := bidderId d; amount := amount d;
     status := status d; isWinningBid := isWinningBid d;
     rejectionReason := x; bidTime := bidTime d;
     outbidAt := outbidAt d |}.

Definition set_outbidAt (x : option Z) (d : Doc) : Doc :=
  {| _id := _id d; auctionEventId := auctionEventId d; playerId := playerId d;
     teamId := teamId d; bidderId := bidderId d; amount := amount d;
     status := status d; isWinningBid := isWinningBid d;
     rejectionReason := rejectionReason d; bidTime := bidTime d;
     outbidAt := x |}.

Definition status_eqb (a b : Status) : bool :=
  match a, b with
  | pending, pending | accepted, accepted | outbid, outbid
  | winning, winning | rejected, rejected => true
  | _, _ => false
  end.

Definition option_eqb {A} (eqb : A -> A -> bool) (a b : option A) : bool :=
  match a, b with
  | Some x, Some y => eqb x y
  | None, None => true
  | _, _ => false
  end.

(** The filter [{ auctionEventId, playerId, isWinningBid: true }]. *)
Definition is_winning_for (event player : ObjectId) (d : Doc) : bool :=
  id_eqb (auctionEventId d) event && id_eqb (playerId d) player && isWinningBid d.

(** The unique partial index
    [{ auctionEventId: 1, playerId: 1, isWinningBid: 1 }] with
    [partialFilterExpression: { isWinningBid: true }]: writing [d] is refused
    when [d] is in the index and another document holds its key. *)
Definition breaks_unique_winning (d : Doc) (c : list Doc) : bool :=
  isWinningBid d &&
  existsb (fun d' => is_winning_for (auctionEventId d) (playerId d) d' &&
                     negb (id_eqb (_id d') (_id d))) c.

Definition winning_index_keys : list string :=
  ["auctionEventId"; "playerId"; "isWinningBid"].

(** Schema validators of [amount]: [min: 0] and [value > 0]. *)
Definition validate (d : Doc) : option JsError :=
  if amount d <? 0 then Some (ValidationError "amount" "Bid amount cannot be negative")
  else if negb (amount d >? 0)
       then Some (ValidationError "amount" "Bid amount must be greater than 0")
  else None.

(** [pre('save')]: a winning bid gets status [winning]. *)
Definition pre_save (d : Doc) : Doc :=
  if isWinningBid d then set_status winning d else d.

(** [doc.save()] of a new document: an insert. *)
Definition insert (d : Doc) : M (list Doc) Doc :=
  match validate d with
  | Some e => throw e
  | None =>
      let d' := pre_save d in
      do c <- get;
      if existsb (fun x => id_eqb (_id x) (_id d')) c
      then throw (DuplicateKeyError ["_id"])
      else if breaks_unique_winning d' c
      then throw (DuplicateKeyError winning_index_keys)
      else run put (c ++ [d']); ret d'
  end.

(** The [$set] a [save()] sends for a loaded document: the paths whose value
    differs from the one loaded. Only [status], [isWinningBid],
    [rejectionReason] and [outbidAt] are ever assigned on a loaded bid. *)
Definition apply_modified (loaded now stored : Doc) : Doc :=
  let s1 := if status_eqb (status loaded) (status now) then stored
            else set_status (status now) stored in
  let s2 := if Bool.eqb (isWinningBid loaded) (isWinningBid now) then s1
            else set_isWinningBid (isWinningBid now) s1 in
  let s3 := if option_eqb String.eqb (rejectionReason loaded) (rejectionReason now) then s2
            else set_rejectionReason (rejectionReason now) s2 in
  if option_eqb Z.eqb (outbidAt loaded) (outbidAt now) then s3
  else set_outbidAt (outbidAt now) s3.

Definition findById (id : ObjectId) (c : list Doc) : option Doc :=
  List.find (fun d => id_eqb (_id d) id) c.

Definition replaceById (id : ObjectId) (x : Doc) (c : list Doc) : list Doc :=
  List.map (fun d => if id_eqb (_id d) id then x else d) c.

(** [doc.save()] of a loaded document whose in-memory value went from
    [loaded] to [now]: validation of the document, the hook, then the update
    of the modified paths, which the index may refuse. *)
Definition save (loaded now : Doc) : M (list Doc) Doc :=
  match validate now with
  | Some e => throw e
  | None =>
      let now' := pre_save now in
      do c <- get;
      match findById (_id loaded) c with
      | None => throw DocumentNotFoundError
      | Some stored =>
          let stored' := apply_modified loaded now' stored in
          if breaks_unique_winning stored' c
          then throw (DuplicateKeyError winning_index_keys)
          else run put (replaceById (_id loaded) stored' c); ret now'
      end
  end.

(** [Bid.updateMany({ auctionEventId, playerId, isWinningBid: true,
    _id: { $ne: this._id } }, { $set: { isWinningBid: false,
    status: 'outbid', outbidAt: new Date() } })] *)
Definition outbidOthers (this : Doc) (now : Z) : M (list Doc) unit :=
  modify (List.map (fun d =>
    if is_winning_for (auctionEventId this) (playerId this) d &&
       negb (id_eqb (_id d) (_id this))
    then set_outbidAt (Some now) (set_status outbid (set_isWinningBid false d))
    else d)).

(** [this.markAsWinning()] *)
Definition markAsWinning (this : Doc) (now : Z) : M (list Doc) Doc :=
  run outbidOthers this now;
  save this (set_status winning (set_isWinningBid true this)).

(** [this.markAsRejected(reason)] *)
Definition markAsRejected (this : Doc) (reason : string) : M (list Doc) Doc :=
  save this
    (set_isWinningBid false (set_rejectionReason (Some reason) (set_status rejected this))).

(** The document with the greatest [bidTime], the first one on a tie:
    [.sort({ bidTime: -1 })] followed by taking the head. *)
Fixpoint latest (c : list Doc) : option Doc :=
  match c with
  | [] => None
  | d :: rest =>
      match latest rest with
      | Some d' => if bidTime d' >? bidTime d then Some d' else Some d
      | None => Some d
      end
  end.

(** [Bid.getWinningBid(auctionEventId, playerId)] *)
Definition getWinningBid (event player : ObjectId) (c : list Doc) : option Doc :=
  latest (List.filter (is_winning_for event player) c).

(** [Bid.find({ auctionEventId, isWinningBid: true }).distinct('playerId')] *)
Definition soldPlayerIds (event : ObjectId) (c : list Doc) : list ObjectId :=
  List.map playerId
    (List.filter (fun d => id_eqb (auctionEventId d) event && isWinningBid d) c).


(** What [placeBid] writes once the bid is validated: the observed winner is
    marked rejected, the new bid is saved with [isWinningBid: true], then
    marked as winning. *)
Definition recordBid (currentWinningBid : option Doc) (bid : Doc) (now : Z)
    : M (list Doc) Doc :=
  run match currentWinningBid with
      | Some w => run markAsRejected w "Outbid by higher bid"; ret tt
      | None => ret tt
      end;
  do saved <- insert bid;
  markAsWinning saved now.

(** Every write the code can issue on the collection, with arbitrary
    in-memory documents, so that stale copies and any interleaving of the
    steps of concurrent requests are covered. *)
Inductive Op :=
| OpInsert (d : Doc)
| OpSave (loaded now : Doc)
| OpOutbidOthers (this : Doc) (now : Z)
| OpMarkAsWinning (this : Doc) (now : Z)
| OpMarkAsRejected (this : Doc) (reason : string)
| OpRecordBid (currentWinningBid : option Doc) (bid : Doc) (now : Z).

Definition step (op : Op) (c : list Doc) : list Doc :=
  match op with
  | OpInsert d => exec (insert d) c
  | OpSave loaded now => exec (save loaded now) c
  | OpOutbidOthers this now => exec (outbidOthers this now) c
  | OpMarkAsWinning this now => exec (markAsWinning this now) c
  | OpMarkAsRejected this reason => exec (markAsRejected this reason) c
  | OpRecordBid w bid now => exec (recordBid w bid now) c
  end.

Definition steps (ops : list Op) (c : list Doc) : list Doc :=
  fold_left (fun c op => step op c) ops c.

(** The store invariant behind the index: [_id]s are unique, and two winning
    documents of one pair are the same document. *)
Definition index_ok (c : list Doc) : Prop :=
  NoDup (List.map _id c) /\
  forall d d', In d c -> In d' c ->
    isWinningBid d = true -> isWinningBid d' = true ->
    auctionEventId d = auctionEventId d' -> playerId d = playerId d' ->
    _id d = _id d'.


End Bid.

(** ** Players: [models/Player.js] *)

Module Player.

Inductive Role := batsman | bowler | all_rounder | wicket_keeper | wicket_keeper_batsman.

Inductive Status := available | sold | unsold | retired.

Record Statistics := { matches : Z; runs : Z; wickets : Z; average : Z }.

Record Doc := {
  _id : ObjectId;
  name : string;
  age : Z;
  role : Role;
  basePrice : Z;
  currentPrice : option Z;
  photo : option string;
  statistics : Statistics;
  status : Status;
  teamId : option ObjectId;
  soldPrice : option Z;
  auctionEventId : option ObjectId
}.

Definition role_eqb (a b : Role) : bool :=
  match a, b with
  | batsman, batsman | bowler, bowler | all_rounder, all_rounder
  | wicket_keeper, wicket_keeper
  | wicket_keeper_batsman, wicket_keeper_batsman => true
  | _, _ => false
  end.

Definition status_eqb (a b : Status) : bool :=
  match a, b with
  | available, available | sold, sold | unsold, unsold | retired, retired => true
  | _, _ => false
  end.

Definition set_currentPrice (x : option Z) (d : Doc) : Doc :=
  {| _id := _id d; name := name d; age := age d; role := role d;
     basePrice := basePrice d; currentPrice := x; photo := photo d;
     statistics := statistics d; status := status d; teamId := teamId d;
     soldPrice := soldPrice d; auctionEventId := auctionEventId d |}.

Definition set_soldPrice (x : option Z) (d : Doc) : Doc :=
  {| _id := _id d; name := name d; age := age d; role := role d;
     basePrice := basePrice d; currentPrice := currentPrice d; photo := photo d;
     statistics := statistics d; status := status d; teamId := teamId d;
     soldPrice := x; auctionEventId := auctionEventId d |}.

Definition set_status (x : Status) (d : Doc) : Doc :=
  {| _id := _id d; name := name d; age := age d; role := role d;
     basePrice := basePrice d; currentPrice := currentPrice d; photo := photo d;
     statistics := statistics d; status := x; teamId := teamId d;
     soldPrice := soldPrice d; auctionEventId := auctionEventId d |}.

Definition set_teamId (x : option ObjectId) (d : Doc) : Doc :=
  {| _id := _id d; name := name d; age := age d; role := role d;
     basePrice := basePrice d; currentPrice := currentPrice d; photo := photo d;
     statistics := statistics d; status := status d; teamId := x;
     soldPrice := soldPrice d; auctionEventId := auctionEventId d |}.

(** A [min] validator accepts [null]. *)
Definition min_ok (lo : Z) (v : option Z) : bool :=
  match v with Some z => lo <=? z | None => true end.

(** Schema validators, run by [save()] on the whole document. *)
Definition validate (d : Doc) : option JsError :=
  if String.eqb (name d) "" then Some (ValidationError "name" "Player name is required")
  else if 100 <? Z.of_nat (String.length (name d))
       then Some (ValidationError "name" "Player name cannot exceed 100 characters")
  else if age d <? 16 then Some (ValidationError "age" "Age must be at least 16")
  else if 50 <? age d then Some (ValidationError "age" "Age cannot exceed 50")
  else if basePrice d <? 0 then Some (ValidationError "basePrice" "Base price cannot be negative")
  else if negb (min_ok 0 (currentPrice d))
       then Some (ValidationError "currentPrice" "Current price cannot be negative")
  else if matches (statistics d) <? 0
       then Some (ValidationError "statistics.matches" "Matches cannot be negative")
  else if runs (statistics d) <? 0
       then Some (ValidationError "statistics.runs" "Runs cannot be negative")
  else if wickets (statistics d) <? 0
       then Some (ValidationError "statistics.wickets" "Wickets cannot be negative")
  else if average (statistics d) <? 0
       then Some (ValidationError "statistics.average" "Average cannot be negative")
  else if status_eqb (status d) sold &&
          match teamId d with Some _ => false | None => true end
       then Some (ValidationError "teamId" "Team ID is required when player status is sold")
  else if negb (min_ok 0 (soldPrice d))
       then Some (ValidationError "soldPrice" "Sold price cannot be negative")
  else if status_eqb (status d) sold &&
          negb match soldPrice d with Some v => v >=? basePrice d | None => false end
       then Some (ValidationError "soldPrice"
         "Sold price must be set and at least equal to base price when player is sold")
  else None.

(** [pre('save')] *)
Definition pre_save (d : Doc) : Doc :=
  match status d, soldPrice d with
  | sold, Some v => set_currentPrice (Some v) d
  | available, _ => set_currentPrice (Some (basePrice d)) d
  | _, _ => d
  end.

Definition option_eqb {A} (eqb : A -> A -> bool) (a b : option A) : bool :=
  match a, b with
  | Some x, Some y => eqb x y
  | None, None => true
  | _, _ => false
  end.

(** The [$set] of a [save()]: the paths whose value differs from the one
    loaded. [status], [teamId], [soldPrice] and [currentPrice] are the paths
    the methods and the hook assign. *)
Definition apply_modified (loaded now stored : Doc) : Doc :=
  let s1 := if status_eqb (status loaded) (status now) then stored
            else set_status (status now) stored in
  let s2 := if option_eqb String.eqb (teamId loaded) (teamId now) then s1
            else set_teamId (teamId now) s1 in
  let s3 := if option_eqb Z.eqb (soldPrice loaded) (soldPrice now) then s2
            else set_soldPrice (soldPrice now) s2 in
  if option_eqb Z.eqb (currentPrice loaded) (currentPrice now) then s3
  else set_currentPrice (currentPrice now) s3.

Definition findById (id : ObjectId) (c : list Doc) : option Doc :=
  List.find (fun d => id_eqb (_id d) id) c.

Definition updateById (id : ObjectId) (f : Doc -> Doc) (c : list Doc) : list Doc :=
  List.map (fun d => if id_eqb (_id d) id then f d else d) c.

(** [doc.save()] of a loaded document that went from [loaded] to [now]. *)
Definition save (loaded now : Doc) : M (list Doc) Doc :=
  match validate now with
  | Some e => throw e
  | None =>
      let now' := pre_save now in
      do c <- get;
      match findById (_id loaded) c with
      | None => throw DocumentNotFoundError
      | Some _ =>
          run put (updateById (_id loaded) (apply_modified loaded now') c);
          ret now'
      end
  end.

(** [this.markAsSold(teamId, soldPrice)]. The callers pass the event id as a
    third argument, which the method does not declare. *)
Definition markAsSold (this : Doc) (teamId : ObjectId) (soldPrice : Z) (eventId : ObjectId)
    : M (list Doc) Doc :=
  if soldPrice <? basePrice this
  then throw (PlainError "Sold price cannot be less than base price")
  else save this (set_currentPrice (Some soldPrice) (set_soldPrice (Some soldPrice) this)).

(** [this.markAsUnsold()] *)
Definition markAsUnsold (this : Doc) : M (list Doc) Doc :=
  save this
    (set_currentPrice (Some (basePrice this))
       (set_soldPrice None (set_teamId None (set_status unsold this)))).

(** A document with the two price fields blanked: what [markAsSold] must
    leave alone. *)
Definition except_prices (d : Doc) : Doc :=
  set_currentPrice None (set_soldPrice None d).

(** The filter [{ _id: { $in: eventPlayers }, status: 'sold' }] of the
    end-of-auction summary ([emitAuctionEnded]). *)
Definition soldInSummary (eventPlayers : list ObjectId) (c : list Doc) : list Doc :=
  List.filter (fun d => includes_id (_id d) eventPlayers && status_eqb (status d) sold) c.

End Player.

(** ** Teams and users: [models/Team.js], [models/User.js] *)

Module Team.

Inductive Status := active | inactive | suspended.

Record Doc := {
  _id : ObjectId;
  name : string;
  ownerId : option ObjectId;
  budget : Z;
  spent : Z;
  remainingBudget : Z;
  players : list ObjectId;
  status : Status
}.

Definition validate (d : Doc) : option JsError :=
  if String.eqb (name d) "" then Some (ValidationError "name" "Team name is required")
  else if budget d <? 0 then Some (ValidationError "budget" "Budget cannot be negative")
  else if spent d <? 0 then Some (ValidationError "spent" "Spent amount cannot be negative")
  else if negb (spent d <=? budget d)
       then Some (ValidationError "spent" "Spent amount cannot exceed budget")
  else None.

(** [pre('save')] *)
Definition pre_save (d : Doc) : Doc :=
  {| _id := _id d; name := name d; ownerId := ownerId d; budget := budget d;
     spent := spent d; remainingBudget := budget d - spent d;
     players := players d; status := status d |}.

Definition findById (id : ObjectId) (c : list Doc) : option Doc :=
  List.find (fun d => id_eqb (_id d) id) c.

Definition replaceById (id : ObjectId) (x : Doc) (c : list Doc) : list Doc :=
  List.map (fun d => if id_eqb (_id d) id then x else d) c.

Definition save (d : Doc) : M (list Doc) Doc :=
  match validate d with
  | Some e => throw e
  | None =>
      let d' := pre_save d in
      do c <- get;
      match findById (_id d) c with
      | None => throw DocumentNotFoundError
      | Some _ => run put (replaceById (_id d) d' c); ret d'
      end
  end.

(** [team.players.push(playerId)] *)
Definition push_player (playerId : ObjectId) (d : Doc) : Doc :=
  {| _id := _id d; name := name d; ownerId := ownerId d; budget := budget d;
     spent := spent d; remainingBudget := remainingBudget d;
     players := players d ++ [playerId]; status := status d |}.

End Team.

Module User.

Inductive Role := admin | team_owner | other_role.

Record Doc := {
  _id : ObjectId;
  name : string;
  role : Role;
  teamId : option ObjectId
}.

Definition findById (id : ObjectId) (c : list Doc) : option Doc :=
  List.find (fun d => id_eqb (_id d) id) c.

End User.

(** ** Auction events: [models/AuctionEvent.js] *)

Module AuctionEvent.

Inductive Status := draft | scheduled | live | paused | completed | cancelled.

Record Settings := {
  bidIncrement : option Z;
  bidTimer : option Z;
  startingBudget : option Z;
  autoMode : option bool
}.

Record Stats := {
  totalPlayers : Z;
  playersSold : Z;
  playersUnsold : Z;
  totalAmountSpent : Z
}.

Record Doc := {
  _id : ObjectId;
  startDate : Z;
  endDate : option Z;
  status : Status;
  players : list ObjectId;
  participatingTeams : list ObjectId;
  currentPlayerId : option ObjectId;
  currentPlayerStartTime : option Z;
  currentCategory : option Player.Role;
  settings : Settings;
  stats : Stats;
  createdBy : ObjectId;
  startedBy : option ObjectId;
  startedAt : option Z;
  completedAt : option Z
}.

Definition status_eqb (a b : Status) : bool :=
  match a, b with
  | draft, draft | scheduled, scheduled | live, live | paused, paused
  | completed, completed | cancelled, cancelled => true
  | _, _ => false
  end.

Definition set_status (x : Status) (d : Doc) : Doc :=
  {| _id := _id d; startDate := startDate d; endDate := endDate d; status := x;
     players := players d; participatingTeams := participatingTeams d;
     currentPlayerId := currentPlayerId d;
     currentPlayerStartTime := currentPlayerStartTime d;
     currentCategory := currentCategory d; settings := settings d;
     stats := stats d; createdBy := createdBy d; startedBy := startedBy d;
     startedAt := startedAt d; completedAt := completedAt d |}.

Definition set_endDate (x : option Z) (d : Doc) : Doc :=
  {| _id := _id d; startDate := startDate d; endDate := x; status := status d;
     players := players d; participatingTeams := participatingTeams d;
     currentPlayerId := currentPlayerId d;
     currentPlayerStartTime := currentPlayerStartTime d;
     currentCategory := currentCategory d; settings := settings d;
     stats := stats d; createdBy := createdBy d; startedBy := startedBy d;
     startedAt := startedAt d; completedAt := completedAt d |}.

Definition set_completedAt (x : option Z) (d : Doc) : Doc :=
  {| _id := _id d; startDate := startDate d; endDate := endDate d; status := status d;
     players := players d; participatingTeams := participatingTeams d;
     currentPlayerId := currentPlayerId d;
     currentPlayerStartTime := currentPlayerStartTime d;
     currentCategory := currentCategory d; settings := settings d;
     stats := stats d; createdBy := createdBy d; startedBy := startedBy d;
     startedAt := startedAt d; completedAt := x |}.

Definition set_started (by_ : option ObjectId) (at_ : option Z) (d : Doc) : Doc :=
  {| _id := _id d; startDate := startDate d; endDate := endDate d; status := status d;
     players := players d; participatingTeams := participatingTeams d;
     currentPlayerId := currentPlayerId d;
     currentPlayerStartTime := currentPlayerStartTime d;
     currentCategory := currentCategory d; settings := settings d;
     stats := stats d; createdBy := createdBy d; startedBy := by_;
     startedAt := at_; completedAt := completedAt d |}.

(** [this.currentPlayerId = id; this.currentPlayerStartTime = t] *)
Definition set_current (id : option ObjectId) (t : option Z) (d : Doc) : Doc :=
  {| _id := _id d; startDate := startDate d; endDate := endDate d; status := status d;
     players := players d; participatingTeams := participatingTeams d;
     currentPlayerId := id;
     currentPlayerStartTime := t;
     currentCategory := currentCategory d; settings := settings d;
     stats := stats d; createdBy := createdBy d; startedBy := startedBy d;
     startedAt := startedAt d; completedAt := completedAt d |}.

Definition set_currentPlayerStartTime (t : option Z) (d : Doc) : Doc :=
  set_current (currentPlayerId d) t d.

Definition set_currentCategory (x : option Player.Role) (d : Doc) : Doc :=
  {| _id := _id d; startDate := startDate d; endDate := endDate d; status := status d;
     players := players d; participatingTeams := participatingTeams d;
     currentPlayerId := currentPlayerId d;
     currentPlayerStartTime := currentPlayerStartTime d;
     currentCategory := x; settings := settings d;
     stats := stats d; createdBy := createdBy d; startedBy := startedBy d;
     startedAt := startedAt d; completedAt := completedAt d |}.

Definition set_stats (x : Stats) (d : Doc) : Doc :=
  {| _id := _id d; startDate := startDate d; endDate := endDate d; status := status d;
     players := players d; participatingTeams := participatingTeams d;
     currentPlayerId := currentPlayerId d;
     currentPlayerStartTime := currentPlayerStartTime d;
     currentCategory := currentCategory d; settings := settings d;
     stats := x; createdBy := createdBy d; startedBy := startedBy d;
     startedAt := startedAt d; completedAt := completedAt d |}.

Definition in_range (lo : Z) (hi : option Z) (v : option Z) : bool :=
  match v with
  | Some z => (lo <=? z) && match hi with Some h => z <=? h | None => true end
  | None => true
  end.

(** Schema validators, run by [save()] on the whole document at time [now].
    The [startDate] validator is skipped for a live, completed or paused
    event. *)
Definition validate (now : Z) (d : Doc) : option JsError :=
  if negb (match status d with
           | live | completed | paused => true
           | _ => startDate d >? now
           end)
  then Some (ValidationError "startDate" "Start date must be in the future")
  else if negb (match endDate d with Some v => v >? startDate d | None => true end)
  then Some (ValidationError "endDate" "End date must be after start date")
  else if negb (in_range 50 None (bidIncrement (settings d)))
  then Some (ValidationError "settings.bidIncrement" "Bid increment must be at least 50")
  else if negb (in_range 10 None (bidTimer (settings d)))
  then Some (ValidationError "settings.bidTimer" "Bid timer must be at least 10 seconds")
  else if negb (in_range 10 (Some 300) (bidTimer (settings d)))
  then Some (ValidationError "settings.bidTimer" "Bid timer cannot exceed 300 seconds")
  else if negb (in_range 0 None (startingBudget (settings d)))
  then Some (ValidationError "settings.startingBudget" "Starting budget cannot be negative")
  else if totalPlayers (stats d) <? 0
  then Some (ValidationError "stats.totalPlayers" "Total players cannot be negative")
  else if playersSold (stats d) <? 0
  then Some (ValidationError "stats.playersSold" "Players sold cannot be negative")
  else if playersUnsold (stats d) <? 0
  then Some (ValidationError "stats.playersUnsold" "Players unsold cannot be negative")
  else if totalAmountSpent (stats d) <? 0
  then Some (ValidationError "stats.totalAmountSpent" "Total amount spent cannot be negative")
  else None.

Definition ids_eqb (a b : list ObjectId) : bool :=
  (length a =? length b)%nat && forallb (fun '(x, y) => id_eqb x y) (combine a b).

(** [pre('save')]: [if (this.isModified('players')) this.stats.totalPlayers =
    this.players.length]. *)
Definition pre_save (loaded now : Doc) : Doc :=
  if ids_eqb (players loaded) (players now) then now
  else set_stats {| totalPlayers := Z.of_nat (length (players now));
                    playersSold := playersSold (stats now);
                    playersUnsold := playersUnsold (stats now);
                    totalAmountSpent := totalAmountSpent (stats now) |} now.

Definition findById (id : ObjectId) (c : list Doc) : option Doc :=
  List.find (fun d => id_eqb (_id d) id) c.

Definition replaceById (id : ObjectId) (x : Doc) (c : list Doc) : list Doc :=
  List.map (fun d => if id_eqb (_id d) id then x else d) c.

(** [doc.save()] of a loaded document that went from [loaded] to [d]. In the
    paths modelled the in-memory document is the stored one, so the update
    writes the document whole. *)
Definition save (now : Z) (loaded d : Doc) : M (list Doc) Doc :=
  match validate now d with
  | Some e => throw e
  | None =>
      let d' := pre_save loaded d in
      do c <- get;
      match findById (_id d) c with
      | None => throw DocumentNotFoundError
      | Some _ => run put (replaceById (_id d) d' c); ret d'
      end
  end.

(** [this.startAuction(userId)] *)
Definition startAuction (now : Z) (this : Doc) (userId : ObjectId) : M (list Doc) Doc :=
  if negb (status_eqb (status this) draft) && negb (status_eqb (status this) scheduled)
  then throw (PlainError "Auction can only be started from draft or scheduled status")
  else if (length (players this) =? 0)%nat
  then throw (PlainError "Cannot start auction without players")
  else save now this (set_started (Some userId) (Some now) (set_status live this)).

(** [this.pauseAuction()] *)
Definition pauseAuction (now : Z) (this : Doc) : M (list Doc) Doc :=
  if negb (status_eqb (status this) live)
  then throw (PlainError "Only live auctions can be paused")
  else save now this (set_status paused this).

(** [this.resumeAuction()] *)
Definition resumeAuction (now : Z) (this : Doc) : M (list Doc) Doc :=
  if negb (status_eqb (status this) paused)
  then throw (PlainError "Only paused auctions can be resumed")
  else save now this (set_status live this).

(** [this.completeAuction()] *)
Definition completeAuction (now : Z) (this : Doc) : M (list Doc) Doc :=
  if negb (status_eqb (status this) live) && negb (status_eqb (status this) paused)
  then throw (PlainError "Only live or paused auctions can be completed")
  else
    let d1 := set_completedAt (Some now) (set_status completed this) in
    let d2 := match endDate d1 with
              | Some _ => d1
              | None => set_endDate (completedAt d1) d1
              end in
    save now this d2.

(** [this.updatePlayerSold(playerPrice)] *)
Definition updatePlayerSold (now : Z) (this : Doc) (playerPrice : Z) : M (list Doc) Doc :=
  save now this
    (set_stats {| totalPlayers := totalPlayers (stats this);
                  playersSold := playersSold (stats this) + 1;
                  playersUnsold := playersUnsold (stats this);
                  totalAmountSpent := totalAmountSpent (stats this) + playerPrice |} this).

(** [this.updatePlayerUnsold()] *)
Definition updatePlayerUnsold (now : Z) (this : Doc) : M (list Doc) Doc :=
  save now this
    (set_stats {| totalPlayers := totalPlayers (stats this);
                  playersSold := playersSold (stats this);
                  playersUnsold := playersUnsold (stats this) + 1;
                  totalAmountSpent := totalAmountSpent (stats this) |} this).

End AuctionEvent.

(** ** The engine: database, timers, socket events *)

Module Engine.

Record DB := {
  events : list AuctionEvent.Doc;
  players : list Player.Doc;
  teams : list Team.Doc;
  users : list User.Doc;
  bids : list Bid.Doc;
  budgets : gmap (ObjectId * ObjectId) TeamEventBudget.Doc
}.

(** An entry of the [timers] map of [utils/timerManager.js]. *)
Record TimerData := { timer_playerId : ObjectId; timer_duration : Z }.

(** What [emitAuctionEnded] sends as [finalStats]. *)
Record FinalStats := {
  fs_totalPlayers : Z;
  fs_playersSold : Z;
  fs_playersUnsold : Z;
  fs_totalAmountSpent : Z
}.

(** The socket events of [socket/socketServer.js], with the payload fields
    the engine computes. *)
Inductive Emit :=
| BidReceived (eventId bidId playerId teamId bidderId : ObjectId)
    (amount nextBidAmount : Z) (previousBid : option (ObjectId * Z))
| PlayerCurrent (eventId playerId : ObjectId) (currentBid : option (ObjectId * Z))
    (currentBidAmount : Z) (startTime : Z)
| PlayerSold (eventId playerId teamId : ObjectId) (owner : option ObjectId) (bidAmount : Z)
| PlayerUnsold (eventId playerId : ObjectId)
| TeamBalance (eventId userId : ObjectId) (teamBalance : Z)
| PlayersAvailable (eventId : ObjectId) (playerIds : list ObjectId)
| AuctionEnded (eventId : ObjectId) (finalStats : FinalStats).

(** The body of a [setTimeout] the engine schedules. *)
Inductive Task :=
| StartNextPlayer (eventId nextPlayerId : ObjectId).

Record World := {
  db : DB;
  timers : gmap ObjectId TimerData;
  emitted : list Emit;
  timeouts : list (Z * Task)
}.

Definition set_db (x : DB) (w : World) : World :=
  {| db := x; timers := timers w; emitted := emitted w; timeouts := timeouts w |}.

Definition set_timers (x : gmap ObjectId TimerData) (w : World) : World :=
  {| db := db w; timers := x; emitted := emitted w; timeouts := timeouts w |}.

Definition set_events (x : list AuctionEvent.Doc) (w : World) : World :=
  set_db {| events := x; players := players (db w); teams := teams (db w);
            users := users (db w); bids := bids (db w); budgets := budgets (db w) |} w.

Definition set_players (x : list Player.Doc) (w : World) : World :=
  set_db {| events := events (db w); players := x; teams := teams (db w);
            users := users (db w); bids := bids (db w); budgets := budgets (db w) |} w.

Definition set_teams (x : list Team.Doc) (w : World) : World :=
  set_db {| events := events (db w); players := players (db w); teams := x;
            users := users (db w); bids := bids (db w); budgets := budgets (db w) |} w.

Definition set_bids (x : list Bid.Doc) (w : World) : World :=
  set_db {| events := events (db w); players := players (db w); teams := teams (db w);
            users := users (db w); bids := x; budgets := budgets (db w) |} w.

Definition set_budgets (x : gmap (ObjectId * ObjectId) TeamEventBudget.Doc) (w : World) : World :=
  set_db {| events := events (db w); players := players (db w); teams := teams (db w);
            users := users (db w); bids := bids (db w); budgets := x |} w.

Definition onEvents {A} : M (list AuctionEvent.Doc) A -> M World A :=
  zoom (fun w => events (db w)) set_events.
Definition onPlayers {A} : M (list Player.Doc) A -> M World A :=
  zoom (fun w => players (db w)) set_players.
Definition onTeams {A} : M (list Team.Doc) A -> M World A :=
  zoom (fun w => teams (db w)) set_teams.
Definition onBids {A} : M (list Bid.Doc) A -> M World A :=
  zoom (fun w => bids (db w)) set_bids.
Definition onBudgets {A} : M (gmap (ObjectId * ObjectId) TeamEventBudget.Doc) A -> M World A :=
  zoom (fun w => budgets (db w)) set_budgets.

(** [io.to(room).emit(...)] *)
Definition emit (e : Emit) : M World unit :=
  modify (fun w => {| db := db w; timers := timers w;
                      emitted := emitted w ++ [e]; timeouts := timeouts w |}).

(** [setTimeout(task, delay)] *)
Definition setTimeout (delay : Z) (t : Task) : M World unit :=
  modify (fun w => {| db := db w; timers := timers w;
                      emitted := emitted w; timeouts := timeouts w ++ [(delay, t)] |}).

(** [clearPlayerTimer(eventId)] *)
Definition clearPlayerTimer (eventId : ObjectId) : M World unit :=
  modify (fun w => set_timers (delete eventId (timers w)) w).

(** [setPlayerTimer(eventId, playerId, callback, duration)]; the callback is
    always [createTimerCallback(eventId)]. *)
Definition setPlayerTimer (eventId playerId : ObjectId) (duration : Z) : M World unit :=
  run clearPlayerTimer eventId;
  modify (fun w => set_timers
    (<[eventId := {| timer_playerId := playerId; timer_duration := duration |}]> (timers w)) w).

(** [x?.toString() !== id] *)
Definition differs (x : option ObjectId) (id : ObjectId) : bool :=
  match x with
  | Some y => negb (id_eqb y id)
  | None => true
  end.

(** *** Category rotation: [utils/scheduledStart.js] *)

(** [getNextCategory(currentCategory)] over the sequence
    [['batsman', 'bowler', 'all-rounder']]. *)
Definition getNextCategory (currentCategory : Player.Role) : Player.Role :=
  match currentCategory with
  | Player.batsman => Player.bowler
  | Player.bowler => Player.all_rounder
  | _ => Player.batsman
  end.

(** [.sort({ basePrice: 1 })]: stable insertion by ascending base price. *)
Fixpoint insertByBasePrice (p : Player.Doc) (l : list Player.Doc) : list Player.Doc :=
  match l with
  | [] => [p]
  | q :: rest =>
      if Player.basePrice p <? Player.basePrice q then p :: l
      else q :: insertByBasePrice p rest
  end.

Definition sortByBasePrice (l : list Player.Doc) : list Player.Doc :=
  fold_right insertByBasePrice [] l.

(** [Player.find({ _id: { $in: event.players }, role }).sort({ basePrice: 1 })] *)
Definition playersInCategory (event : AuctionEvent.Doc) (category : Player.Role)
    (c : list Player.Doc) : list Player.Doc :=
  sortByBasePrice
    (List.filter (fun p => includes_id (Player._id p) (AuctionEvent.players event) &&
                           Player.role_eqb (Player.role p) category) c).

(** [Player.find({ _id: { $in: event.players } })] *)
Definition playersInEvent (event : AuctionEvent.Doc) (c : list Player.Doc) : list Player.Doc :=
  List.filter (fun p => includes_id (Player._id p) (AuctionEvent.players event)) c.

(** [l.filter(p => !soldPlayerIds.some(soldId => soldId.toString() ===
    p._id.toString()))] *)
Definition notSold (soldPlayerIds : list ObjectId) (l : list Player.Doc) : list Player.Doc :=
  List.filter (fun p => negb (includes_id (Player._id p) soldPlayerIds)) l.

(** The body of the [setTimeout] of [autoMoveToNextPlayer]. *)
Definition startNextPlayer (now : Z) (eventId nextPlayerId : ObjectId) : M World unit :=
  try_catch
    (do w <- get;
     match AuctionEvent.findById eventId (events (db w)) with
     | None => ret tt
     | Some currentEvent =>
         if negb (AuctionEvent.status_eqb (AuctionEvent.status currentEvent) AuctionEvent.live)
         then ret tt
         else
           do currentEvent <- onEvents (AuctionEvent.save now currentEvent
                (AuctionEvent.set_current (Some nextPlayerId) (Some now) currentEvent));
           do w <- get;
           match Player.findById nextPlayerId (players (db w)) with
           | None => throw (PlainError "TypeError: Cannot read properties of null")
           | Some nextPlayer =>
               let currentWinningBid := Bid.getWinningBid eventId nextPlayerId (bids (db w)) in
               let currentBidAmount :=
                 match currentWinningBid with
                 | Some b => Bid.amount b
                 | None => Player.basePrice nextPlayer
                 end in
               run emit (PlayerCurrent eventId nextPlayerId
                     (option_map (fun b => (Bid.teamId b, Bid.amount b)) currentWinningBid)
                     currentBidAmount now);
               setPlayerTimer eventId nextPlayerId (20 * 1000)
           end
     end)
    (fun _ => ret tt).

(** [autoMoveToNextPlayer(eventId)] *)
Definition autoMoveToNextPlayer (now : Z) (eventId : ObjectId) : M World unit :=
  try_catch
    (do w <- get;
     match AuctionEvent.findById eventId (events (db w)) with
     | None => ret tt
     | Some event =>
         if negb (AuctionEvent.status_eqb (AuctionEvent.status event) AuctionEvent.live)
         then ret tt
         else
           let currentCategory :=
             param_default (AuctionEvent.currentCategory event) Player.batsman in
           let soldPlayerIds := Bid.soldPlayerIds eventId (bids (db w)) in
           let availablePlayers :=
             notSold soldPlayerIds (playersInCategory event currentCategory (players (db w))) in
           let schedule (availablePlayers : list Player.Doc) : M World unit :=
             match availablePlayers with
             | nextPlayer :: _ =>
                 setTimeout 2000 (StartNextPlayer eventId (Player._id nextPlayer))
             | [] => ret tt
             end in
           match availablePlayers with
           | [] =>
               let nextCategory := getNextCategory currentCategory in
               if Player.role_eqb nextCategory Player.batsman &&
                  Player.role_eqb currentCategory Player.all_rounder &&
                  (length (notSold soldPlayerIds (playersInEvent event (players (db w)))) =? 0)%nat
               then ret tt
               else
                 do event <- onEvents (AuctionEvent.save now event
                      (AuctionEvent.set_currentCategory (Some nextCategory) event));
                 do w <- get;
                 schedule (notSold soldPlayerIds
                             (playersInCategory event nextCategory (players (db w))))
           | _ :: _ => schedule availablePlayers
           end
     end)
    (fun _ => ret tt).

(** *** Socket summaries: [socket/socketServer.js] *)

(** [emitAvailablePlayersUpdate(eventId)] *)
Definition emitAvailablePlayersUpdate (eventId : ObjectId) : M World unit :=
  try_catch
    (do w <- get;
     match AuctionEvent.findById eventId (events (db w)) with
     | None => ret tt
     | Some event =>
         let allPlayers := playersInEvent event (players (db w)) in
         let soldPlayerIds := Bid.soldPlayerIds eventId (bids (db w)) in
         emit (PlayersAvailable eventId
                 (List.map Player._id (notSold soldPlayerIds allPlayers)))
     end)
    (fun _ => ret tt).

(** [emitAuctionEnded(eventId)]: the counts of [finalStats]. *)
Definition emitAuctionEnded (eventId : ObjectId) : M World unit :=
  try_catch
    (do w <- get;
     match AuctionEvent.findById eventId (events (db w)) with
     | None => ret tt
     | Some event =>
         let soldPlayers := Player.soldInSummary (AuctionEvent.players event) (players (db w)) in
         let totalPlayers := Z.of_nat (length (AuctionEvent.players event)) in
         let playersSold := Z.of_nat (length soldPlayers) in
         emit (AuctionEnded eventId
                 {| fs_totalPlayers := totalPlayers;
                    fs_playersSold := playersSold;
                    fs_playersUnsold := totalPlayers - playersSold;
                    fs_totalAmountSpent :=
                      AuctionEvent.totalAmountSpent (AuctionEvent.stats event) |})
     end)
    (fun _ => ret tt).

(** *** The timer callback: [createTimerCallback] in
    [controllers/event.controller.js] *)

(** [currentEvent.currentPlayerId = null; currentEvent.currentPlayerStartTime
    = null; await currentEvent.save(); await autoMoveToNextPlayer(eventId)] *)
Definition requeueAndAdvance (now : Z) (eventId : ObjectId) (currentEvent : AuctionEvent.Doc)
    : M World unit :=
  run onEvents (AuctionEvent.save now currentEvent
        (AuctionEvent.set_current None None currentEvent));
  autoMoveToNextPlayer now eventId.

(** After a sale: complete the event when every player of the event has a
    winning bid, otherwise move on. *)
Definition completeOrAdvance (now : Z) (eventId : ObjectId) : M World unit :=
  do w <- get;
  match AuctionEvent.findById eventId (events (db w)) with
  | None => throw (PlainError "TypeError: Cannot read properties of null")
  | Some updatedEvent =>
      let soldPlayerIds := Bid.soldPlayerIds eventId (bids (db w)) in
      let allPlayerIds := AuctionEvent.players updatedEvent in
      let allSold :=
        (0 <? length allPlayerIds)%nat &&
        forallb (fun playerId => includes_id playerId soldPlayerIds) allPlayerIds in
      if allSold
      then run onEvents (AuctionEvent.completeAuction now updatedEvent);
           emitAuctionEnded eventId
      else autoMoveToNextPlayer now eventId
  end.

(** The branch of the callback for a winning bid in auto mode, once the team
    of the bid is found. *)
Definition finalizeSold (now : Z) (eventId playerId : ObjectId)
    (currentEvent : AuctionEvent.Doc) (player : Player.Doc) (winningBid : Bid.Doc)
    (team : Team.Doc) : M World unit :=
  run onPlayers (Player.markAsSold player (Team._id team) (Bid.amount winningBid) eventId);
  let eventBudget :=
    or_default (AuctionEvent.startingBudget (AuctionEvent.settings currentEvent)) 10000 in
  do teamEventBudget <-
    onBudgets (TeamEventBudget.getOrCreate (Team._id team) eventId (Some eventBudget));
  run onBudgets (TeamEventBudget.addPurchase teamEventBudget (Bid.amount winningBid));
  run (if negb (includes_id playerId (Team.players team))
       then run onTeams (Team.save (Team.push_player playerId team)); ret tt
       else ret tt);
  do currentEvent <- onEvents (AuctionEvent.updatePlayerSold now currentEvent
                                 (Bid.amount winningBid));
  do w <- get;
  let owner :=
    match Team.ownerId team with
    | Some ownerId => User.findById ownerId (users (db w))
    | None => None
    end in
  run onEvents (AuctionEvent.save now currentEvent
        (AuctionEvent.set_current None None currentEvent));
  run emit (PlayerSold eventId (Player._id player) (Team._id team)
              (option_map User._id owner) (Bid.amount winningBid));
  do w <- get;
  run match TeamEventBudget.findOne (Team._id team) eventId (budgets (db w)), owner with
      | Some updatedEventBudget, Some owner =>
          emit (TeamBalance eventId (User._id owner)
                  (Z.max 0 (TeamEventBudget.remainingBudget updatedEventBudget)))
      | _, _ => ret tt
      end;
  run emitAvailablePlayersUpdate eventId;
  completeOrAdvance now eventId.

(** The function [createTimerCallback(eventId)] returns, called by the timer
    with the event and the player it was armed for. *)
Definition timerCallback (now : Z) (eventIdParam playerId : ObjectId) : M World unit :=
  try_catch
    (do w <- get;
     match AuctionEvent.findById eventIdParam (events (db w)) with
     | None => ret tt
     | Some currentEvent =>
         if differs (AuctionEvent.currentPlayerId currentEvent) playerId then ret tt
         else
           let winningBid := Bid.getWinningBid eventIdParam playerId (bids (db w)) in
           match Player.findById playerId (players (db w)) with
           | None => ret tt
           | Some player =>
               if negb (Player.status_eqb (Player.status player) Player.available)
               then ret tt
               else
                 match AuctionEvent.autoMode (AuctionEvent.settings currentEvent) with
                 | Some false =>
                     (* Manual mode *)
                     match winningBid with
                     | None => requeueAndAdvance now eventIdParam currentEvent
                     | Some _ => ret tt
                     end
                 | _ =>
                     (* Auto mode *)
                     match winningBid with
                     | Some winningBid =>
                         match Team.findById (Bid.teamId winningBid) (teams (db w)) with
                         | Some team =>
                             finalizeSold now eventIdParam playerId currentEvent player
                               winningBid team
                         | None => ret tt
                         end
                     | None => requeueAndAdvance now eventIdParam currentEvent
                     end
                 end
           end
     end)
    (fun _ => ret tt).

(** *** Bidding: [placeBid] in [controllers/bid.controller.js] *)

Record BidRequest := {
  user_userId : ObjectId;         (* [req.user.userId] *)
  user_role : User.Role;          (* [req.user.role] *)
  body_eventId : option ObjectId;
  body_playerId : option ObjectId;
  body_amount : JsValue
}.

(** [!x] on a request field *)
Definition falsy_id (x : option ObjectId) : bool :=
  match x with
  | Some s => String.eqb s ""
  | None => true
  end.

Definition falsy (v : JsValue) : bool :=
  match v with
  | JsNum (Finite z) => z =? 0
  | JsNum NaN => true
  | JsNum _ => false
  | JsString s => String.eqb s ""
  | JsBool b => negb b
  | JsNull | JsUndefined => true
  end.

(** The [reason] of a rejected validation, as the string the controller
    puts in the error. *)
Definition reason_message (r : AuctionRules.Reason) : string :=
  match r with
  | AuctionRules.NotPositiveNumber => "Bid amount must be a positive number"
  | AuctionRules.MaxBidExceeded cap => "Maximum bid per player is " +:+ showZ cap
  | AuctionRules.MaxAlreadyReached => "Maximum bid for this player has already been reached"
  | AuctionRules.BelowMinimum m c i =>
      "Bid must be at least " +:+ showZ m +:+ " (current: " +:+ showZ c +:+
      ", increment: " +:+ showZ i +:+ ")"
  | AuctionRules.IncrementRulesViolated n =>
      "Bid must follow increment rules. Next valid bid is " +:+ showZ n
  | AuctionRules.InsufficientBalance r a =>
      "Insufficient balance. Required: " +:+ showZ r +:+ ", Available: " +:+ showZ a
  | AuctionRules.TeamFull l => "Team has reached maximum player limit of " +:+ showZ l
  | AuctionRules.InsufficientBalanceForBid => "Insufficient balance to place this bid"
  | AuctionRules.BidIsValid => "Bid is valid"
  end.

(** What [placeBid] has read when its validation passes. *)
Record Observed := {
  ob_eventId : ObjectId;
  ob_playerId : ObjectId;
  ob_amount : Z;
  ob_event : AuctionEvent.Doc;
  ob_user : User.Doc;
  ob_team : Team.Doc;
  ob_currentWinningBid : option Bid.Doc
}.

(** [placeBid] up to and including the [canPlaceBid] verdict. *)
Definition placeBid_validate (req : BidRequest) : M World Observed :=
  if negb match user_role req with User.team_owner => true | _ => false end
  then throw (HttpError 403 "Only team owners can place bids")
  else if falsy_id (body_eventId req) || falsy_id (body_playerId req) || falsy (body_amount req)
  then throw (HttpError 400 "Event ID, Player ID, and amount are required")
  else
    match body_eventId req, body_playerId req with
    | Some eventId, Some playerId =>
        do w <- get;
        match AuctionEvent.findById eventId (events (db w)) with
        | None => throw (HttpError 404 "Auction event not found")
        | Some event =>
            if negb (AuctionEvent.status_eqb (AuctionEvent.status event) AuctionEvent.live)
            then throw (HttpError 400 "Auction is not live")
            else if differs (AuctionEvent.currentPlayerId event) playerId
            then throw (HttpError 400 "This player is not currently on auction")
            else
              match Player.findById playerId (players (db w)) with
              | None => throw (HttpError 404 "Player not found")
              | Some player =>
                  match User.findById (user_userId req) (users (db w)) with
                  | None => throw (HttpError 404 "User not found")
                  | Some user =>
                      match User.teamId user with
                      | None => throw (HttpError 400 "User does not have a team assigned")
                      | Some teamId =>
                          match Team.findById teamId (teams (db w)) with
                          | None => throw (HttpError 404 "Team not found")
                          | Some team =>
                              let eventBudget :=
                                or_default (AuctionEvent.startingBudget
                                              (AuctionEvent.settings event)) 10000 in
                              do teamEventBudget <-
                                onBudgets (TeamEventBudget.getOrCreate (Team._id team)
                                             eventId (Some eventBudget));
                              let currentWinningBid :=
                                Bid.getWinningBid eventId playerId (bids (db w)) in
                              let currentBidAmount :=
                                match currentWinningBid with
                                | Some b => Bid.amount b
                                | None => Player.basePrice player
                                end in
                              let validation :=
                                AuctionRules.canPlaceBid (body_amount req)
                                  (Some currentBidAmount)
                                  (Some (TeamEventBudget.remainingBudget teamEventBudget))
                                  (Some (Z.of_nat (length (Team.players team))))
                                  {| AuctionRules.opt_currentBidAmount := Some currentBidAmount;
                                     AuctionRules.opt_isOwnerBidding := Some true |} in
                              if negb (AuctionRules.valid validation)
                              then throw (HttpError 400
                                            (reason_message (AuctionRules.reason validation)))
                              else
                                match body_amount req with
                                | JsNum (Finite amount) =>
                                    ret {| ob_eventId := eventId; ob_playerId := playerId;
                                           ob_amount := amount; ob_event := event;
                                           ob_user := user; ob_team := team;
                                           ob_currentWinningBid := currentWinningBid |}
                                | _ => throw (HttpError 400
                                                (reason_message AuctionRules.NotPositiveNumber))
                                end
                          end
                      end
                  end
              end
        end
    | _, _ => throw (HttpError 400 "Event ID, Player ID, and amount are required")
    end.

(** [new Bid({ ..., status: 'accepted', isWinningBid: true })]; [bidId] is
    the fresh [_id] the driver generates. *)
Definition newBid (now : Z) (bidId : ObjectId) (o : Observed) : Bid.Doc :=
  {| Bid._id := bidId; Bid.auctionEventId := ob_eventId o; Bid.playerId := ob_playerId o;
     Bid.teamId := Team._id (ob_team o); Bid.bidderId := User._id (ob_user o);
     Bid.amount := ob_amount o; Bid.status := Bid.accepted; Bid.isWinningBid := true;
     Bid.rejectionReason := None; Bid.bidTime := now; Bid.outbidAt := None |}.

(** [placeBid] from the creation of the bid to the response. *)
Definition placeBid_record (now : Z) (bidId : ObjectId) (o : Observed) : M World Bid.Doc :=
  do bid <- onBids (Bid.recordBid (ob_currentWinningBid o) (newBid now bidId o) now);
  let bidIncrement :=
    or_default (AuctionEvent.bidIncrement (AuctionEvent.settings (ob_event o))) 50 in
  let nextBidAmount := ob_amount o + bidIncrement in
  run clearPlayerTimer (ob_eventId o);
  run setPlayerTimer (ob_eventId o) (ob_playerId o) (20 * 1000);
  run onEvents (AuctionEvent.save now (ob_event o)
        (AuctionEvent.set_currentPlayerStartTime (Some now) (ob_event o)));
  run emit (BidReceived (ob_eventId o) (Bid._id bid) (ob_playerId o)
              (Team._id (ob_team o)) (User._id (ob_user o)) (ob_amount o) nextBidAmount
              (option_map (fun b => (Bid.teamId b, Bid.amount b)) (ob_currentWinningBid o)));
  do w <- get;
  run match TeamEventBudget.findOne (Team._id (ob_team o)) (ob_eventId o) (budgets (db w)) with
      | Some updatedEventBudget =>
          emit (TeamBalance (ob_eventId o) (User._id (ob_user o))
                  (Z.max 0 (TeamEventBudget.remainingBudget updatedEventBudget)))
      | None => ret tt
      end;
  ret bid.

(** [placeBid(req, res, next)]: the value is the bid of the 201 response, the
    error the one handed to [next]. *)
Definition placeBid (now : Z) (bidId : ObjectId) (req : BidRequest) : M World Bid.Doc :=
  do o <- placeBid_validate req;
  placeBid_record now bidId o.

(** *** The error middleware: [middleware/error.middleware.js] *)





(** The timeout of [setPlayerTimer] firing: the entry leaves the map, then
    the callback runs. *)
Definition timerExpired (now : Z) (eventId playerId : ObjectId) : M World unit :=
  run modify (fun w => set_timers (delete eventId (timers w)) w);
  try_catch (timerCallback now eventId playerId) (fun _ => ret tt).

(** *** Operator commands: [controllers/auction.controller.js] and
    [startPlayerAuction] *)

(** [finalizePlayerUnsold(req, res, next)]: the value is the 200 response,
    the error goes to [next]. *)
Definition finalizePlayerUnsold (now : Z) (eventId playerId : ObjectId) : M World unit :=
  do w <- get;
  match AuctionEvent.findById eventId (events (db w)) with
  | None => throw (HttpError 404 "Auction event not found")
  | Some event =>
      if negb (AuctionEvent.status_eqb (AuctionEvent.status event) AuctionEvent.live)
      then throw (HttpError 400 "Auction is not live")
      else
        match Player.findById playerId (players (db w)) with
        | None => throw (HttpError 404 "Player not found")
        | Some player =>
            do player <- onPlayers (Player.markAsUnsold player);
            do event <- onEvents (AuctionEvent.updatePlayerUnsold now event);
            run clearPlayerTimer eventId;
            run onEvents (AuctionEvent.save now event
                  (AuctionEvent.set_current None None event));
            emit (PlayerUnsold eventId (Player._id player))
        end
  end.

(** [finalizePlayerSold(req, res, next)] *)
Definition finalizePlayerSold (now : Z) (eventId playerId : ObjectId) : M World unit :=
  do w <- get;
  match AuctionEvent.findById eventId (events (db w)) with
  | None => throw (HttpError 404 "Auction event not found")
  | Some event =>
      if negb (AuctionEvent.status_eqb (AuctionEvent.status event) AuctionEvent.live)
      then throw (HttpError 400 "Auction is not live")
      else
        match Bid.getWinningBid eventId playerId (bids (db w)) with
        | None => throw (HttpError 400 "No winning bid found for this player")
        | Some winningBid =>
            match Player.findById playerId (players (db w)) with
            | None => throw (HttpError 404 "Player not found")
            | Some player =>
                match Team.findById (Bid.teamId winningBid) (teams (db w)) with
                | None => throw (HttpError 404 "Team not found")
                | Some team =>
                    let owner :=
                      match Team.ownerId team with
                      | Some ownerId => User.findById ownerId (users (db w))
                      | None => None
                      end in
                    run onPlayers (Player.markAsSold player (Team._id team)
                                     (Bid.amount winningBid) eventId);
                    let eventBudget :=
                      or_default (AuctionEvent.startingBudget (AuctionEvent.settings event))
                        10000 in
                    do teamEventBudget <-
                      onBudgets (TeamEventBudget.getOrCreate (Team._id team) eventId
                                   (Some eventBudget));
                    run onBudgets (TeamEventBudget.addPurchase teamEventBudget
                                     (Bid.amount winningBid));
                    run (if negb (includes_id playerId (Team.players team))
                         then run onTeams (Team.save (Team.push_player playerId team)); ret tt
                         else ret tt);
                    do event <- onEvents (AuctionEvent.updatePlayerSold now event
                                            (Bid.amount winningBid));
                    run onEvents (AuctionEvent.save now event
                          (AuctionEvent.set_current None None event));
                    run emit (PlayerSold eventId (Player._id player) (Team._id team)
                                (option_map User._id owner) (Bid.amount winningBid));
                    do w <- get;
                    match owner,
                          TeamEventBudget.findOne (Team._id team) eventId (budgets (db w)) with
                    | Some owner, Some updatedEventBudget =>
                        emit (TeamBalance eventId (User._id owner)
                                (Z.max 0 (TeamEventBudget.remainingBudget updatedEventBudget)))
                    | _, _ => ret tt
                    end
                end
            end
        end
  end.

(** [startPlayerAuction(req, res, next)] *)
Definition startPlayerAuction (now : Z) (role : User.Role) (id playerId : ObjectId)
    : M World unit :=
  if negb match role with User.admin => true | _ => false end
  then throw (HttpError 403 "Only admin can start player auction")
  else
    do w <- get;
    match AuctionEvent.findById id (events (db w)) with
    | None => throw (HttpError 404 "Auction event not found")
    | Some event =>
        if negb (AuctionEvent.status_eqb (AuctionEvent.status event) AuctionEvent.live)
        then throw (HttpError 400 "Auction must be live to start player auction")
        else
          match Player.findById playerId (players (db w)) with
          | None => throw (HttpError 404 "Player not found")
          | Some player =>
              if negb (includes_id playerId (AuctionEvent.players event))
              then throw (HttpError 400 "Player is not part of this auction event")
              else if negb (Player.status_eqb (Player.status player) Player.available)
              then throw (HttpError 400 "Player cannot be put on auction")
              else
                let event :=
                  match AuctionEvent.currentCategory event with
                  | Some _ => event
                  | None => AuctionEvent.set_currentCategory (Some Player.batsman) event
                  end in
                do saved <- onEvents (AuctionEvent.save now event
                              (AuctionEvent.set_current (Some playerId) (Some now) event));
                run setPlayerTimer id playerId (20 * 1000);
                do w <- get;
                let currentWinningBid := Bid.getWinningBid id playerId (bids (db w)) in
                let currentBidAmount :=
                  match currentWinningBid with
                  | Some b => Bid.amount b
                  | None => Player.basePrice player
                  end in
                run emit (PlayerCurrent id playerId
                      (option_map (fun b => (Bid.teamId b, Bid.amount b)) currentWinningBid)
                      currentBidAmount now);
                emitAvailablePlayersUpdate id
          end
    end.

(** *** What the properties speak about *)

Definition findEvent (eventId : ObjectId) (w : World) : option AuctionEvent.Doc :=
  AuctionEvent.findById eventId (events (db w)).

(** The freshness test of the callback: the event exists and the player is
    its [currentPlayerId]. *)
Definition isCurrentPlayer (eventId playerId : ObjectId) (w : World) : bool :=
  match findEvent eventId w with
  | Some event => negb (differs (AuctionEvent.currentPlayerId event) playerId)
  | None => false
  end.

(** The budget row [getOrCreate] hands to the sale: the stored one, or the
    fresh one at the event's starting budget. *)
Definition budgetOf (team : ObjectId) (event : AuctionEvent.Doc) (w : World)
    : TeamEventBudget.Doc :=
  match budgets (db w) !! (team, AuctionEvent._id event) with
  | Some row => row
  | None =>
      let b := or_default (AuctionEvent.startingBudget (AuctionEvent.settings event)) 10000 in
      {| TeamEventBudget.teamId := team;
         TeamEventBudget.auctionEventId := AuctionEvent._id event;
         TeamEventBudget.budget := b; TeamEventBudget.spent := 0;
         TeamEventBudget.remainingBudget := b |}
  end.

(** The stored row of a pair, if any, is filed under its own key, passes the
    validators and satisfies the ledger invariant, as every [save()] leaves
    it. *)
Definition ledgerRowOk (team event : ObjectId) (w : World) : Prop :=
  match budgets (db w) !! (team, event) with
  | Some row =>
      TeamEventBudget.key row = (team, event) /\
      TeamEventBudget.validate row = None /\
      TeamEventBudget.row_ok row
  | None => True
  end.


(** A budget row after a purchase of [amount]. *)
Definition debited (row : TeamEventBudget.Doc) (amount : Z) : TeamEventBudget.Doc :=
  {| TeamEventBudget.teamId := TeamEventBudget.teamId row;
     TeamEventBudget.auctionEventId := TeamEventBudget.auctionEventId row;
     TeamEventBudget.budget := TeamEventBudget.budget row;
     TeamEventBudget.spent := TeamEventBudget.spent row + amount;
     TeamEventBudget.remainingBudget :=
       TeamEventBudget.budget row - (TeamEventBudget.spent row + amount) |}.

(** An event after the sale of a player for [amount]: the statistics count
    it and no player is current. *)
Definition afterSale (e : AuctionEvent.Doc) (amount : Z) : AuctionEvent.Doc :=
  AuctionEvent.set_current None None
    (AuctionEvent.set_stats
       {| AuctionEvent.totalPlayers := AuctionEvent.totalPlayers (AuctionEvent.stats e);
          AuctionEvent.playersSold := AuctionEvent.playersSold (AuctionEvent.stats e) + 1;
          AuctionEvent.playersUnsold := AuctionEvent.playersUnsold (AuctionEvent.stats e);
          AuctionEvent.totalAmountSpent :=
            AuctionEvent.totalAmountSpent (AuctionEvent.stats e) + amount |} e).

(** [allSold] of the callback. *)
Definition allSold (event : AuctionEvent.Doc) (w : World) : bool :=
  (0 <? length (AuctionEvent.players event))%nat &&
  forallb (fun playerId =>
             includes_id playerId (Bid.soldPlayerIds (AuctionEvent._id event) (bids (db w))))
          (AuctionEvent.players event).

(** A player the rotation can still pick in an event: of the event, and
    without a winning bid in it. *)
Definition eligible (event : AuctionEvent.Doc) (playerId : ObjectId) (w : World) : bool :=
  existsb (fun p => id_eqb (Player._id p) playerId)
    (notSold (Bid.soldPlayerIds (AuctionEvent._id event) (bids (db w)))
       (playersInEvent event (players (db w)))).

End Engine.

(** ** A small auction used in the examples *)

Module Samples.
Import Engine.

Definition player (id : ObjectId) (r : Player.Role) (base : Z) (st : Player.Status)
    : Player.Doc :=
  {| Player._id := id; Player.name := id; Player.age := 24; Player.role := r;
     Player.basePrice := base; Player.currentPrice := Some base; Player.photo := None;
     Player.statistics := {| Player.matches := 0; Player.runs := 0;
                             Player.wickets := 0; Player.average := 0 |};
     Player.status := st; Player.teamId := None; Player.soldPrice := None;
     Player.auctionEventId := None |}.

Definition team (id owner : ObjectId) : Team.Doc :=
  {| Team._id := id; Team.name := id; Team.ownerId := Some owner; Team.budget := 0;
     Team.spent := 0; Team.remainingBudget := 0; Team.players := [];
     Team.status := Team.active |}.

Definition owner (id teamId : ObjectId) : User.Doc :=
  {| User._id := id; User.name := id; User.role := User.team_owner;
     User.teamId := Some teamId |}.

Definition event (current : option ObjectId) (auto : option bool) : AuctionEvent.Doc :=
  {| AuctionEvent._id := "event1"; AuctionEvent.startDate := 0;
     AuctionEvent.endDate := None; AuctionEvent.status := AuctionEvent.live;
     AuctionEvent.players := ["player1"; "player2"];
     AuctionEvent.participatingTeams := ["team1"; "team2"];
     AuctionEvent.currentPlayerId := current;
     AuctionEvent.currentPlayerStartTime := option_map (fun _ => 1000) current;
     AuctionEvent.currentCategory := Some Player.batsman;
     AuctionEvent.settings :=
       {| AuctionEvent.bidIncrement := Some 50; AuctionEvent.bidTimer := Some 60;
          AuctionEvent.startingBudget := Some 1000; AuctionEvent.autoMode := auto |};
     AuctionEvent.stats :=
       {| AuctionEvent.totalPlayers := 2; AuctionEvent.playersSold := 0;
          AuctionEvent.playersUnsold := 0; AuctionEvent.totalAmountSpent := 0 |};
     AuctionEvent.createdBy := "admin1"; AuctionEvent.startedBy := Some "admin1";
     AuctionEvent.startedAt := Some 500; AuctionEvent.completedAt := None |}.

Definition winningBid (id team bidder : ObjectId) (amt time : Z) : Bid.Doc :=
  {| Bid._id := id; Bid.auctionEventId := "event1"; Bid.playerId := "player1";
     Bid.teamId := team; Bid.bidderId := bidder; Bid.amount := amt;
     Bid.status := Bid.winning; Bid.isWinningBid := true;
     Bid.rejectionReason := None; Bid.bidTime := time; Bid.outbidAt := None |}.

(** A live event with [player1] on auction, two batsmen, two teams. *)
Definition world (auto : option bool) (bids : list Bid.Doc) : World :=
  {| db := {| events := [event (Some "player1") auto];
              players := [player "player1" Player.batsman 20 Player.available;
                          player "player2" Player.batsman 30 Player.available];
              teams := [team "team1" "user1"; team "team2" "user2"];
              users := [owner "user1" "team1"; owner "user2" "team2"];
              bids := bids;
              budgets := ∅ |};
     timers := {[ "event1" := {| timer_playerId := "player1"; timer_duration := 20000 |} ]};
     emitted := [];
     timeouts := [] |}.

Definition bidRequest (user : ObjectId) (amount : Z) : BidRequest :=
  {| user_userId := user; user_role := User.team_owner;
     body_eventId := Some "event1"; body_playerId := Some "player1";
     body_amount := JsNum (Finite amount) |}.

(** The operator marks [player1] unsold, puts [player2] on auction, nobody
    bids and its timer expires: the rotation picks the cheapest batsman
    without a winning bid, [player1] again, whose global status is now
    [unsold]. *)
Definition afterUnsold : World :=
  exec (finalizePlayerUnsold 2000 "event1" "player1") (world (Some true) []).

Definition player2OnAuction : World :=
  exec (startPlayerAuction 3000 User.admin "event1" "player2") afterUnsold.

Definition player2Expired : World :=
  exec (timerExpired 23000 "event1" "player2") player2OnAuction.

Definition unsoldPlayerOnAuction : World :=
  exec (startNextPlayer 25000 "event1" "player1") player2Expired.

(** A team then bids 25 on it. *)
Definition unsoldPlayerWithBid : World :=
  exec (placeBid 30000 "bid1" (bidRequest "user1" 25)) unsoldPlayerOnAuction.

(** A bid as [placeBid] builds it, before it is saved. *)
Definition sample_bid (id team bidder : ObjectId) (amt time : Z) : Bid.Doc :=
  {| Bid._id := id; Bid.auctionEventId := "event1"; Bid.playerId := "player1";
     Bid.teamId := team; Bid.bidderId := bidder; Bid.amount := amt;
     Bid.status := Bid.accepted; Bid.isWinningBid := true;
     Bid.rejectionReason := None; Bid.bidTime := time; Bid.outbidAt := None |}.

Definition sample_player : Player.Doc := player "player1" Player.batsman 20 Player.available.

(** Two owners bid 25 on [player1] while no bid is stored yet: both
    requests are validated before either bid is recorded. *)
Definition observed (user teamId : ObjectId) (amount : Z) : Observed :=
  {| ob_eventId := "event1"; ob_playerId := "player1"; ob_amount := amount;
     ob_event := event (Some "player1") (Some true);
     ob_user := owner user teamId; ob_team := team teamId user;
     ob_currentWinningBid := None |}.

Definition firstValidated : World :=
  exec (placeBid_validate (bidRequest "user1" 25)) (world (Some true) []).

Definition bothValidated : World :=
  exec (placeBid_validate (bidRequest "user2" 25)) firstValidated.

Definition firstRecorded : World :=
  exec (placeBid_record 2000 "bidA" (observed "user1" "team1" 25)) bothValidated.

Definition secondRefused : World :=
  exec (placeBid_record 2001 "bidB" (observed "user2" "team2" 25)) firstRecorded.

End Samples.

(** ** The rest of [utils/auctionRules.js] *)

Module PlainSale.

(** The plain objects [finalizePlayer] receives, with the properties it
    reads or writes; a property that is [None] is [undefined]. The spread
    [{ ...player }] carries every other property over unchanged. *)
Record PlainPlayer := {
  pp_id : option ObjectId;          (* [player._id] *)
  pp_altId : option ObjectId;       (* [player.id] *)
  pp_name : option string;
  pp_status : option string;
  pp_basePrice : option Z;
  pp_soldPrice : option Z;
  pp_currentPrice : option Z;
  pp_teamId : option ObjectId
}.

Record PlainTeam := {
  pt_id : option ObjectId;          (* [team._id] *)
  pt_altId : option ObjectId;       (* [team.id] *)
  pt_name : option string;
  pt_budget : option Z;
  pt_spent : option Z;
  pt_remainingBudget : option Z;
  pt_players : option (list (option ObjectId));   (* [None]: not an array *)
  pt_playerCount : option Z
}.

(** [a || b] on strings: the empty string is falsy. *)
Definition or_string (a b : option string) : option string :=
  match a with
  | Some s => if String.eqb s "" then b else Some s
  | None => b
  end.

Definition or_text (a : option string) (d : string) : string :=
  match or_string a None with Some s => s | None => d end.

Inductive SaleResult :=
| SaleFailure (error : string)
| SaleSuccess (updatedPlayer : PlainPlayer) (updatedTeam : PlainTeam) (message : string).

(** [team.remainingBudget !== undefined ? team.remainingBudget
    : (team.budget || 0) - (team.spent || 0)] *)
Definition teamBalance (team : PlainTeam) : Z :=
  match pt_remainingBudget team with
  | Some r => r
  | None => or_default (pt_budget team) 0 - or_default (pt_spent team) 0
  end.

(** [Array.isArray(team.players) ? team.players.length : (team.playerCount || 0)] *)
Definition currentPlayerCount (team : PlainTeam) : Z :=
  match pt_players team with
  | Some l => Z.of_nat (length l)
  | None => or_default (pt_playerCount team) 0
  end.

(** [player.status && player.status !== 'available']: the status that blocks
    the sale, if any. *)
Definition blockingStatus (player : PlainPlayer) : option string :=
  match or_string (pp_status player) None with
  | Some st => if String.eqb st "available" then None else Some st
  | None => None
  end.

(** [finalizePlayer(player, team, bidAmount)]; an argument that is [None] is
    not an object. *)
Definition finalizePlayer (player : option PlainPlayer) (team : option PlainTeam)
    (bidAmount : JsValue) : SaleResult :=
  match player, team with
  | None, _ => SaleFailure "Invalid player object"
  | Some _, None => SaleFailure "Invalid team object"
  | Some player, Some team =>
      match bidAmount with
      | JsNum (Finite amount) =>
          if amount <=? 0 then SaleFailure "Invalid bid amount"
          else
            (* Validation 1 *)
            match blockingStatus player with
            | Some st =>
                SaleFailure ("Player is not available for purchase. Current status: " +:+ st)
            | None =>
                (* Validation 2 *)
                let balance := teamBalance team in
                if amount >? balance
                then SaleFailure ("Team cannot afford this player. Required: " +:+ showZ amount
                                  +:+ ", Available: " +:+ showZ balance)
                (* Validation 3 *)
                else if currentPlayerCount team
                          >=? AuctionRules.MAX_PLAYERS_PER_TEAM AuctionRules.AUCTION_CONSTANTS
                then SaleFailure ("Team has reached maximum player limit of " +:+
                       showZ (AuctionRules.MAX_PLAYERS_PER_TEAM AuctionRules.AUCTION_CONSTANTS))
                (* Validation 4 *)
                else if amount <? or_default (pp_basePrice player)
                                    (AuctionRules.BASE_PRICE AuctionRules.AUCTION_CONSTANTS)
                then SaleFailure ("Bid amount must be at least the base price of " +:+
                       showZ (or_default (pp_basePrice player)
                                (AuctionRules.BASE_PRICE AuctionRules.AUCTION_CONSTANTS)))
                else if amount >? AuctionRules.MAX_BID_PER_PLAYER AuctionRules.AUCTION_CONSTANTS
                then SaleFailure ("Bid amount exceeds maximum allowed bid of " +:+
                       showZ (AuctionRules.MAX_BID_PER_PLAYER AuctionRules.AUCTION_CONSTANTS))
                else
                  let updatedPlayer :=
                    {| pp_id := pp_id player; pp_altId := pp_altId player;
                       pp_name := pp_name player; pp_status := Some "sold";
                       pp_basePrice := pp_basePrice player;
                       pp_soldPrice := Some amount; pp_currentPrice := Some amount;
                       pp_teamId := or_string (pt_id team) (pt_altId team) |} in
                  let newPlayer := or_string (pp_id player) (pp_altId player) in
                  let updatedTeam :=
                    {| pt_id := pt_id team; pt_altId := pt_altId team;
                       pt_name := pt_name team; pt_budget := pt_budget team;
                       pt_spent := Some (or_default (pt_spent team) 0 + amount);
                       pt_remainingBudget := Some (balance - amount);
                       pt_players :=
                         Some match pt_players team with
                              | Some l => l ++ [newPlayer]
                              | None => [newPlayer]
                              end;
                       pt_playerCount :=
                         match pt_players team with
                         | Some _ => pt_playerCount team
                         | None => Some (or_default (pt_playerCount team) 0 + 1)
                         end |} in
                  SaleSuccess updatedPlayer updatedTeam
                    ("Player " +:+ or_text (pp_name player) "Unknown" +:+ " sold to " +:+
                     or_text (pt_name team) "Unknown" +:+ " for " +:+ showZ amount)
            end
      | _ => SaleFailure "Invalid bid amount"
      end
  end.

End PlainSale.

(** ** Clocks: [getRemainingTime] and [isTimerExpired] *)

Module Clock.

(** [getRemainingTime(startTime)] of [utils/auctionRules.js], read at the
    clock value [now] that [new Date()] returns. Dates are milliseconds since
    the epoch; [None] is a start time that is missing or not a [Date]. *)
Definition getRemainingTime (now : Z) (startTime : option Z) : Z :=
  match startTime with
  | None => AuctionRules.TIMER_SECONDS AuctionRules.AUCTION_CONSTANTS
  | Some t =>
      let elapsed := (now - t) / 1000 in
      Z.max 0 (AuctionRules.TIMER_SECONDS AuctionRules.AUCTION_CONSTANTS - elapsed)
  end.

(** [isTimerExpired(startTime)] *)
Definition isTimerExpired (now : Z) (startTime : option Z) : bool :=
  getRemainingTime now startTime =? 0.

(** [getRemainingTime(startTime)] of [utils/timerManager.js] *)
Definition managerRemainingTime (now : Z) (startTime : option Z) : Z :=
  match startTime with
  | None => 60
  | Some t =>
      let elapsed := (now - t) / 1000 in
      Z.max 0 (60 - elapsed)
  end.

End Clock.

(** ** Queries on bids: [Bid.getHighestBidAmount] *)

Module BidQueries.

(** The filter [{ auctionEventId, playerId, status: { $in: ['accepted',
    'winning'] } }]. *)
Definition is_standing_for (event player : ObjectId) (d : Bid.Doc) : bool :=
  id_eqb (Bid.auctionEventId d) event && id_eqb (Bid.playerId d) player &&
  (Bid.status_eqb (Bid.status d) Bid.accepted || Bid.status_eqb (Bid.status d) Bid.winning).

(** The document with the greatest [amount], the first one on a tie:
    [.sort({ amount: -1 })] followed by taking the head. *)
Fixpoint highest (c : list Bid.Doc) : option Bid.Doc :=
  match c with
  | [] => None
  | d :: rest =>
      match highest rest with
      | Some d' => if Bid.amount d' >? Bid.amount d then Some d' else Some d
      | None => Some d
      end
  end.

(** [Bid.getHighestBidAmount(auctionEventId, playerId)] *)
Definition getHighestBidAmount (event player : ObjectId) (c : list Bid.Doc) : Z :=
  match highest (List.filter (is_standing_for event player) c) with
  | Some highestBid => Bid.amount highestBid
  | None => 0
  end.

End BidQueries.

(** ** The order of the rotation *)

Module RotationOrder.


End RotationOrder.

(** ** The current bid: [getCurrentBid] in [controllers/bid.controller.js] *)

Module CurrentBid.
Import Engine.

(** The [data] of the 200 response; a field that is [None] is [null] or
    absent. *)
Record Data := {
  currentPlayer : option Player.Doc;
  currentBid : option Bid.Doc;
  currentBidAmount : option Z;
  nextBidAmount : option Z
}.

(** [getCurrentBid(req, res, next)] for [req.params.eventId]. The populated
    [currentPlayerId] is the player document the id refers to, [null] when
    there is none. *)
Definition getCurrentBid (eventId : ObjectId) : M World Data :=
  do w <- get;
  match AuctionEvent.findById eventId (events (db w)) with
  | None => throw (HttpError 404 "Auction event not found")
  | Some event =>
      let populated :=
        match AuctionEvent.currentPlayerId event with
        | Some playerId => Player.findById playerId (players (db w))
        | None => None
        end in
      match populated with
      | None =>
          ret {| currentPlayer := None; currentBid := None;
                 currentBidAmount := None; nextBidAmount := None |}
      | Some player =>
          let currentWinningBid :=
            Bid.getWinningBid eventId (Player._id player) (bids (db w)) in
          let amount :=
            match currentWinningBid with
            | Some b => Bid.amount b
            | None => Player.basePrice player
            end in
          ret {| currentPlayer := Some player; currentBid := currentWinningBid;
                 currentBidAmount := Some amount;
                 nextBidAmount := AuctionRules.getNextBidAmount (Some amount) |}
      end
  end.

End CurrentBid.

(** * Properties *)

(** ** The bidding rules *)

Ltac zbool :=
  repeat match goal with
  | |- context [?a >=? ?b] => destruct (Z.geb_spec a b)
  | |- context [?a >? ?b] => destruct (Z.gtb_spec a b)
  | |- context [?a <? ?b] => destruct (Z.ltb_spec a b)
  | |- context [?a <=? ?b] => destruct (Z.leb_spec a b)
  | |- context [?a =? ?b] => destruct (Z.eqb_spec a b)
  end.

Section AuctionRulesFacts.
Import AuctionRules.

(** The table lookup of [getNextBidAmount], tier by tier. *)
Lemma getNextBidAmount_tiers (b : Z) :
  b <> 0 ->
  getNextBidAmount (Some b) =
    if b >=? 2000 then None
    else if b <? 20 then Some (Z.min (b + 15) 2000)
    else if b <? 50 then Some (b + 5)
    else if b <? 100 then Some (b + 10)
    else Some (Z.min (b + 15) 2000).
Proof.
  intros Hb. unfold getNextBidAmount, or_default.
  destruct (Z.eqb_spec b 0) as [|_]; [contradiction|].
  cbn. unfold rule_applies. cbn.
  zbool; cbn; try lia; f_equal; lia.
Qed.

Lemma getNextBidAmount_zero : getNextBidAmount (Some 0) = Some 25.
Proof. reflexivity. Qed.

Lemma getNextBidAmount_null : getNextBidAmount None = Some 25.
Proof. reflexivity. Qed.

Example next_of_25 : getNextBidAmount (Some 25) = Some 30.
Proof. reflexivity. Qed.

Example next_of_1990 : getNextBidAmount (Some 1990) = Some 2000.
Proof. reflexivity. Qed.

Example next_of_12 : getNextBidAmount (Some 12) = Some 27.
Proof. reflexivity. Qed.

Lemma getNextBidAmount_at_cap (x : Z) :
  2000 <= x -> getNextBidAmount (Some x) = None.
Proof.
  intros Hx. rewrite getNextBidAmount_tiers by lia.
  destruct (Z.geb_spec x 2000); [reflexivity | lia].
Qed.

Lemma getNextBidAmount_increases (x : Z) :
  x < 2000 ->
  exists y, getNextBidAmount (Some x) = Some y /\ x < y /\ y <= 2000.
Proof.
  intros Hx. destruct (Z.eq_dec x 0) as [-> | Hne].
  - exists 25. rewrite getNextBidAmount_zero. repeat split; lia.
  - rewrite getNextBidAmount_tiers by assumption.
    zbool; try lia; eexists; (split; [reflexivity | lia]).
Qed.

Lemma iterNextBid_reaches_cap (k : nat) :
  forall x, x < 2000 -> 2000 - x <= Z.of_nat k ->
  exists n, iterNextBid n x = Some 2000.
Proof.
  induction k as [| k IH]; intros x Hx Hk; [lia|].
  destruct (getNextBidAmount_increases x Hx) as (y & Hy & Hlt & Hle).
  destruct (Z.eq_dec y 2000) as [-> | Hne].
  - exists 1%nat. cbn [iterNextBid]. rewrite Hy. reflexivity.
  - destruct (IH y) as [n Hn]; [lia | lia |].
    exists (S n). cbn [iterNextBid]. rewrite Hy. exact Hn.
Qed.

(** C8. Below the cap of 2000 [getNextBidAmount] returns a number strictly
    above its argument and at most the cap; applying it again and again
    reaches the cap exactly, and at the cap it returns [null]. *)
Theorem getNextBidAmount_strictly_increases_to_cap (x : Z) :
  x < MAX_BID_PER_PLAYER AUCTION_CONSTANTS ->
  (exists y, getNextBidAmount (Some x) = Some y /\ x < y /\
             y <= MAX_BID_PER_PLAYER AUCTION_CONSTANTS) /\
  (exists n, iterNextBid n x = Some (MAX_BID_PER_PLAYER AUCTION_CONSTANTS)) /\
  getNextBidAmount (Some (MAX_BID_PER_PLAYER AUCTION_CONSTANTS)) = None.
Proof.
  cbn [MAX_BID_PER_PLAYER AUCTION_CONSTANTS]. intros Hx. split; [| split].
  - apply getNextBidAmount_increases, Hx.
  - apply (iterNextBid_reaches_cap (Z.to_nat (2000 - x))); lia.
  - reflexivity.
Qed.

Lemma getNextBidAmount_strictly_increases_to_cap_witness :
  (exists y, getNextBidAmount (Some 1975) = Some y /\ 1975 < y /\ y <= 2000) /\
  (exists n, iterNextBid n 1975 = Some 2000) /\
  getNextBidAmount (Some 2000) = None.
Proof.
  apply (getNextBidAmount_strictly_increases_to_cap 1975). cbn. lia.
Defined.

(** What [canPlaceBid] requires of an accepted bid. *)
Lemma canPlaceBid_valid_iff bidAmount currentBid ownerBalance teamPlayerCount options :
  valid (canPlaceBid bidAmount currentBid ownerBalance teamPlayerCount options) = true <->
  exists amount minimum,
    bidAmount = JsNum (Finite amount) /\
    0 < amount /\
    amount <= 2000 /\
    getNextBidAmount
      (Some (param_default (opt_currentBidAmount options) (param_default currentBid 20)))
      = Some minimum /\
    minimum <= amount /\
    amount <= param_default ownerBalance 1000 /\
    param_default teamPlayerCount 0 < 10.
Proof.
  unfold canPlaceBid. cbn [BASE_PRICE DEFAULT_OWNER_BALANCE MAX_BID_PER_PLAYER
    MAX_PLAYERS_PER_TEAM AUCTION_CONSTANTS].
  set (cur := param_default (opt_currentBidAmount options) (param_default currentBid 20)).
  set (bal := param_default ownerBalance 1000).
  set (cnt := param_default teamPlayerCount 0).
  split.
  - destruct bidAmount as [[amount | | |] | | | |]; cbn; try discriminate.
    destruct (Z.leb_spec amount 0); cbn; [discriminate|].
    destruct (Z.gtb_spec amount 2000); cbn; [discriminate|].
    destruct (getNextBidAmount (Some cur)) as [minimum|]; cbn; [|discriminate].
    destruct (Z.ltb_spec amount minimum); cbn; [discriminate|].
    rewrite andb_false_r. cbn.
    destruct (Z.gtb_spec amount bal); cbn; [discriminate|].
    destruct (Z.geb_spec cnt 10); cbn; [discriminate|].
    intros _. exists amount, minimum. repeat split; try lia.
  - intros (amount & minimum & -> & Hpos & Hcap & Hnext & Hmin & Hbal & Hcnt).
    cbn. rewrite Hnext.
    destruct (Z.leb_spec amount 0); [lia|]. cbn.
    destruct (Z.gtb_spec amount 2000); [lia|].
    destruct (Z.ltb_spec amount minimum); [lia|]. cbn.
    destruct (Z.gtb_spec amount bal); [lia|]. rewrite andb_false_r.
    destruct (Z.geb_spec cnt 10); [lia|]. cbn.
    destruct (param_default (opt_isOwnerBidding options) false); reflexivity.
Qed.

(** C7. [canPlaceBid] accepts an amount exactly when it is a positive finite
    number, at most the cap 2000, at least [getNextBidAmount] of the current
    top amount, within the bidder's balance, and the team holds fewer than 10
    players. The increment is 5 on [20,50), 10 on [50,100) and 15 from 100
    on, the result never exceeding the cap. With base price 20 a bid of 20 is
    rejected with minimum 25, a bid of 25 is accepted, and the next valid
    amount is then 30. *)
Theorem canPlaceBid_enforces_tiered_increments :
  (forall bidAmount currentBid ownerBalance teamPlayerCount options,
     valid (canPlaceBid bidAmount currentBid ownerBalance teamPlayerCount options) = true ->
     exists amount minimum,
       bidAmount = JsNum (Finite amount) /\
       0 < amount /\
       amount <= MAX_BID_PER_PLAYER AUCTION_CONSTANTS /\
       getNextBidAmount
         (Some (param_default (opt_currentBidAmount options)
                  (param_default currentBid (BASE_PRICE AUCTION_CONSTANTS))))
         = Some minimum /\
       minimum <= amount /\
       amount <= param_default ownerBalance (DEFAULT_OWNER_BALANCE AUCTION_CONSTANTS) /\
       param_default teamPlayerCount 0 < MAX_PLAYERS_PER_TEAM AUCTION_CONSTANTS) /\
  (forall c, 20 <= c < 50 -> getNextBidAmount (Some c) = Some (c + 5)) /\
  (forall c, 50 <= c < 100 -> getNextBidAmount (Some c) = Some (c + 10)) /\
  (forall c, 100 <= c < 2000 -> getNextBidAmount (Some c) = Some (Z.min (c + 15) 2000)) /\
  (forall balance count isOwner,
     canPlaceBid (JsNum (Finite 20)) (Some 20) balance count
       {| opt_currentBidAmount := Some 20; opt_isOwnerBidding := isOwner |}
     = reject (BelowMinimum 25 20 5)) /\
  (forall balance count isOwner,
     25 <= balance -> count < 10 ->
     canPlaceBid (JsNum (Finite 25)) (Some 20) (Some balance) (Some count)
       {| opt_currentBidAmount := Some 20; opt_isOwnerBidding := isOwner |}
     = {| valid := true; reason := BidIsValid |}) /\
  getNextBidAmount (Some 25) = Some 30.
Proof.
  refine (conj _ (conj _ (conj _ (conj _ (conj _ (conj _ eq_refl)))))).
  - intros * H. apply canPlaceBid_valid_iff in H. exact H.
  - intros c Hc. rewrite getNextBidAmount_tiers by lia. zbool; try lia; reflexivity.
  - intros c Hc. rewrite getNextBidAmount_tiers by lia. zbool; try lia; reflexivity.
  - intros c Hc. rewrite getNextBidAmount_tiers by lia. zbool; try lia; reflexivity.
  - intros balance count isOwner. unfold canPlaceBid.
    destruct isOwner as [[|]|]; reflexivity.
  - intros balance count isOwner Hb Hc. unfold canPlaceBid.
    change (getNextBidAmount _) with (Some 25). cbn.
    destruct (Z.gtb_spec 25 balance); [lia|].
    destruct (Z.geb_spec count 10); [lia|].
    destruct isOwner as [[|]|]; reflexivity.
Qed.

Lemma canPlaceBid_enforces_tiered_increments_witness :
  (exists amount minimum,
     JsNum (Finite 60) = JsNum (Finite amount) /\ 0 < amount /\ amount <= 2000 /\
     getNextBidAmount (Some 50) = Some minimum /\ minimum <= amount /\
     amount <= 1000 /\ 0 < 10) /\
  getNextBidAmount (Some 30) = Some 35 /\
  getNextBidAmount (Some 1990) = Some 2000.
Proof.
  pose proof canPlaceBid_enforces_tiered_increments as (Hacc & H5 & _ & H15 & _).
  split; [| split].
  - apply (Hacc (JsNum (Finite 60)) (Some 50) None None no_options). reflexivity.
  - apply (H5 30). lia.
  - apply (H15 1990). lia.
Defined.

End AuctionRulesFacts.

(** ** The budget ledger *)

Section BudgetFacts.
Import TeamEventBudget.

Lemma validate_pre_save_ok (d : Doc) :
  validate d = None -> row_ok (pre_save d).
Proof.
  unfold validate, row_ok. cbn.
  destruct (Z.ltb_spec (budget d) 0); [discriminate|].
  destruct (Z.ltb_spec (spent d) 0); [discriminate|].
  destruct (Z.leb_spec (spent d) (budget d)); cbn; [|discriminate].
  intros _. split; [reflexivity | assumption].
Qed.

(** What a [save()] does to the collection and returns. *)
Lemma budget_save_cases isNew d c :
  (exists e, save isNew d c = (inl e, c)) \/
  (validate d = None /\
   save isNew d c = (inr (pre_save d), <[key (pre_save d) := pre_save d]> c)).
Proof.
  unfold save. destruct (validate d) as [e|] eqn:Hv.
  - left. exists e. reflexivity.
  - unfold bind, get, put, ret, throw. cbn.
    destruct (c !! key (pre_save d)); destruct isNew; eauto.
Qed.

Lemma ledger_ok_insert c d :
  ledger_ok c -> row_ok d -> ledger_ok (<[key d := d]> c).
Proof.
  intros Hc Hd k d' Hk.
  destruct (decide (key d = k)) as [<- | Hne].
  - rewrite lookup_insert_eq in Hk. congruence.
  - rewrite lookup_insert_ne in Hk by assumption. eauto.
Qed.

Lemma budget_save_preserves isNew d c :
  ledger_ok c -> ledger_ok (exec (save isNew d) c).
Proof.
  intros Hc. unfold exec.
  destruct (budget_save_cases isNew d c) as [[e ->] | [Hv ->]]; cbn; [assumption|].
  apply ledger_ok_insert; [assumption | apply validate_pre_save_ok, Hv].
Qed.

Lemma addPurchase_insufficient this playerPrice c :
  remainingBudget this < playerPrice ->
  addPurchase this playerPrice c =
    (inl (PlainError "Insufficient budget to purchase player in this event"), c).
Proof.
  intros H. unfold addPurchase, canAfford.
  destruct (Z.geb_spec (remainingBudget this) playerPrice); [lia | reflexivity].
Qed.

Lemma budget_addPurchase_preserves this playerPrice c :
  ledger_ok c -> ledger_ok (exec (addPurchase this playerPrice) c).
Proof.
  intros Hc. unfold addPurchase.
  destruct (negb (canAfford this playerPrice)); [exact Hc|].
  apply budget_save_preserves, Hc.
Qed.

Lemma budget_getOrCreate_preserves team event defaultBudget c :
  ledger_ok c -> ledger_ok (exec (getOrCreate team event defaultBudget) c).
Proof.
  intros Hc. unfold getOrCreate, exec, bind, get. cbn.
  destruct (c !! (team, event)); [exact Hc|].
  apply (budget_save_preserves true), Hc.
Qed.

Lemma budget_step_preserves op c : ledger_ok c -> ledger_ok (step op c).
Proof.
  intros Hc. destruct op as [t e b | t e p | this p | isNew d]; cbn.
  - apply budget_getOrCreate_preserves, Hc.
  - destruct (findOne t e c); [apply budget_addPurchase_preserves, Hc | exact Hc].
  - apply budget_addPurchase_preserves, Hc.
  - apply budget_save_preserves, Hc.
Qed.

Lemma budget_steps_preserve ops : forall c, ledger_ok c -> ledger_ok (steps ops c).
Proof.
  induction ops as [| op ops IH]; intros c Hc; cbn; [exact Hc|].
  apply IH, budget_step_preserves, Hc.
Qed.

Lemma ledger_ok_empty : ledger_ok ∅.
Proof. intros k d H. rewrite lookup_empty in H. discriminate. Qed.

(** A successful [getOrCreate] returns the row now stored for the pair. *)
Lemma getOrCreate_returns team event defaultBudget c d c' :
  getOrCreate team event defaultBudget c = (inr d, c') ->
  c' !! (team, event) = Some d /\
  (c !! (team, event) = Some d /\ c' = c \/
   c !! (team, event) = None /\
   d = {| teamId := team; auctionEventId := event;
          budget := or_default defaultBudget 10000; spent := 0;
          remainingBudget := or_default defaultBudget 10000 |} /\
   c' = <[(team, event) := d]> c).
Proof.
  unfold getOrCreate, bind, get. cbn.
  destruct (c !! (team, event)) as [b|] eqn:Hl.
  - unfold ret. intros [= <- <-]. auto.
  - match goal with |- save true ?x c = _ -> _ => set (fresh := x) end.
    destruct (budget_save_cases true fresh c) as [[e ->] | [Hv ->]]; [discriminate|].
    intros [= <- <-]. cbn. rewrite lookup_insert_eq.
    split; [reflexivity|]. right. split; [reflexivity|].
    unfold pre_save, fresh. cbn. rewrite Z.sub_0_r. auto.
Qed.

(** A successful [addPurchase] debits exactly the price. *)
Lemma addPurchase_debits this playerPrice c d c' :
  addPurchase this playerPrice c = (inr d, c') ->
  playerPrice <= remainingBudget this /\
  teamId d = teamId this /\ auctionEventId d = auctionEventId this /\
  budget d = budget this /\
  spent d = spent this + playerPrice /\
  remainingBudget d = budget this - (spent this + playerPrice) /\
  c' = <[key this := d]> c.
Proof.
  unfold addPurchase, canAfford.
  destruct (Z.geb_spec (remainingBudget this) playerPrice); cbn; [|discriminate].
  match goal with |- save false ?x c = _ -> _ => set (upd := x) end.
  destruct (budget_save_cases false upd c) as [[e ->] | [Hv ->]]; [discriminate|].
  intros [= <- <-]. cbn. repeat split; lia.
Qed.

(** C6. From the empty collection, whatever sequence of [getOrCreate],
    [addPurchase] and [save()] runs, every stored row has
    [remainingBudget = budget - spent] and [spent <= budget]; so has every
    document a [save()] returns; and [addPurchase] with a price above
    [remainingBudget] throws the insufficient-budget error and leaves the
    collection as it was. *)
Theorem budget_rows_stay_consistent :
  (forall ops k d, steps ops ∅ !! k = Some d ->
     remainingBudget d = budget d - spent d /\ spent d <= budget d) /\
  (forall isNew d c d' c', save isNew d c = (inr d', c') ->
     c' !! key d = Some d' /\
     remainingBudget d' = budget d' - spent d' /\ spent d' <= budget d') /\
  (forall this playerPrice c,
     remainingBudget this < playerPrice ->
     addPurchase this playerPrice c =
       (inl (PlainError "Insufficient budget to purchase player in this event"), c)).
Proof.
  split; [| split].
  - intros ops k d H.
    exact (budget_steps_preserve ops ∅ ledger_ok_empty k d H).
  - intros isNew d c d' c' H.
    destruct (budget_save_cases isNew d c) as [[e He] | [Hv He]]; rewrite He in H;
      [discriminate|].
    injection H as <- <-. split.
    + apply lookup_insert_eq.
    + apply validate_pre_save_ok, Hv.
  - apply addPurchase_insufficient.
Qed.

Example budget_scenario :
  steps [OpGetOrCreate "team1" "event1" (Some 1000);
         OpAddPurchase "team1" "event1" 500;
         OpAddPurchase "team1" "event1" 600] ∅ !! ("team1", "event1")
  = Some {| teamId := "team1"; auctionEventId := "event1";
            budget := 1000; spent := 500; remainingBudget := 500 |}.
Proof. vm_compute. reflexivity. Qed.

Lemma budget_rows_stay_consistent_witness :
  (remainingBudget {| teamId := "team1"; auctionEventId := "event1";
                      budget := 1000; spent := 500; remainingBudget := 500 |} = 1000 - 500 /\
   500 <= 1000) /\
  addPurchase {| teamId := "team1"; auctionEventId := "event1";
                 budget := 1000; spent := 500; remainingBudget := 500 |} 600 ∅ =
    (inl (PlainError "Insufficient budget to purchase player in this event"), ∅).
Proof.
  pose proof budget_rows_stay_consistent as (Hinv & _ & Hfail).
  split.
  - apply (Hinv [OpGetOrCreate "team1" "event1" (Some 1000);
                 OpAddPurchase "team1" "event1" 500;
                 OpAddPurchase "team1" "event1" 600] ("team1", "event1")).
    vm_compute. reflexivity.
  - apply Hfail. cbn. lia.
Defined.

End BudgetFacts.

(** ** At most one winning bid *)

Section BidFacts.
Import Bid.

Lemma id_eqb_true a b : id_eqb a b = true <-> a = b.
Proof. apply String.eqb_eq. Qed.

Lemma id_eqb_false a b : id_eqb a b = false <-> a <> b.
Proof. apply String.eqb_neq. Qed.

Lemma id_eqb_refl a : id_eqb a a = true.
Proof. apply String.eqb_refl. Qed.


Lemma is_winning_for_true e p d :
  is_winning_for e p d = true <->
  auctionEventId d = e /\ playerId d = p /\ isWinningBid d = true.
Proof.
  unfold is_winning_for. rewrite !andb_true_iff, !id_eqb_true. tauto.
Qed.





Lemma In_replaceById id x c y :
  In y (replaceById id x c) ->
  y = x \/ (In y c /\ _id y <> id).
Proof.
  unfold replaceById. rewrite in_map_iff. intros (d & Hy & Hd).
  destruct (id_eqb (_id d) id) eqn:E.
  - left. congruence.
  - right. subst y. split; [assumption | apply id_eqb_false, E].
Qed.


Lemma bid_insert_cases d c :
  (exists e, insert d c = (inl e, c)) \/
  (validate d = None /\
   existsb (fun x => id_eqb (_id x) (_id (pre_save d))) c = false /\
   breaks_unique_winning (pre_save d) c = false /\
   insert d c = (inr (pre_save d), c ++ [pre_save d])).
Proof.
  unfold insert. destruct (validate d) as [e|]; [left; eauto|].
  unfold bind, get, put, ret, throw. cbn.
  destruct (existsb _ c) eqn:E1; [left; eauto|].
  destruct (breaks_unique_winning _ c) eqn:E2; [left; eauto|].
  right. auto.
Qed.














Example two_racing_bids_one_winner :
  steps [OpRecordBid None (Samples.sample_bid "bidA" "team1" "user1" 25 1) 1;
         OpRecordBid None (Samples.sample_bid "bidB" "team2" "user2" 25 2) 2] []
  = [set_status winning (Samples.sample_bid "bidA" "team1" "user1" 25 1)].
Proof. vm_compute. reflexivity. Qed.

Example outbidding_demotes_previous_winner :
  List.map (fun d => (_id d, isWinningBid d, status d))
    (steps [OpRecordBid None (Samples.sample_bid "bidA" "team1" "user1" 25 1) 1;
            OpRecordBid (Some (set_status winning (Samples.sample_bid "bidA" "team1" "user1" 25 1)))
                        (Samples.sample_bid "bidB" "team2" "user2" 30 2) 2] [])
  = [("bidA", false, rejected); ("bidB", true, winning)].
Proof. vm_compute. reflexivity. Qed.



End BidFacts.

(** ** [markAsSold] and the global status of a player *)

Section PlayerFacts.
Import Player.

Lemma player_status_eqb_refl s : status_eqb s s = true.
Proof. destruct s; reflexivity. Qed.

Lemma option_string_eqb_refl (o : option string) : option_eqb String.eqb o o = true.
Proof. destruct o; cbn; [apply String.eqb_refl | reflexivity]. Qed.

Lemma pre_save_keeps d :
  status (pre_save d) = status d /\ teamId (pre_save d) = teamId d.
Proof.
  unfold pre_save. destruct (status d) eqn:E, (soldPrice d); cbn; rewrite ?E; auto.
Qed.

(** A [$set] that leaves [status] and [teamId] alone only writes prices. *)
Lemma apply_modified_prices_only loaded now stored :
  status now = status loaded -> teamId now = teamId loaded ->
  except_prices (apply_modified loaded now stored) = except_prices stored.
Proof.
  intros Hs Ht. unfold apply_modified. rewrite Hs, Ht.
  rewrite player_status_eqb_refl, option_string_eqb_refl.
  destruct (option_eqb Z.eqb (soldPrice loaded) (soldPrice now)),
    (option_eqb Z.eqb (currentPrice loaded) (currentPrice now)); reflexivity.
Qed.

Lemma markAsSold_cases this team price event c :
  (exists e, markAsSold this team price event c = (inl e, c)) \/
  (exists now,
     status now = status this /\ teamId now = teamId this /\
     markAsSold this team price event c =
       (inr now, updateById (_id this) (apply_modified this now) c)).
Proof.
  unfold markAsSold. destruct (price <? basePrice this); [left; eauto|].
  unfold save. destruct (validate _) as [e|]; [left; eauto|].
  unfold bind, get, put, ret, throw. cbn.
  destruct (findById (_id this) c); [|left; eauto].
  right. eexists. split; [|split; [|reflexivity]].
  - rewrite (proj1 (pre_save_keeps _)). reflexivity.
  - rewrite (proj2 (pre_save_keeps _)). reflexivity.
Qed.

Lemma markAsSold_each this team price event c p' :
  In p' (exec (markAsSold this team price event) c) ->
  exists p, In p c /\ except_prices p' = except_prices p.
Proof.
  unfold exec.
  destruct (markAsSold_cases this team price event c)
    as [[e ->] | (now & Hs & Ht & ->)]; cbn; [eauto|].
  unfold updateById. rewrite in_map_iff. intros (p & <- & Hp).
  exists p. split; [assumption|].
  destruct (id_eqb (_id p) (_id this)); [|reflexivity].
  apply apply_modified_prices_only; assumption.
Qed.

Lemma except_prices_fields p p' :
  except_prices p' = except_prices p ->
  _id p' = _id p /\ status p' = status p /\ teamId p' = teamId p /\
  name p' = name p /\ age p' = age p /\ role p' = role p /\
  basePrice p' = basePrice p /\ photo p' = photo p /\
  statistics p' = statistics p /\ auctionEventId p' = auctionEventId p.
Proof.
  unfold except_prices, set_currentPrice, set_soldPrice. cbn.
  intros H. injection H. intros. repeat split; assumption.
Qed.

Lemma map_cons_inv {A B} (g : A -> B) x l y l' :
  List.map g (y :: l') = List.map g (x :: l) ->
  g y = g x /\ List.map g l' = List.map g l.
Proof. cbn [List.map]. intros H. injection H. auto. Qed.

Example markAsSold_sample :
  markAsSold Samples.sample_player "team1" 500 "event1" [Samples.sample_player] =
    (inr (set_currentPrice (Some 20) (set_soldPrice (Some 500) Samples.sample_player)),
     [set_soldPrice (Some 500) Samples.sample_player]).
Proof. reflexivity. Qed.

(** C10. [markAsSold] changes nothing but [soldPrice] and [currentPrice]:
    whether it succeeds or throws, every stored player keeps all its other
    fields, among them the global [status] and [teamId]. So a player whose
    status was [available] stays [available], and the summary query on
    [status: 'sold'] selects the same players as before and not this one. *)
Theorem markAsSold_changes_only_prices this team price event c :
  let c' := exec (markAsSold this team price event) c in
  List.map except_prices c' = List.map except_prices c /\
  List.map status c' = List.map status c /\
  List.map teamId c' = List.map teamId c /\
  (forall eventPlayers,
     List.map _id (soldInSummary eventPlayers c') =
     List.map _id (soldInSummary eventPlayers c)) /\
  ((forall p, In p c -> _id p = _id this -> status p = available) ->
   forall p', In p' c' -> _id p' = _id this ->
     status p' = available /\
     forall eventPlayers, ~ In p' (soldInSummary eventPlayers c')).
Proof.
  intros c'.
  assert (List.map except_prices c' = List.map except_prices c) as Hframe.
  { unfold c', exec.
    destruct (markAsSold_cases this team price event c)
      as [[e ->] | (now & Hs & Ht & ->)]; cbn; [reflexivity|].
    unfold updateById. rewrite List.map_map. apply List.map_ext. intros p.
    destruct (id_eqb (_id p) (_id this)); [|reflexivity].
    apply apply_modified_prices_only; assumption. }
  assert (forall (g : Doc -> Doc) l l',
    List.map g l' = List.map g l ->
    forall {B} (h : Doc -> B), (forall x y, g x = g y -> h x = h y) ->
    List.map h l' = List.map h l) as Hlift.
  { intros g l. induction l as [| x l IH]; intros [| y l'] Hm B h Hh;
      try discriminate; [reflexivity|].
    cbn in Hm. injection Hm as Hxy Hm. cbn. f_equal; eauto. }
  split; [exact Hframe|]. split; [|split; [|split]].
  - apply (Hlift _ _ _ Hframe). intros x y H.
    apply except_prices_fields in H. tauto.
  - apply (Hlift _ _ _ Hframe). intros x y H.
    apply except_prices_fields in H. tauto.
  - intros eventPlayers. unfold soldInSummary.
    revert Hframe. generalize c'. clear c'.
    induction c as [| x l IH]; intros [| y l'] Hm; try discriminate; [reflexivity|].
    apply map_cons_inv in Hm as [Hxy Hm]. cbn.
    apply except_prices_fields in Hxy as (Hi & Hs & _).
    rewrite Hi, Hs.
    destruct (includes_id (_id x) eventPlayers && status_eqb (status x) sold); cbn;
      [f_equal; [assumption|] |]; apply IH; assumption.
  - intros Hav p' Hin Hid.
    apply markAsSold_each in Hin as (p & Hp & Heq).
    apply except_prices_fields in Heq as (Hi & Hs & _).
    assert (status p' = available) as Hst
      by (rewrite Hs; apply Hav; [assumption | congruence]).
    split; [exact Hst|].
    intros eventPlayers Hsel. unfold soldInSummary in Hsel.
    apply filter_In in Hsel as [_ Hsel]. rewrite Hst in Hsel.
    rewrite andb_false_r in Hsel. discriminate.
Qed.

Lemma markAsSold_changes_only_prices_witness :
  status (set_soldPrice (Some 500) Samples.sample_player) = available /\
  forall eventPlayers,
    ~ In (set_soldPrice (Some 500) Samples.sample_player)
         (soldInSummary eventPlayers
            (exec (markAsSold Samples.sample_player "team1" 500 "event1") [Samples.sample_player])).
Proof.
  pose proof (markAsSold_changes_only_prices Samples.sample_player "team1" 500 "event1"
                [Samples.sample_player]) as (_ & _ & _ & _ & H).
  apply H.
  - intros p [<- | []] _. reflexivity.
  - left. reflexivity.
  - reflexivity.
Defined.

End PlayerFacts.

(** ** The timer callback *)

Arguments AuctionEvent.findById : simpl never.
Arguments AuctionEvent.replaceById : simpl never.
Arguments AuctionEvent.save : simpl never.
Arguments AuctionEvent.validate : simpl never.
Arguments Player.findById : simpl never.
Arguments Player.updateById : simpl never.
Arguments Player.validate : simpl never.
Arguments Team.findById : simpl never.
Arguments Team.replaceById : simpl never.
Arguments Team.validate : simpl never.
Arguments User.findById : simpl never.
Arguments Bid.getWinningBid : simpl never.
Arguments Bid.soldPlayerIds : simpl never.
Arguments Bid.findById : simpl never.
Arguments TeamEventBudget.validate : simpl never.
Arguments Engine.notSold : simpl never.
Arguments Engine.playersInCategory : simpl never.
Arguments Engine.playersInEvent : simpl never.
Arguments Engine.autoMoveToNextPlayer : simpl never.
Arguments Engine.emitAvailablePlayersUpdate : simpl never.
Arguments Engine.emitAuctionEnded : simpl never.
Arguments Engine.completeOrAdvance : simpl never.
Arguments Engine.requeueAndAdvance : simpl never.
Arguments Engine.finalizeSold : simpl never.
Arguments includes_id : simpl never.
Arguments or_default : simpl never.

Section TimerFacts.
Import Engine.

(** C9. When the callback runs for a player that is not the event's
    [currentPlayerId], or for an event that no longer exists, it returns
    without any change: the database (sales, budgets, statistics), the
    timers, the emitted socket events and the scheduled tasks are what they
    were; a timer that fires in that situation only leaves the timer map. *)
Theorem stale_expiry_changes_nothing now eventId playerId w :
  isCurrentPlayer eventId playerId w = false ->
  timerCallback now eventId playerId w = (inr tt, w) /\
  timerExpired now eventId playerId w =
    (inr tt, set_timers (delete eventId (timers w)) w).
Proof.
  intros H.
  assert (forall w', db w' = db w -> timerCallback now eventId playerId w' = (inr tt, w'))
    as Hcb.
  { intros w' Hdb. unfold isCurrentPlayer, findEvent in H.
    unfold timerCallback, try_catch, bind, get. cbn. rewrite Hdb.
    destruct (AuctionEvent.findById eventId (events (db w))) as [e|]; [|reflexivity].
    apply negb_false_iff in H. rewrite H. reflexivity. }
  split; [apply Hcb; reflexivity|].
  unfold timerExpired, try_catch, bind, modify. cbn.
  rewrite Hcb by reflexivity. reflexivity.
Qed.

Lemma stale_expiry_changes_nothing_witness :
  timerCallback 5000 "event1" "player2"
    (Samples.world (Some true) [Samples.winningBid "bid1" "team1" "user1" 500 1500])
  = (inr tt, Samples.world (Some true) [Samples.winningBid "bid1" "team1" "user1" 500 1500]) /\
  timerExpired 5000 "event1" "player2"
    (Samples.world (Some true) [Samples.winningBid "bid1" "team1" "user1" 500 1500])
  = (inr tt,
     set_timers (delete "event1"
        (timers (Samples.world (Some true) [Samples.winningBid "bid1" "team1" "user1" 500 1500])))
       (Samples.world (Some true) [Samples.winningBid "bid1" "team1" "user1" 500 1500])).
Proof.
  apply (stale_expiry_changes_nothing 5000 "event1" "player2"). reflexivity.
Defined.

(** *** Events: lookup and save *)

Lemma event_findById_some id c d :
  AuctionEvent.findById id c = Some d -> In d c /\ AuctionEvent._id d = id.
Proof.
  unfold AuctionEvent.findById. intros H. apply find_some in H as [Hin Heq].
  apply id_eqb_true in Heq. auto.
Qed.

Lemma event_findById_replace id c d x :
  AuctionEvent.findById id c = Some d ->
  AuctionEvent._id x = id ->
  AuctionEvent.findById id (AuctionEvent.replaceById id x c) = Some x.
Proof.
  unfold AuctionEvent.findById, AuctionEvent.replaceById. intros H Hx.
  induction c as [| a c IH]; cbn in *; [discriminate|].
  destruct (id_eqb (AuctionEvent._id a) id) eqn:E.
  - cbn. rewrite Hx, id_eqb_refl. reflexivity.
  - cbn. rewrite E. auto.
Qed.

Lemma event_replace_replace id x y c :
  AuctionEvent._id x = id ->
  AuctionEvent.replaceById id y (AuctionEvent.replaceById id x c) =
  AuctionEvent.replaceById id y c.
Proof.
  intros Hx. unfold AuctionEvent.replaceById. rewrite List.map_map.
  apply List.map_ext. intros a.
  destruct (id_eqb (AuctionEvent._id a) id) eqn:E; [|rewrite E; reflexivity].
  rewrite Hx, id_eqb_refl. reflexivity.
Qed.

Lemma ids_eqb_refl l : AuctionEvent.ids_eqb l l = true.
Proof.
  unfold AuctionEvent.ids_eqb. rewrite Nat.eqb_refl. cbn.
  induction l as [| a l IH]; cbn; [reflexivity|].
  rewrite id_eqb_refl. exact IH.
Qed.

(** The validators of an event do not read the current player. *)
Lemma event_validate_set_current now id t e :
  AuctionEvent.validate now (AuctionEvent.set_current id t e) = AuctionEvent.validate now e.
Proof. reflexivity. Qed.

Lemma event_validate_set_category now c e :
  AuctionEvent.validate now (AuctionEvent.set_currentCategory c e) = AuctionEvent.validate now e.
Proof. reflexivity. Qed.

(** A [save()] that passes validation and keeps [players] writes the
    document as given. *)
Lemma event_save_ok now loaded d c d0 :
  AuctionEvent.validate now d = None ->
  AuctionEvent.players loaded = AuctionEvent.players d ->
  AuctionEvent.findById (AuctionEvent._id d) c = Some d0 ->
  AuctionEvent.save now loaded d c =
    (inr d, AuctionEvent.replaceById (AuctionEvent._id d) d c).
Proof.
  intros Hv Hp Hf. unfold AuctionEvent.save. rewrite Hv.
  unfold bind, get, put, ret. cbn. rewrite Hf.
  unfold AuctionEvent.pre_save. rewrite Hp, ids_eqb_refl. reflexivity.
Qed.

(** A [save()] either fails and writes nothing, or writes the document. *)
Lemma event_save_cases now loaded d c :
  (exists err, AuctionEvent.save now loaded d c = (inl err, c)) \/
  (AuctionEvent.validate now d = None /\
   (exists d0, AuctionEvent.findById (AuctionEvent._id d) c = Some d0) /\
   AuctionEvent.save now loaded d c =
     (inr (AuctionEvent.pre_save loaded d),
      AuctionEvent.replaceById (AuctionEvent._id d) (AuctionEvent.pre_save loaded d) c)).
Proof.
  unfold AuctionEvent.save. destruct (AuctionEvent.validate now d) as [err|]; [left; eauto|].
  unfold bind, get, put, ret, throw. cbn.
  destruct (AuctionEvent.findById (AuctionEvent._id d) c) as [d0|]; [|left; eauto].
  right. eauto.
Qed.

(** *** The rotation leaves the sale alone *)

(** What [autoMoveToNextPlayer] can change: the [currentCategory] of the
    event, and the scheduled start of the next player. *)
Lemma autoMoveToNextPlayer_effect now eventId w :
  exists evs tos,
    autoMoveToNextPlayer now eventId w =
      (inr tt,
       {| db := {| events := evs; players := players (db w); teams := teams (db w);
                   users := users (db w); bids := bids (db w);
                   budgets := budgets (db w) |};
          timers := timers w; emitted := emitted w; timeouts := tos |}) /\
    (evs = events (db w) \/
     exists e cat,
       findEvent eventId w = Some e /\
       evs = AuctionEvent.replaceById eventId
               (AuctionEvent.set_currentCategory (Some cat) e) (events (db w))).
Proof.
  destruct w as [[evs0 ps ts us bs bg] tm em tos0].
  unfold autoMoveToNextPlayer, findEvent, try_catch, bind, get. cbn.
  destruct (AuctionEvent.findById eventId evs0) as [e|] eqn:He;
    [| exists evs0, tos0; split; [reflexivity | left; reflexivity]].
  destruct (negb (AuctionEvent.status_eqb (AuctionEvent.status e) AuctionEvent.live));
    [exists evs0, tos0; split; [reflexivity | left; reflexivity]|].
  destruct (notSold _ (playersInCategory e _ ps)) as [| p1 rest].
  - match goal with |- context [if ?c then _ else _] => destruct c end;
      [exists evs0, tos0; split; [reflexivity | left; reflexivity]|].
    unfold onEvents, zoom. cbn.
    destruct (event_save_cases now e
                (AuctionEvent.set_currentCategory
                   (Some (getNextCategory (param_default (AuctionEvent.currentCategory e)
                                             Player.batsman))) e) evs0)
      as [[err ->] | (Hv & _ & ->)].
    + cbn. exists evs0, tos0. split; [reflexivity | left; reflexivity].
    + unfold AuctionEvent.pre_save. cbn [AuctionEvent.players AuctionEvent.set_currentCategory].
      rewrite ids_eqb_refl. cbn.
      apply event_findById_some in He as [_ Hid]. rewrite Hid.
      destruct (notSold _ (playersInCategory _ _ ps)) as [| p2 rest2]; cbn;
        eexists _, _; (split; [reflexivity | right; eauto]).
  - cbn. eexists _, _. split; [reflexivity | left; reflexivity].
Qed.

Lemma try_catch_unit {S} (m : M S unit) s :
  fst (try_catch m (fun _ => ret tt) s) = inr tt.
Proof.
  unfold try_catch, ret. destruct (m s) as [[e | []] s']; reflexivity.
Qed.

Lemma autoMoveToNextPlayer_returns now eventId w :
  fst (autoMoveToNextPlayer now eventId w) = inr tt.
Proof. apply try_catch_unit. Qed.

(** *** Expiry without a bid *)

Lemma latest_none l : Bid.latest l = None -> l = [].
Proof.
  destruct l as [| d rest]; [reflexivity|]. cbn.
  destruct (Bid.latest rest) as [d'|]; [|discriminate].
  destruct (Bid.bidTime d' >? Bid.bidTime d); discriminate.
Qed.

(** Without a winning bid of the pair, the player is not among the sold
    players of the event. *)
Lemma no_winning_bid_not_sold eventId playerId bs :
  Bid.getWinningBid eventId playerId bs = None ->
  includes_id playerId (Bid.soldPlayerIds eventId bs) = false.
Proof.
  unfold Bid.getWinningBid. intros H. apply latest_none in H.
  destruct (includes_id playerId (Bid.soldPlayerIds eventId bs)) eqn:E; [|reflexivity].
  exfalso. unfold includes_id, Bid.soldPlayerIds in E.
  apply existsb_exists in E as (x & Hx & Hid).
  apply in_map_iff in Hx as (d & <- & Hd).
  apply filter_In in Hd as [Hd Hw].
  apply andb_true_iff in Hw as [He Hw].
  assert (In d (List.filter (Bid.is_winning_for eventId playerId) bs)) as Hin.
  { apply filter_In. split; [assumption|].
    unfold Bid.is_winning_for. rewrite He, Hw.
    apply id_eqb_true in Hid. rewrite <- Hid, id_eqb_refl. reflexivity. }
  rewrite H in Hin. destruct Hin.
Qed.

Lemma player_findById_some id c d :
  Player.findById id c = Some d -> In d c /\ Player._id d = id.
Proof.
  unfold Player.findById. intros H. apply find_some in H as [Hin Heq].
  apply id_eqb_true in Heq. auto.
Qed.

(** The branch for no bid, in auto and in manual mode alike: the current
    player is cleared, then the rotation runs. *)
Lemma no_bid_expiry_eq now eventId playerId w e p :
  findEvent eventId w = Some e ->
  AuctionEvent.currentPlayerId e = Some playerId ->
  Player.findById playerId (players (db w)) = Some p ->
  Player.status p = Player.available ->
  Bid.getWinningBid eventId playerId (bids (db w)) = None ->
  AuctionEvent.validate now e = None ->
  timerCallback now eventId playerId w =
    autoMoveToNextPlayer now eventId
      (set_events (AuctionEvent.replaceById eventId
                     (AuctionEvent.set_current None None e) (events (db w))) w).
Proof.
  intros He Hcur Hp Hst Hbid Hv. unfold findEvent in He.
  pose proof (event_findById_some _ _ _ He) as [_ Hid].
  unfold timerCallback, try_catch, bind, get. cbn.
  rewrite He, Hcur. cbn. rewrite id_eqb_refl. cbn.
  rewrite Hbid, Hp, Hst. cbn.
  assert (requeueAndAdvance now eventId e w =
          autoMoveToNextPlayer now eventId
            (set_events (AuctionEvent.replaceById eventId
                           (AuctionEvent.set_current None None e) (events (db w))) w)) as Hrq.
  { unfold requeueAndAdvance, bind, onEvents, zoom.
    rewrite (event_save_ok now e (AuctionEvent.set_current None None e) _ e);
      [| exact Hv | reflexivity | cbn; rewrite Hid; exact He].
    cbn. rewrite Hid. reflexivity. }
  assert (forall m : M World unit,
            m w = autoMoveToNextPlayer now eventId
                    (set_events (AuctionEvent.replaceById eventId
                       (AuctionEvent.set_current None None e) (events (db w))) w) ->
            (let (r, s') := m w in
             match r with inl _ => ret tt s' | inr a => (inr a, s') end) = m w) as Hwrap.
  { intros m Hm. rewrite Hm.
    pose proof (autoMoveToNextPlayer_returns now eventId
      (set_events (AuctionEvent.replaceById eventId
         (AuctionEvent.set_current None None e) (events (db w))) w)) as Hr.
    destruct (autoMoveToNextPlayer now eventId _) as [r s']. cbn in Hr. subst r.
    reflexivity. }
  destruct (AuctionEvent.autoMode (AuctionEvent.settings e)) as [[|]|];
    rewrite (Hwrap _ Hrq); exact Hrq.
Qed.



(** What the no-bid expiry leaves behind. *)
Lemma no_bid_expiry_effect now eventId playerId w e p :
  findEvent eventId w = Some e ->
  AuctionEvent.currentPlayerId e = Some playerId ->
  Player.findById playerId (players (db w)) = Some p ->
  Player.status p = Player.available ->
  Bid.getWinningBid eventId playerId (bids (db w)) = None ->
  AuctionEvent.validate now e = None ->
  let w' := exec (timerCallback now eventId playerId) w in
  players (db w') = players (db w) /\
  bids (db w') = bids (db w) /\
  budgets (db w') = budgets (db w) /\
  emitted w' = emitted w /\
  (exists e',
     findEvent eventId w' = Some e' /\
     AuctionEvent.currentPlayerId e' = None /\
     AuctionEvent.currentPlayerStartTime e' = None /\
     AuctionEvent.stats e' = AuctionEvent.stats e /\
     AuctionEvent.players e' = AuctionEvent.players e /\
     AuctionEvent._id e' = AuctionEvent._id e) /\
  (includes_id playerId (AuctionEvent.players e) = true ->
   forall e', findEvent eventId w' = Some e' -> eligible e' playerId w' = true).
Proof.
  intros He Hcur Hp Hst Hbid Hv w'.
  pose proof (no_bid_expiry_eq now eventId playerId w e p He Hcur Hp Hst Hbid Hv) as Heq.
  unfold findEvent in He.
  pose proof (event_findById_some _ _ _ He) as [_ Hid].
  set (e1 := AuctionEvent.set_current None None e) in *.
  set (w1 := set_events (AuctionEvent.replaceById eventId e1 (events (db w))) w) in *.
  assert (findEvent eventId w1 = Some e1) as He1.
  { unfold findEvent, w1. cbn. apply (event_findById_replace _ _ e); [exact He | exact Hid]. }
  destruct (autoMoveToNextPlayer_effect now eventId w1) as (evs & tos & Hrun & Hevs).
  assert (w' = {| db := {| events := evs; players := players (db w1); teams := teams (db w1);
                           users := users (db w1); bids := bids (db w1);
                           budgets := budgets (db w1) |};
                  timers := timers w1; emitted := emitted w1; timeouts := tos |}) as Hw'.
  { unfold w', exec. rewrite Heq, Hrun. reflexivity. }
  assert (exists e',
     AuctionEvent.findById eventId evs = Some e' /\
     AuctionEvent.currentPlayerId e' = None /\
     AuctionEvent.currentPlayerStartTime e' = None /\
     AuctionEvent.stats e' = AuctionEvent.stats e /\
     AuctionEvent.players e' = AuctionEvent.players e /\
     AuctionEvent._id e' = AuctionEvent._id e) as (e' & Hf' & Hfacts).
  { destruct Hevs as [-> | (e0 & cat & He0 & ->)].
    - exists e1. split; [exact He1|]. cbn. auto.
    - rewrite He1 in He0. injection He0 as <-.
      exists (AuctionEvent.set_currentCategory (Some cat) e1). split.
      + apply (event_findById_replace _ _ e1); [exact He1 | exact Hid].
      + cbn. auto. }
  rewrite Hw'. cbn. repeat split; try reflexivity.
  - exists e'. split; [exact Hf' | exact Hfacts].
  - intros Hin e'' Hf''. unfold findEvent in Hf''. cbn in Hf''.
    rewrite Hf' in Hf''. injection Hf'' as <-.
    destruct Hfacts as (_ & _ & _ & Hpl & Hid').
    unfold eligible. cbn. apply existsb_exists.
    apply player_findById_some in Hp as [Hpin Hpid].
    exists p. split; [| rewrite Hpid; apply id_eqb_refl].
    unfold notSold, playersInEvent. apply filter_In. split.
    + apply filter_In. split; [exact Hpin|]. rewrite Hpl, Hpid. exact Hin.
    + rewrite Hid', Hid, Hpid.
      rewrite (no_winning_bid_not_sold _ _ _ Hbid). reflexivity.
Qed.

(** The callback stops at a player whose global status is not
    [available]: the operator marked [player1] unsold, the rotation offered
    it again, nobody bid, and the expiry leaves it the current player. *)
Example expiry_on_unsold_player :
  option_map Player.status
    (Player.findById "player1" (players (db Samples.unsoldPlayerOnAuction)))
    = Some Player.unsold /\
  isCurrentPlayer "event1" "player1" Samples.unsoldPlayerOnAuction = true /\
  Bid.getWinningBid "event1" "player1" (bids (db Samples.unsoldPlayerOnAuction)) = None /\
  timerCallback 45000 "event1" "player1" Samples.unsoldPlayerOnAuction
    = (inr tt, Samples.unsoldPlayerOnAuction).
Proof. vm_compute. auto. Qed.

(** C5 as stated fails. At an expiry in auto mode for the current player
    without a winning bid, the current player need not be cleared: in
    [Samples.unsoldPlayerOnAuction] the player's global status is [unsold]
    and the callback returns at its status test. *)
Lemma no_bid_expiry_not_always_requeued :
  ~ (forall now eventId playerId w e,
       findEvent eventId w = Some e ->
       AuctionEvent.currentPlayerId e = Some playerId ->
       AuctionEvent.autoMode (AuctionEvent.settings e) <> Some false ->
       Bid.getWinningBid eventId playerId (bids (db w)) = None ->
       exists e',
         findEvent eventId (exec (timerCallback now eventId playerId) w) = Some e' /\
         AuctionEvent.currentPlayerId e' = None /\
         AuctionEvent.currentPlayerStartTime e' = None).
Proof.
  intros H.
  destruct (H 45000 "event1" "player1" Samples.unsoldPlayerOnAuction
              (AuctionEvent.set_stats
                 {| AuctionEvent.totalPlayers := 2; AuctionEvent.playersSold := 0;
                    AuctionEvent.playersUnsold := 1; AuctionEvent.totalAmountSpent := 0 |}
                 (AuctionEvent.set_current (Some "player1") (Some 25000)
                    (Samples.event None (Some true)))))
    as (e' & He' & Hcur & _).
  - vm_compute. reflexivity.
  - reflexivity.
  - discriminate.
  - vm_compute. reflexivity.
  - vm_compute in He'. injection He' as <-. discriminate.
Qed.

(** C5, amended. When the timer expires for the current player, the
    player's global status is [available] and the pair has no winning bid
    (the event document passing its validators), the callback clears
    [currentPlayerId] and [currentPlayerStartTime] and runs the rotation on
    the result. The player collection is untouched, so the player is not
    marked unsold and keeps its status; no bid and no budget row changes, no
    socket event is sent; and the player, being of the event and without a
    winning bid, is still among those the rotation picks from. *)
Theorem no_bid_expiry_requeues_available_player now eventId playerId w e p :
  findEvent eventId w = Some e ->
  AuctionEvent.currentPlayerId e = Some playerId ->
  Player.findById playerId (players (db w)) = Some p ->
  Player.status p = Player.available ->
  Bid.getWinningBid eventId playerId (bids (db w)) = None ->
  AuctionEvent.validate now e = None ->
  let w' := exec (timerCallback now eventId playerId) w in
  timerCallback now eventId playerId w =
    autoMoveToNextPlayer now eventId
      (set_events (AuctionEvent.replaceById eventId
                     (AuctionEvent.set_current None None e) (events (db w))) w) /\
  players (db w') = players (db w) /\
  bids (db w') = bids (db w) /\
  budgets (db w') = budgets (db w) /\
  emitted w' = emitted w /\
  (exists e',
     findEvent eventId w' = Some e' /\
     AuctionEvent.currentPlayerId e' = None /\
     AuctionEvent.currentPlayerStartTime e' = None /\
     AuctionEvent.stats e' = AuctionEvent.stats e /\
     AuctionEvent.players e' = AuctionEvent.players e /\
     AuctionEvent._id e' = AuctionEvent._id e) /\
  (includes_id playerId (AuctionEvent.players e) = true ->
   forall e', findEvent eventId w' = Some e' -> eligible e' playerId w' = true).
Proof.
  intros He Hcur Hp Hst Hbid Hv w'. split.
  - apply (no_bid_expiry_eq now eventId playerId w e p); assumption.
  - apply (no_bid_expiry_effect now eventId playerId w e p); assumption.
Qed.

Lemma no_bid_expiry_requeues_available_player_witness :
  let w := Samples.world (Some true) [] in
  let w' := exec (timerCallback 21000 "event1" "player1") w in
  timerCallback 21000 "event1" "player1" w =
    autoMoveToNextPlayer 21000 "event1"
      (set_events (AuctionEvent.replaceById "event1"
                     (AuctionEvent.set_current None None
                        (Samples.event (Some "player1") (Some true))) (events (db w))) w) /\
  players (db w') = players (db w) /\
  bids (db w') = bids (db w) /\
  budgets (db w') = budgets (db w) /\
  emitted w' = emitted w /\
  (exists e',
     findEvent "event1" w' = Some e' /\
     AuctionEvent.currentPlayerId e' = None /\
     AuctionEvent.currentPlayerStartTime e' = None /\
     AuctionEvent.stats e' = AuctionEvent.stats (Samples.event (Some "player1") (Some true)) /\
     AuctionEvent.players e' = AuctionEvent.players (Samples.event (Some "player1") (Some true)) /\
     AuctionEvent._id e' = AuctionEvent._id (Samples.event (Some "player1") (Some true))) /\
  (includes_id "player1" (AuctionEvent.players (Samples.event (Some "player1") (Some true))) = true ->
   forall e', findEvent "event1" w' = Some e' -> eligible e' "player1" w' = true).
Proof.
  apply (no_bid_expiry_requeues_available_player 21000 "event1" "player1"
           (Samples.world (Some true) [])
           (Samples.event (Some "player1") (Some true))
           (Samples.player "player1" Player.batsman 20 Player.available));
    reflexivity.
Defined.

(** *** Manual mode *)

(** C4 as stated fails. In manual mode an expiry that finds a winning bid
    does not finalize: in [Samples.world (Some false) [bid of 500]] the
    player is available, the team exists and can afford the bid, and the
    callback leaves the current player and the statistics as they were. *)
Lemma manual_mode_does_not_finalize :
  ~ (forall now eventId playerId w e b,
       findEvent eventId w = Some e ->
       AuctionEvent.currentPlayerId e = Some playerId ->
       AuctionEvent.autoMode (AuctionEvent.settings e) = Some false ->
       Bid.getWinningBid eventId playerId (bids (db w)) = Some b ->
       exists e',
         findEvent eventId (exec (timerCallback now eventId playerId) w) = Some e' /\
         AuctionEvent.currentPlayerId e' = None /\
         AuctionEvent.playersSold (AuctionEvent.stats e') =
           AuctionEvent.playersSold (AuctionEvent.stats e) + 1).
Proof.
  intros H.
  destruct (H 21000 "event1" "player1"
              (Samples.world (Some false) [Samples.winningBid "bid1" "team1" "user1" 500 1500])
              (Samples.event (Some "player1") (Some false))
              (Samples.winningBid "bid1" "team1" "user1" 500 1500))
    as (e' & He' & Hcur & _); try reflexivity.
  vm_compute in He'. injection He' as <-. discriminate.
Qed.

Example auto_mode_finalizes_where_manual_does_not :
  let bid := Samples.winningBid "bid1" "team1" "user1" 500 1500 in
  option_map (fun e => (AuctionEvent.currentPlayerId e,
                        AuctionEvent.playersSold (AuctionEvent.stats e)))
    (findEvent "event1"
       (exec (timerCallback 21000 "event1" "player1") (Samples.world (Some true) [bid])))
    = Some (None, 1) /\
  option_map (fun e => (AuctionEvent.currentPlayerId e,
                        AuctionEvent.playersSold (AuctionEvent.stats e)))
    (findEvent "event1"
       (exec (timerCallback 21000 "event1" "player1") (Samples.world (Some false) [bid])))
    = Some (Some "player1", 0).
Proof. vm_compute. auto. Qed.

(** C4, amended. In manual mode ([autoMode] is [false]) an expiry that finds
    a winning bid changes nothing: no budget debit, no statistics update, the
    current player stays and nothing advances; the sale is left to the
    operator's finalize command. With no winning bid (player available, event
    valid) manual mode does what auto mode does: it clears the current player
    and runs the rotation. *)
Theorem manual_mode_expiry_leaves_sale_to_operator now eventId playerId w e :
  findEvent eventId w = Some e ->
  AuctionEvent.autoMode (AuctionEvent.settings e) = Some false ->
  (forall b, Bid.getWinningBid eventId playerId (bids (db w)) = Some b ->
     timerCallback now eventId playerId w = (inr tt, w)) /\
  (forall p,
     AuctionEvent.currentPlayerId e = Some playerId ->
     Player.findById playerId (players (db w)) = Some p ->
     Player.status p = Player.available ->
     Bid.getWinningBid eventId playerId (bids (db w)) = None ->
     AuctionEvent.validate now e = None ->
     timerCallback now eventId playerId w =
       autoMoveToNextPlayer now eventId
         (set_events (AuctionEvent.replaceById eventId
                        (AuctionEvent.set_current None None e) (events (db w))) w)).
Proof.
  intros He Hmanual. split.
  - intros b Hb. unfold findEvent in He.
    unfold timerCallback, try_catch, bind, get. cbn. rewrite He, Hb, Hmanual.
    destruct (differs (AuctionEvent.currentPlayerId e) playerId); [reflexivity|].
    destruct (Player.findById playerId (players (db w))) as [p|]; [|reflexivity].
    destruct (negb (Player.status_eqb (Player.status p) Player.available)); reflexivity.
  - intros p Hcur Hp Hst Hbid Hv.
    apply (no_bid_expiry_eq now eventId playerId w e p); assumption.
Qed.

Lemma manual_mode_expiry_leaves_sale_to_operator_witness :
  timerCallback 21000 "event1" "player1"
    (Samples.world (Some false) [Samples.winningBid "bid1" "team1" "user1" 500 1500])
  = (inr tt, Samples.world (Some false) [Samples.winningBid "bid1" "team1" "user1" 500 1500]).
Proof.
  pose proof (manual_mode_expiry_leaves_sale_to_operator 21000 "event1" "player1"
    (Samples.world (Some false) [Samples.winningBid "bid1" "team1" "user1" 500 1500])
    (Samples.event (Some "player1") (Some false)) eq_refl eq_refl) as [H _].
  apply (H (Samples.winningBid "bid1" "team1" "user1" 500 1500)). reflexivity.
Defined.

(** *** The sale *)

Lemma event_valid_facts now e :
  AuctionEvent.validate now e = None ->
  0 <= or_default (AuctionEvent.startingBudget (AuctionEvent.settings e)) 10000 /\
  0 <= AuctionEvent.playersSold (AuctionEvent.stats e) /\
  0 <= AuctionEvent.totalAmountSpent (AuctionEvent.stats e).
Proof.
  unfold AuctionEvent.validate.
  repeat match goal with
         | |- context [if ?c then _ else _] => destruct c eqn:?; [discriminate|]
         end.
  intros _.
  repeat match goal with
         | H : negb _ = false |- _ => apply negb_false_iff in H
         | H : (_ <? _) = false |- _ => apply Z.ltb_ge in H
         end.
  split; [|split; assumption].
  unfold or_default. destruct (AuctionEvent.startingBudget (AuctionEvent.settings e)) as [z|];
    [|lia].
  destruct (z =? 0); [lia|].
  match goal with H : AuctionEvent.in_range 0 None (Some z) = true |- _ =>
    cbn in H; rewrite andb_true_r in H; apply Z.leb_le in H end.
  assumption.
Qed.

(** After a sale the event still passes its validators. *)
Lemma event_valid_afterSale now e amount :
  AuctionEvent.validate now e = None -> 0 <= amount ->
  AuctionEvent.validate now
    (AuctionEvent.set_stats
       {| AuctionEvent.totalPlayers := AuctionEvent.totalPlayers (AuctionEvent.stats e);
          AuctionEvent.playersSold := AuctionEvent.playersSold (AuctionEvent.stats e) + 1;
          AuctionEvent.playersUnsold := AuctionEvent.playersUnsold (AuctionEvent.stats e);
          AuctionEvent.totalAmountSpent :=
            AuctionEvent.totalAmountSpent (AuctionEvent.stats e) + amount |} e) = None.
Proof.
  intros Hv Ha. unfold AuctionEvent.validate in *. cbn.
  repeat match type of Hv with
         | context [if ?c then _ else _] =>
             destruct c eqn:?; [discriminate|]
         end.
  repeat match goal with
         | H : (_ <? _) = false |- _ => apply Z.ltb_ge in H
         end.
  destruct (Z.ltb_spec (AuctionEvent.playersSold (AuctionEvent.stats e) + 1) 0); [lia|].
  destruct (Z.ltb_spec (AuctionEvent.totalAmountSpent (AuctionEvent.stats e) + amount) 0);
    [lia|].
  reflexivity.
Qed.

Lemma player_valid_facts p :
  Player.validate p = None -> 0 <= Player.basePrice p.
Proof.
  unfold Player.validate.
  repeat match goal with
         | |- context [if ?c then _ else _] => destruct c eqn:?; [discriminate|]
         end.
  intros _. apply Z.ltb_ge. assumption.
Qed.



Lemma team_findById_some id c d :
  Team.findById id c = Some d -> In d c /\ Team._id d = id.
Proof.
  unfold Team.findById. intros H. apply find_some in H as [Hin Heq].
  apply id_eqb_true in Heq. auto.
Qed.

Lemma team_save_push_ok playerId t c :
  Team.findById (Team._id t) c = Some t ->
  Team.validate t = None ->
  exists t' c', Team.save (Team.push_player playerId t) c = (inr t', c').
Proof.
  intros Hf Hv. unfold Team.save.
  assert (Team.validate (Team.push_player playerId t) = None) as -> by exact Hv.
  unfold bind, get, put, ret. cbn. rewrite Hf. eauto.
Qed.

Lemma or_default_idem a d :
  d <> 0 -> or_default (Some (or_default a d)) d = or_default a d.
Proof.
  intros Hd. unfold or_default. destruct a as [z|].
  - destruct (Z.eqb_spec z 0).
    + destruct (Z.eqb_spec d 0); [contradiction | reflexivity].
    + destruct (Z.eqb_spec z 0); [contradiction | reflexivity].
  - destruct (Z.eqb_spec d 0); [contradiction | reflexivity].
Qed.

(** The two ledger steps of a sale: the row is read or created, then
    debited. *)
Lemma sale_ledger_steps now team e amount w :
  ledgerRowOk team (AuctionEvent._id e) w ->
  AuctionEvent.validate now e = None ->
  0 <= amount ->
  amount <= TeamEventBudget.remainingBudget (budgetOf team e w) ->
  exists c1,
    TeamEventBudget.getOrCreate team (AuctionEvent._id e)
      (Some (or_default (AuctionEvent.startingBudget (AuctionEvent.settings e)) 10000))
      (budgets (db w)) = (inr (budgetOf team e w), c1) /\
    TeamEventBudget.addPurchase (budgetOf team e w) amount c1 =
      (inr (debited (budgetOf team e w) amount),
       <[(team, AuctionEvent._id e) := debited (budgetOf team e w) amount]> (budgets (db w))).
Proof.
  intros Hrow Hv Ha Hafford.
  destruct (event_valid_facts now e Hv) as (Hsb & _ & _).
  unfold ledgerRowOk in Hrow. unfold budgetOf in *.
  unfold TeamEventBudget.getOrCreate, bind, get. cbn.
  destruct (budgets (db w) !! (team, AuctionEvent._id e)) as [row|] eqn:Hl.
  - destruct Hrow as (Hkey & Hval & Hinv & Hle).
    exists (budgets (db w)). split; [reflexivity|].
    unfold TeamEventBudget.addPurchase, TeamEventBudget.canAfford.
    destruct (Z.geb_spec (TeamEventBudget.remainingBudget row) amount); [|lia]. cbn.
    unfold TeamEventBudget.save.
    assert (TeamEventBudget.validate
              {| TeamEventBudget.teamId := TeamEventBudget.teamId row;
                 TeamEventBudget.auctionEventId := TeamEventBudget.auctionEventId row;
                 TeamEventBudget.budget := TeamEventBudget.budget row;
                 TeamEventBudget.spent := TeamEventBudget.spent row + amount;
                 TeamEventBudget.remainingBudget :=
                   TeamEventBudget.budget row - (TeamEventBudget.spent row + amount) |}
            = None) as ->.
    { unfold TeamEventBudget.validate in *. cbn.
      destruct (Z.ltb_spec (TeamEventBudget.budget row) 0); [discriminate|].
      destruct (Z.ltb_spec (TeamEventBudget.spent row) 0); [discriminate|].
      destruct (Z.ltb_spec (TeamEventBudget.spent row + amount) 0); [lia|].
      destruct (Z.leb_spec (TeamEventBudget.spent row + amount)
                  (TeamEventBudget.budget row)); [reflexivity | lia]. }
    unfold bind, get, put, ret. cbn.
    unfold TeamEventBudget.key in *. cbn. rewrite Hkey, Hl. reflexivity.
  - rewrite (or_default_idem _ 10000) by lia.
    set (b0 := or_default (AuctionEvent.startingBudget (AuctionEvent.settings e)) 10000) in *.
    cbn in Hafford.
    eexists. split.
    + unfold TeamEventBudget.save.
      assert (TeamEventBudget.validate
                {| TeamEventBudget.teamId := team;
                   TeamEventBudget.auctionEventId := AuctionEvent._id e;
                   TeamEventBudget.budget := b0; TeamEventBudget.spent := 0;
                   TeamEventBudget.remainingBudget := b0 |} = None) as ->.
      { unfold TeamEventBudget.validate. cbn.
        destruct (Z.ltb_spec b0 0); [lia|].
        destruct (Z.leb_spec 0 b0); [reflexivity | lia]. }
      unfold bind, get, put, ret. cbn.
      unfold TeamEventBudget.key. cbn. rewrite Hl. cbn.
      unfold TeamEventBudget.pre_save. cbn.
      replace (b0 - 0) with b0 by lia. reflexivity.
    + unfold TeamEventBudget.addPurchase, TeamEventBudget.canAfford. cbn.
      destruct (Z.geb_spec b0 amount); [|lia]. cbn.
      unfold TeamEventBudget.save.
      assert (TeamEventBudget.validate
                {| TeamEventBudget.teamId := team;
                   TeamEventBudget.auctionEventId := AuctionEvent._id e;
                   TeamEventBudget.budget := b0; TeamEventBudget.spent := 0 + amount;
                   TeamEventBudget.remainingBudget := b0 - (0 + amount) |} = None) as ->.
      { unfold TeamEventBudget.validate. cbn.
        destruct (Z.ltb_spec b0 0); [lia|].
        destruct (Z.ltb_spec (0 + amount) 0); [lia|].
        destruct (Z.leb_spec (0 + amount) b0); [reflexivity | lia]. }
      unfold bind, get, put, ret. cbn.
      unfold TeamEventBudget.key. cbn. rewrite lookup_insert_eq.
      rewrite insert_insert_eq. reflexivity.
Qed.

Lemma zoom_eq {S T A} (proj : S -> T) (upd : T -> S -> S) (m : M T A) s r t' :
  m (proj s) = (r, t') -> zoom proj upd m s = (r, upd t' s).
Proof. intros H. unfold zoom. rewrite H. reflexivity. Qed.

Lemma bind_eq {S A B} (m : M S A) (k : A -> M S B) s a s' :
  m s = (inr a, s') -> bind m k s = k a s'.
Proof. intros H. unfold bind. rewrite H. reflexivity. Qed.

Lemma bind_get {S B} (k : S -> M S B) s : bind get k s = k s s.
Proof. reflexivity. Qed.

Lemma emitAvailablePlayersUpdate_effect eventId d tm em tos :
  exists ems,
    emitAvailablePlayersUpdate eventId
      {| db := d; timers := tm; emitted := em; timeouts := tos |} =
    (inr tt, {| db := d; timers := tm; emitted := em ++ ems; timeouts := tos |}).
Proof.
  unfold emitAvailablePlayersUpdate, try_catch, bind, get. cbn.
  destruct (AuctionEvent.findById eventId (events d)).
  - eexists [_]. reflexivity.
  - exists []. rewrite app_nil_r. reflexivity.
Qed.






Lemma exec_try_catch_unit {S} (m : M S unit) s :
  exec (try_catch m (fun _ => ret tt)) s = exec m s.
Proof.
  unfold exec, try_catch, ret. destruct (m s) as [[e | []] s']; reflexivity.
Qed.


Lemma budgetOf_debited team e w amount :
  ledgerRowOk team (AuctionEvent._id e) w ->
  TeamEventBudget.remainingBudget (debited (budgetOf team e w) amount) =
    TeamEventBudget.remainingBudget (budgetOf team e w) - amount.
Proof.
  unfold ledgerRowOk, budgetOf, debited. cbn.
  destruct (budgets (db w) !! (team, AuctionEvent._id e)) as [row|].
  - intros (_ & _ & Hinv & _). rewrite Hinv. lia.
  - intros _. cbn. lia.
Qed.


Example expiry_on_unsold_player_with_bid :
  option_map Bid.amount
    (Bid.getWinningBid "event1" "player1" (bids (db Samples.unsoldPlayerWithBid))) = Some 25 /\
  timerCallback 50000 "event1" "player1" Samples.unsoldPlayerWithBid
    = (inr tt, Samples.unsoldPlayerWithBid).
Proof. vm_compute. auto. Qed.




End TimerFacts.

(** ** Racing bids *)

Arguments Bid.insert : simpl never.
Arguments Bid.save : simpl never.
Arguments Bid.validate : simpl never.
Arguments Bid.breaks_unique_winning : simpl never.
Arguments TeamEventBudget.getOrCreate : simpl never.
Arguments AuctionRules.canPlaceBid : simpl never.

Section RaceFacts.
Import Engine.

Lemma latest_in l d : Bid.latest l = Some d -> In d l.
Proof.
  revert d. induction l as [| a l IH]; cbn; [discriminate|].
  intros d. destruct (Bid.latest l) as [d'|].
  - destruct (Bid.bidTime d' >? Bid.bidTime a); intros [= <-]; auto.
  - intros [= <-]. auto.
Qed.


(** What a validation that passes has read: the winning bid of the pair in
    the bids as they were, and a positive amount. Only a budget row may have
    been created. *)
Lemma placeBid_validate_inv req w o w' :
  placeBid_validate req w = (inr o, w') ->
  bids (db w') = bids (db w) /\
  emitted w' = emitted w /\ timers w' = timers w /\
  ob_currentWinningBid o =
    Bid.getWinningBid (ob_eventId o) (ob_playerId o) (bids (db w)) /\
  0 < ob_amount o.
Proof.
  unfold placeBid_validate.
  destruct (negb _); [discriminate|].
  destruct (_ || _); [discriminate|].
  destruct (body_eventId req) as [eventId|]; [|discriminate].
  destruct (body_playerId req) as [playerId|]; [|discriminate].
  unfold bind at 1. rewrite (surjective_pairing (get w)). cbn [get fst snd].
  destruct (AuctionEvent.findById eventId (events (db w))) as [event|]; [|discriminate].
  destruct (negb _); [discriminate|].
  destruct (differs _ _); [discriminate|].
  destruct (Player.findById playerId (players (db w))) as [player|]; [|discriminate].
  destruct (User.findById (user_userId req) (users (db w))) as [user|]; [|discriminate].
  destruct (User.teamId user) as [teamId|]; [|discriminate].
  destruct (Team.findById teamId (teams (db w))) as [team|]; [|discriminate].
  unfold bind, onBudgets, zoom.
  destruct (TeamEventBudget.getOrCreate _ _ _ _) as [[err | row] c']; [discriminate|].
  match goal with |- context [AuctionRules.canPlaceBid ?a ?b ?c ?d ?e] =>
    pose proof (proj1 (canPlaceBid_valid_iff a b c d e)) as Hvalid;
    destruct (AuctionRules.valid (AuctionRules.canPlaceBid a b c d e))
  end; [|discriminate].
  cbn [negb].
  destruct (Hvalid eq_refl) as (amount & minimum & Hamt & Hpos & _).
  rewrite Hamt. unfold ret. intros [= <- <-]. cbn. auto.
Qed.


Lemma bid_findById_replaceById_some id x c i :
  Bid._id x = id ->
  Bid.findById i c <> None -> Bid.findById i (Bid.replaceById id x c) <> None.
Proof.
  intros Hx. unfold Bid.findById, Bid.replaceById.
  induction c as [| a c IH]; cbn; [auto|].
  destruct (id_eqb (Bid._id a) i) eqn:Ea.
  - intros _. destruct (id_eqb (Bid._id a) id) eqn:Eb; cbn.
    + apply id_eqb_true in Ea, Eb.
      assert (id_eqb (Bid._id x) i = true) as -> by (apply id_eqb_true; congruence).
      discriminate.
    + rewrite Ea. discriminate.
  - intros H. destruct (id_eqb (Bid._id a) id) eqn:Eb; cbn.
    + destruct (id_eqb (Bid._id x) i); [discriminate | auto].
    + rewrite Ea. auto.
Qed.


Lemma bid_findById_some id c d :
  Bid.findById id c = Some d -> In d c /\ Bid._id d = id.
Proof.
  unfold Bid.findById. intros H. apply find_some in H as [Hin Heq].
  apply id_eqb_true in Heq. auto.
Qed.


Lemma bid_In_replaceById_other id x c d :
  In d c -> Bid._id d <> id -> In d (Bid.replaceById id x c).
Proof.
  intros Hin Hne. unfold Bid.replaceById. apply in_map_iff. exists d.
  apply id_eqb_false in Hne. rewrite Hne. auto.
Qed.







Lemma bid_validate_positive d : 0 < Bid.amount d -> Bid.validate d = None.
Proof.
  intros H. unfold Bid.validate.
  destruct (Z.ltb_spec (Bid.amount d) 0); [lia|].
  destruct (Z.gtb_spec (Bid.amount d) 0); [reflexivity | lia].
Qed.



(** Scenario of the bidding rules through [placeBid]: base price 20, a bid
    of 20 is refused, 25 is stored as the winning bid, after which 29 is
    refused with minimum 30. The [bid:received] payload announces
    [amount + settings.bidIncrement] as the next amount, which is not what
    validation asks for. *)
Example placeBid_scenario :
  let w := Samples.world (Some true) [] in
  let w' := exec (placeBid 2000 "bidA" (Samples.bidRequest "user1" 25)) w in
  outcome (placeBid 2000 "bidA" (Samples.bidRequest "user1" 20)) w =
    inl (HttpError 400 "Bid must be at least 25 (current: 20, increment: 5)") /\
  outcome (placeBid 2000 "bidA" (Samples.bidRequest "user1" 25)) w =
    inr (Samples.winningBid "bidA" "team1" "user1" 25 2000) /\
  emitted w' = [BidReceived "event1" "bidA" "player1" "team1" "user1" 25 75 None;
                TeamBalance "event1" "user1" 1000] /\
  outcome (placeBid 2500 "bidB" (Samples.bidRequest "user2" 29)) w' =
    inl (HttpError 400 "Bid must be at least 30 (current: 25, increment: 5)").
Proof. vm_compute. auto. Qed.

Example race_on_first_bid :
  List.map (fun d => (Bid._id d, Bid.isWinningBid d)) (bids (db Samples.firstRecorded)) =
    [("bidA", true)] /\
  outcome (placeBid_record 2001 "bidB" (Samples.observed "user2" "team2" 25))
    Samples.firstRecorded = inl (DuplicateKeyError Bid.winning_index_keys) /\
  List.map (fun d => (Bid._id d, Bid.isWinningBid d)) (bids (db Samples.secondRefused)) =
    [("bidA", true)].
Proof. vm_compute. auto. Qed.




End RaceFacts.

(** ** More of the bidding rules *)

Section MoreAuctionRulesFacts.
Import AuctionRules.

Lemma getNextBidAmount_of_base c :
  getNextBidAmount c = getNextBidAmount (Some (or_default c 20)).
Proof.
  unfold getNextBidAmount. cbn [BASE_PRICE AUCTION_CONSTANTS].
  rewrite or_default_idem by lia. reflexivity.
Qed.

Lemma or_default_nonzero a d : d <> 0 -> or_default a d <> 0.
Proof.
  intros Hd. unfold or_default. destruct a as [z|]; [|exact Hd].
  destruct (Z.eqb_spec z 0); assumption.
Qed.

(** X1. [getIncrementAmount] is the step [getNextBidAmount] takes from the
    current amount (the base price 20 standing in for a missing or zero
    amount): between 1 and 15 below the cap of 2000, and 0 from the cap on,
    where there is no next amount. *)
Theorem getIncrementAmount_is_the_step (currentBid : option Z) :
  let base := or_default currentBid (BASE_PRICE AUCTION_CONSTANTS) in
  (MAX_BID_PER_PLAYER AUCTION_CONSTANTS <= base ->
   getNextBidAmount currentBid = None /\ getIncrementAmount currentBid = 0) /\
  (base < MAX_BID_PER_PLAYER AUCTION_CONSTANTS ->
   1 <= getIncrementAmount currentBid <= 15 /\
   getNextBidAmount currentBid = Some (base + getIncrementAmount currentBid)).
Proof.
  cbv zeta. unfold getIncrementAmount.
  cbn [BASE_PRICE MAX_BID_PER_PLAYER AUCTION_CONSTANTS].
  rewrite getNextBidAmount_of_base.
  set (base := or_default currentBid 20).
  assert (base <> 0) as Hnz by (apply or_default_nonzero; lia).
  rewrite getNextBidAmount_tiers by exact Hnz.
  split; intros H.
  - destruct (Z.geb_spec base 2000); [auto | lia].
  - destruct (Z.geb_spec base 2000); [lia|].
    destruct (Z.ltb_spec base 20); [split; [lia | f_equal; lia]|].
    destruct (Z.ltb_spec base 50); [split; [lia | f_equal; lia]|].
    destruct (Z.ltb_spec base 100); [split; [lia | f_equal; lia]|].
    split; [lia | f_equal; lia].
Qed.

(** X2. [isValidIncrement] accepts exactly the amounts from the next valid
    amount on: an accepted amount is above the current one, every greater
    amount is accepted too (the cap is not checked here), nothing is accepted
    once the current amount has reached the cap, and every bid [canPlaceBid]
    accepts passes it. *)
Theorem isValidIncrement_accepts_from_next_amount :
  (forall bidAmount currentBid,
     isValidIncrement bidAmount currentBid = true <->
     exists next, getNextBidAmount currentBid = Some next /\ next <= bidAmount) /\
  (forall bidAmount currentBid,
     isValidIncrement bidAmount currentBid = true ->
     or_default currentBid (BASE_PRICE AUCTION_CONSTANTS) < bidAmount) /\
  (forall bidAmount higher currentBid,
     isValidIncrement bidAmount currentBid = true -> bidAmount <= higher ->
     isValidIncrement higher currentBid = true) /\
  (forall bidAmount current,
     MAX_BID_PER_PLAYER AUCTION_CONSTANTS <= current ->
     isValidIncrement bidAmount (Some current) = false) /\
  (forall amount current ownerBalance teamPlayerCount isOwner,
     valid (canPlaceBid (JsNum (Finite amount)) (Some current) ownerBalance teamPlayerCount
              {| opt_currentBidAmount := Some current; opt_isOwnerBidding := isOwner |}) = true ->
     isValidIncrement amount (Some current) = true).
Proof.
  assert (forall bidAmount currentBid,
     isValidIncrement bidAmount currentBid = true <->
     exists next, getNextBidAmount currentBid = Some next /\ next <= bidAmount) as Hiff.
  { intros bidAmount currentBid. unfold isValidIncrement.
    destruct (getNextBidAmount currentBid) as [next|]; split.
    - intros H. exists next. split; [reflexivity|].
      destruct (Z.geb_spec bidAmount next); [lia | discriminate].
    - intros (m & [= <-] & Hm). destruct (Z.geb_spec bidAmount next); [reflexivity | lia].
    - discriminate.
    - intros (m & Hm & _). discriminate. }
  split; [exact Hiff|]. split; [|split; [|split]].
  - intros bidAmount currentBid H. apply Hiff in H as (next & Hnext & Hle).
    cbn [BASE_PRICE AUCTION_CONSTANTS].
    rewrite getNextBidAmount_of_base in Hnext.
    destruct (Z.lt_ge_cases (or_default currentBid 20) 2000) as [Hlt | Hge].
    + destruct (getNextBidAmount_increases _ Hlt) as (y & Hy & Hxy & _).
      rewrite Hy in Hnext. injection Hnext as <-. lia.
    + rewrite getNextBidAmount_at_cap in Hnext by lia. discriminate.
  - intros bidAmount higher currentBid H Hle. apply Hiff.
    apply Hiff in H as (next & Hnext & Hn). exists next. split; [exact Hnext | lia].
  - intros bidAmount current Hcap. cbn [MAX_BID_PER_PLAYER AUCTION_CONSTANTS] in Hcap.
    unfold isValidIncrement. rewrite getNextBidAmount_at_cap by exact Hcap. reflexivity.
  - intros amount current ownerBalance teamPlayerCount isOwner H.
    apply canPlaceBid_valid_iff in H as (a & m & [= <-] & _ & _ & Hm & Hle & _).
    cbn in Hm. apply Hiff. exists m. split; [exact Hm | exact Hle].
Qed.

End MoreAuctionRulesFacts.

(** ** [finalizePlayer] on plain objects *)

Section PlainSaleFacts.
Import PlainSale.

Example finalizePlayer_sample :
  finalizePlayer
    (Some {| pp_id := Some "p1"; pp_altId := None; pp_name := Some "A. Batter";
             pp_status := Some "available"; pp_basePrice := Some 20;
             pp_soldPrice := None; pp_currentPrice := None; pp_teamId := None |})
    (Some {| pt_id := Some "t1"; pt_altId := None; pt_name := Some "Lions";
             pt_budget := Some 1000; pt_spent := Some 300; pt_remainingBudget := None;
             pt_players := Some [Some "p0"]; pt_playerCount := None |})
    (JsNum (Finite 500))
  = SaleSuccess
      {| pp_id := Some "p1"; pp_altId := None; pp_name := Some "A. Batter";
         pp_status := Some "sold"; pp_basePrice := Some 20;
         pp_soldPrice := Some 500; pp_currentPrice := Some 500; pp_teamId := Some "t1" |}
      {| pt_id := Some "t1"; pt_altId := None; pt_name := Some "Lions";
         pt_budget := Some 1000; pt_spent := Some 800; pt_remainingBudget := Some 200;
         pt_players := Some [Some "p0"; Some "p1"]; pt_playerCount := None |}
      "Player A. Batter sold to Lions for 500".
Proof. reflexivity. Qed.

Example finalizePlayer_refusals :
  let player := {| pp_id := Some "p1"; pp_altId := None; pp_name := None;
                   pp_status := Some "unsold"; pp_basePrice := Some 0;
                   pp_soldPrice := None; pp_currentPrice := None; pp_teamId := None |} in
  let team := {| pt_id := Some "t1"; pt_altId := None; pt_name := None;
                 pt_budget := Some 100; pt_spent := None; pt_remainingBudget := None;
                 pt_players := None; pt_playerCount := Some 3 |} in
  finalizePlayer None (Some team) (JsNum (Finite 50)) = SaleFailure "Invalid player object" /\
  finalizePlayer (Some player) None (JsNum (Finite 50)) = SaleFailure "Invalid team object" /\
  finalizePlayer (Some player) (Some team) (JsString "50") = SaleFailure "Invalid bid amount" /\
  finalizePlayer (Some player) (Some team) (JsNum PosInfinity) =
    SaleFailure "Invalid bid amount" /\
  finalizePlayer (Some player) (Some team) (JsNum (Finite 50)) =
    SaleFailure "Player is not available for purchase. Current status: unsold".
Proof. cbv zeta. repeat split; reflexivity. Qed.

(** X3. [finalizePlayer] sells exactly when both objects are given, the bid
    is a finite number in (0, 2000], the player's status is absent, empty or
    'available', the bid is within the team's balance, the team has fewer
    than 10 players and the bid reaches the base price (20 when the base
    price is missing or 0). The objects it returns then record the sale: the
    player is 'sold' at the bid, the team's spent amount grows by the bid and
    its remaining budget is the balance less the bid, never negative; a
    roster kept as an array grows by the player. *)
Theorem finalizePlayer_sells_within_limits :
  (forall player team bidAmount,
     (exists p t m, finalizePlayer player team bidAmount = SaleSuccess p t m) <->
     (exists player0 team0 amount,
        player = Some player0 /\ team = Some team0 /\
        bidAmount = JsNum (Finite amount) /\
        0 < amount <= AuctionRules.MAX_BID_PER_PLAYER AuctionRules.AUCTION_CONSTANTS /\
        blockingStatus player0 = None /\
        amount <= teamBalance team0 /\
        currentPlayerCount team0 <
          AuctionRules.MAX_PLAYERS_PER_TEAM AuctionRules.AUCTION_CONSTANTS /\
        or_default (pp_basePrice player0)
          (AuctionRules.BASE_PRICE AuctionRules.AUCTION_CONSTANTS) <= amount)) /\
  (forall player0 team0 amount p t m,
     finalizePlayer (Some player0) (Some team0) (JsNum (Finite amount)) = SaleSuccess p t m ->
     pp_status p = Some "sold" /\
     pp_soldPrice p = Some amount /\ pp_currentPrice p = Some amount /\
     pp_teamId p = or_string (pt_id team0) (pt_altId team0) /\
     pt_spent t = Some (or_default (pt_spent team0) 0 + amount) /\
     pt_remainingBudget t = Some (teamBalance team0 - amount) /\
     0 <= teamBalance t /\
     pt_budget t = pt_budget team0 /\
     (forall roster, pt_players team0 = Some roster ->
        pt_players t = Some (roster ++ [or_string (pp_id player0) (pp_altId player0)]) /\
        currentPlayerCount t = currentPlayerCount team0 + 1)).
Proof.
  split.
  - intros player team bidAmount. split.
    + intros (p & t & m & H). unfold finalizePlayer in H.
      destruct player as [player0|]; [|discriminate].
      destruct team as [team0|]; [|discriminate].
      destruct bidAmount as [[amount| | |]| | | |]; try discriminate.
      exists player0, team0, amount.
      cbn [AuctionRules.BASE_PRICE AuctionRules.MAX_BID_PER_PLAYER
           AuctionRules.MAX_PLAYERS_PER_TEAM AuctionRules.AUCTION_CONSTANTS] in *.
      destruct (Z.leb_spec amount 0); [discriminate|].
      destruct (blockingStatus player0); [discriminate|].
      destruct (Z.gtb_spec amount (teamBalance team0)); [discriminate|].
      destruct (Z.geb_spec (currentPlayerCount team0) 10); [discriminate|].
      destruct (Z.ltb_spec amount (or_default (pp_basePrice player0) 20)); [discriminate|].
      destruct (Z.gtb_spec amount 2000); [discriminate|].
      repeat split; try reflexivity; lia.
    + intros (player0 & team0 & amount & -> & -> & -> & [Hpos Hcap] & Hst & Hbal & Hcnt & Hbase).
      unfold finalizePlayer.
      cbn [AuctionRules.BASE_PRICE AuctionRules.MAX_BID_PER_PLAYER
           AuctionRules.MAX_PLAYERS_PER_TEAM AuctionRules.AUCTION_CONSTANTS] in *.
      destruct (Z.leb_spec amount 0); [lia|]. rewrite Hst.
      destruct (Z.gtb_spec amount (teamBalance team0)); [lia|].
      destruct (Z.geb_spec (currentPlayerCount team0) 10); [lia|].
      destruct (Z.ltb_spec amount (or_default (pp_basePrice player0) 20)); [lia|].
      destruct (Z.gtb_spec amount 2000); [lia|].
      eauto.
  - intros player0 team0 amount p t m H. unfold finalizePlayer in H.
    cbn [AuctionRules.BASE_PRICE AuctionRules.MAX_BID_PER_PLAYER
         AuctionRules.MAX_PLAYERS_PER_TEAM AuctionRules.AUCTION_CONSTANTS] in H.
    destruct (Z.leb_spec amount 0); [discriminate|].
    destruct (blockingStatus player0); [discriminate|].
    destruct (Z.gtb_spec amount (teamBalance team0)); [discriminate|].
    destruct (Z.geb_spec (currentPlayerCount team0) 10); [discriminate|].
    destruct (Z.ltb_spec amount (or_default (pp_basePrice player0) 20)); [discriminate|].
    destruct (Z.gtb_spec amount 2000); [discriminate|].
    injection H as <- <- <-. cbn [pp_status pp_soldPrice pp_currentPrice pp_teamId
      pt_spent pt_remainingBudget pt_budget pt_players].
    repeat (split; [reflexivity|]).
    split; [unfold teamBalance at 1; cbn [pt_remainingBudget]; lia|].
    split; [reflexivity|].
    intros roster Hr. rewrite Hr. split; [reflexivity|].
    unfold currentPlayerCount. cbn [pt_players]. rewrite Hr, length_app. cbn [length]. lia.
Qed.

End PlainSaleFacts.

(** ** Clocks *)

Section ClockFacts.
Import Clock.

(** X4. The timer of [auctionRules.js] is expired exactly when a start time
    is given and at least 10 whole seconds have passed since; without a
    start time it never expires. The remaining time is never negative, is at
    most 10 for a start time that is not in the future, and does not grow as
    the clock advances. *)
Theorem isTimerExpired_after_ten_seconds (now : Z) (startTime : option Z) :
  (isTimerExpired now startTime = true <->
   exists t, startTime = Some t /\ 10000 <= now - t) /\
  0 <= getRemainingTime now startTime /\
  (forall t, startTime = Some t -> t <= now -> getRemainingTime now startTime <= 10) /\
  (forall later, now <= later ->
     getRemainingTime later startTime <= getRemainingTime now startTime).
Proof.
  unfold isTimerExpired, getRemainingTime.
  cbn [AuctionRules.TIMER_SECONDS AuctionRules.AUCTION_CONSTANTS].
  destruct startTime as [t|].
  - pose proof (Z.div_le_lower_bound (now - t) 1000 10 ltac:(lia)) as Hlo.
    pose proof (Z.div_lt_upper_bound (now - t) 1000 10 ltac:(lia)) as Hup.
    split; [split|split; [lia|split]].
    + intros H. apply Z.eqb_eq in H. exists t. split; [reflexivity|].
      destruct (Z.lt_ge_cases (now - t) 10000) as [Hlt|]; [|lia].
      specialize (Hup ltac:(lia)). lia.
    + intros (t' & [= <-] & H). apply Z.eqb_eq. specialize (Hlo ltac:(lia)). lia.
    + intros t' [= <-] Hle.
      pose proof (Z.div_pos (now - t) 1000 ltac:(lia) ltac:(lia)). lia.
    + intros later Hle.
      pose proof (Z.div_le_mono (now - t) (later - t) 1000 ltac:(lia) ltac:(lia)). lia.
  - split; [split|split; [lia|split]].
    + discriminate.
    + intros (t & Ht & _). discriminate.
    + discriminate.
    + lia.
Qed.

(** X5. The remaining time of [timerManager.js] counts down from 60: it is 0
    exactly when a start time is given and at least 60 whole seconds have
    passed, 60 without a start time, never negative, and never less than
    what [auctionRules.js] reports for the same start time. *)
Theorem managerRemainingTime_counts_from_sixty (now : Z) (startTime : option Z) :
  (managerRemainingTime now startTime = 0 <->
   exists t, startTime = Some t /\ 60000 <= now - t) /\
  (startTime = None -> managerRemainingTime now startTime = 60) /\
  0 <= managerRemainingTime now startTime /\
  (forall t, startTime = Some t -> t <= now -> managerRemainingTime now startTime <= 60) /\
  getRemainingTime now startTime <= managerRemainingTime now startTime.
Proof.
  unfold managerRemainingTime, getRemainingTime.
  cbn [AuctionRules.TIMER_SECONDS AuctionRules.AUCTION_CONSTANTS].
  destruct startTime as [t|].
  - pose proof (Z.div_le_lower_bound (now - t) 1000 60 ltac:(lia)) as Hlo.
    pose proof (Z.div_lt_upper_bound (now - t) 1000 60 ltac:(lia)) as Hup.
    split; [split|split; [discriminate|split; [lia|split]]].
    + intros H. exists t. split; [reflexivity|].
      destruct (Z.lt_ge_cases (now - t) 60000) as [Hlt|]; [|lia].
      specialize (Hup ltac:(lia)). lia.
    + intros (t' & [= <-] & H). specialize (Hlo ltac:(lia)). lia.
    + intros t' [= <-] Hle.
      pose proof (Z.div_pos (now - t) 1000 ltac:(lia) ltac:(lia)). lia.
    + lia.
  - split; [split|split; [reflexivity|split; [lia|split]]].
    + discriminate.
    + intros (t & Ht & _). discriminate.
    + discriminate.
    + lia.
Qed.

End ClockFacts.

(** ** More of the budget ledger *)

Section MoreBudgetFacts.
Import TeamEventBudget.

(** X6. What [getOrCreate] returns is then the row [findOne] finds for the
    pair, and a second [getOrCreate] for the pair returns that row again,
    whatever default it is given, and writes nothing. Rows of other pairs are
    untouched. A row that had to be created starts unspent at the default
    budget, where a default that is missing or 0 stands for 10000; a negative
    default is refused by the validators and creates no row. *)
Theorem getOrCreate_creates_once team event defaultBudget c d c' :
  getOrCreate team event defaultBudget c = (inr d, c') ->
  findOne team event c' = Some d /\
  (forall other, getOrCreate team event other c' = (inr d, c')) /\
  (forall k, k <> (team, event) -> c' !! k = c !! k) /\
  (findOne team event c = None ->
   budget d = or_default defaultBudget 10000 /\ spent d = 0 /\
   remainingBudget d = or_default defaultBudget 10000 /\ 0 <= budget d) /\
  (forall b, b < 0 -> findOne team event c = None ->
     getOrCreate team event (Some b) c =
       (inl (ValidationError "budget" "Budget cannot be negative"), c)).
Proof.
  intros H. pose proof H as H0.
  apply getOrCreate_returns in H as (Hfound & Hcase).
  split; [exact Hfound|]. split; [|split; [|split]].
  - intros other. unfold getOrCreate, bind, get. rewrite Hfound. reflexivity.
  - intros k Hk. destruct Hcase as [[_ ->] | (_ & _ & ->)]; [reflexivity|].
    apply lookup_insert_ne. congruence.
  - unfold findOne. intros Hnone.
    destruct Hcase as [[Hsome _] | (_ & -> & _)]; [congruence|]. cbn.
    repeat split; try reflexivity.
    unfold getOrCreate, bind, get in H0. rewrite Hnone in H0.
    destruct (budget_save_cases true
      {| teamId := team; auctionEventId := event;
         budget := or_default defaultBudget 10000; spent := 0;
         remainingBudget := or_default defaultBudget 10000 |} c) as [[e He] | [Hv _]].
    + rewrite He in H0. discriminate.
    + unfold validate in Hv. cbn in Hv.
      destruct (Z.ltb_spec (or_default defaultBudget 10000) 0); [discriminate | lia].
  - intros b Hb Hnone. unfold findOne in Hnone.
    unfold getOrCreate, bind, get. rewrite Hnone.
    unfold save, validate. cbn [budget]. unfold or_default.
    destruct (Z.eqb_spec b 0); [lia|].
    destruct (Z.ltb_spec b 0); [reflexivity | lia].
Qed.

Lemma getOrCreate_creates_once_witness :
  findOne "team1" "event1"
    (exec (getOrCreate "team1" "event1" None) ∅) =
  Some {| teamId := "team1"; auctionEventId := "event1"; budget := 10000; spent := 0;
          remainingBudget := 10000 |}.
Proof.
  apply (getOrCreate_creates_once "team1" "event1" None ∅). reflexivity.
Defined.

Lemma budget_save_existing d c :
  validate d = None -> is_Some (c !! key d) ->
  save false d c = (inr (pre_save d), <[key d := pre_save d]> c).
Proof.
  intros Hv [x Hx]. unfold save. rewrite Hv. unfold bind, get.
  change (key (pre_save d)) with (key d). rewrite Hx. reflexivity.
Qed.

(** X7. For a stored row that satisfies the ledger invariant, [addPurchase]
    succeeds exactly when the price lies between minus the amount spent and
    the remaining budget. It then stores the row with the price added to
    [spent] and taken from [remainingBudget], the budget as it was, and
    leaves every other row alone. *)
Theorem addPurchase_succeeds_within_remaining this playerPrice c :
  row_ok this -> is_Some (c !! key this) ->
  ((exists d c', addPurchase this playerPrice c = (inr d, c')) <->
   - spent this <= playerPrice <= remainingBudget this) /\
  (forall d c', addPurchase this playerPrice c = (inr d, c') ->
     c' !! key this = Some d /\
     spent d = spent this + playerPrice /\
     remainingBudget d = remainingBudget this - playerPrice /\
     budget d = budget this /\
     forall k, k <> key this -> c' !! k = c !! k).
Proof.
  intros [Hrem Hle] Hstored. split; [split|].
  - intros (d & c' & H). pose proof H as H0.
    apply addPurchase_debits in H as (Hp & _ & _ & _ & _ & _ & _).
    split; [|exact Hp].
    unfold addPurchase in H0. destruct (negb _); [discriminate|].
    unfold save in H0.
    match type of H0 with context [validate ?x] => destruct (validate x) eqn:Hv end;
      [discriminate|].
    unfold validate in Hv. cbn in Hv.
    destruct (Z.ltb_spec (budget this) 0); [discriminate|].
    destruct (Z.ltb_spec (spent this + playerPrice) 0); [discriminate | lia].
  - intros [Hlo Hhi]. unfold addPurchase, canAfford.
    destruct (Z.geb_spec (remainingBudget this) playerPrice); [|lia]. cbn [negb].
    rewrite budget_save_existing; [eauto| |exact Hstored].
    unfold validate. cbn.
    destruct (Z.ltb_spec (budget this) 0); [lia|].
    destruct (Z.ltb_spec (spent this + playerPrice) 0); [lia|].
    destruct (Z.leb_spec (spent this + playerPrice) (budget this)); [reflexivity | lia].
  - intros d c' H.
    apply addPurchase_debits in H as (_ & Ht & He & Hb & Hs & Hr & ->).
    split; [apply lookup_insert_eq|]. split; [exact Hs|]. split; [lia|]. split; [exact Hb|].
    intros k Hk. apply lookup_insert_ne. congruence.
Qed.

Lemma addPurchase_succeeds_within_remaining_witness :
  (exists d c',
     addPurchase {| teamId := "team1"; auctionEventId := "event1"; budget := 1000;
                    spent := 300; remainingBudget := 700 |} 700
       {[ ("team1", "event1") :=
            {| teamId := "team1"; auctionEventId := "event1"; budget := 1000;
               spent := 300; remainingBudget := 700 |} ]} = (inr d, c')) <->
  - 300 <= 700 <= 700.
Proof.
  refine (proj1 (addPurchase_succeeds_within_remaining
    {| teamId := "team1"; auctionEventId := "event1"; budget := 1000;
       spent := 300; remainingBudget := 700 |} 700
    {[ ("team1", "event1") :=
         {| teamId := "team1"; auctionEventId := "event1"; budget := 1000;
            spent := 300; remainingBudget := 700 |} ]} _ _)).
  - split; cbn; lia.
  - cbn. rewrite lookup_singleton_eq. eauto.
Defined.

End MoreBudgetFacts.

(** ** More of the bid model *)

Section MoreBidFacts.
Import Bid.

Lemma bid_findById_map (f : Doc -> Doc) id c :
  (forall d, _id (f d) = _id d) ->
  findById id (List.map f c) = option_map f (findById id c).
Proof.
  intros Hf. unfold findById. induction c as [| a c IH]; [reflexivity|].
  cbn [List.map List.find]. rewrite Hf.
  destruct (id_eqb (_id a) id); [reflexivity | exact IH].
Qed.

Lemma bid_findById_replaceById_self id x c d :
  findById id c = Some d -> _id x = id ->
  findById id (replaceById id x c) = Some x.
Proof.
  unfold findById, replaceById. intros Hf Hx.
  induction c as [| a l IH]; [discriminate|].
  cbn [List.map List.find] in *.
  destruct (id_eqb (_id a) id) eqn:E.
  - rewrite Hx, id_eqb_refl. reflexivity.
  - rewrite E. apply IH. exact Hf.
Qed.

Lemma bid_apply_modified_to_winning this :
  apply_modified this (set_status winning (set_isWinningBid true this)) this =
  set_status winning (set_isWinningBid true this).
Proof.
  unfold apply_modified. destruct this as [i e p t b a st w r bt o].
  cbn [status isWinningBid rejectionReason outbidAt set_status set_isWinningBid].
  assert (option_eqb String.eqb r r = true) as ->
    by (destruct r; cbn; [apply String.eqb_refl | reflexivity]).
  assert (option_eqb Z.eqb o o = true) as ->
    by (destruct o; cbn; [apply Z.eqb_refl | reflexivity]).
  destruct st, w; reflexivity.
Qed.

Lemma bid_apply_modified_to_rejected this reason :
  apply_modified this
    (set_isWinningBid false (set_rejectionReason (Some reason) (set_status rejected this)))
    this =
  set_isWinningBid false (set_rejectionReason (Some reason) (set_status rejected this)).
Proof.
  unfold apply_modified. destruct this as [i e p t b a st w r bt o].
  cbn [status isWinningBid rejectionReason outbidAt set_status set_isWinningBid
       set_rejectionReason].
  assert (option_eqb Z.eqb o o = true) as ->
    by (destruct o; cbn; [apply Z.eqb_refl | reflexivity]).
  destruct r as [r|]; cbn [option_eqb].
  - destruct (String.eqb_spec r reason) as [-> | _]; destruct st, w; reflexivity.
  - destruct st, w; reflexivity.
Qed.

Lemma latest_all_equal l x :
  l <> [] -> (forall d, In d l -> d = x) -> latest l = Some x.
Proof.
  intros Hne Hall. destruct (latest l) as [d|] eqn:E.
  - f_equal. apply Hall. apply latest_in. exact E.
  - apply latest_none in E. contradiction.
Qed.

Lemma markAsWinning_ok this now c :
  findById (_id this) c = Some this ->
  0 < amount this ->
  let winner := set_status winning (set_isWinningBid true this) in
  exists c',
    markAsWinning this now c = (inr winner, c') /\
    findById (_id this) c' = Some winner /\
    getWinningBid (auctionEventId this) (playerId this) c' = Some winner /\
    (forall d, In d c' ->
       is_winning_for (auctionEventId this) (playerId this) d = true -> d = winner) /\
    (forall d, In d c ->
       is_winning_for (auctionEventId this) (playerId this) d = true ->
       _id d <> _id this ->
       In (set_outbidAt (Some now) (set_status outbid (set_isWinningBid false d))) c').
Proof.
  intros Hfound Hpos winner.
  set (demote := fun d : Doc =>
    if is_winning_for (auctionEventId this) (playerId this) d &&
       negb (id_eqb (_id d) (_id this))
    then set_outbidAt (Some now) (set_status outbid (set_isWinningBid false d))
    else d).
  assert (forall d, _id (demote d) = _id d) as Hid.
  { intros d. unfold demote. destruct (_ && _); reflexivity. }
  assert (demote this = this) as Hthis.
  { unfold demote. rewrite id_eqb_refl, andb_false_r. reflexivity. }
  assert (forall d, _id d <> _id this ->
            is_winning_for (auctionEventId this) (playerId this) (demote d) = false) as Hdem.
  { intros d Hne. unfold demote.
    destruct (is_winning_for (auctionEventId this) (playerId this) d) eqn:Hw.
    - assert (id_eqb (_id d) (_id this) = false) as -> by (apply id_eqb_false; exact Hne).
      cbn. unfold is_winning_for. cbn. apply andb_false_r.
    - cbn. exact Hw. }
  assert (validate winner = None) as Hval by (apply bid_validate_positive; exact Hpos).
  assert (pre_save winner = winner) as Hpre by reflexivity.
  assert (findById (_id this) (List.map demote c) = Some this) as Hfound1.
  { rewrite bid_findById_map by exact Hid. rewrite Hfound. cbn. rewrite Hthis. reflexivity. }
  assert (is_winning_for (auctionEventId this) (playerId this) winner = true) as Hww.
  { apply is_winning_for_true. repeat split; reflexivity. }
  assert (breaks_unique_winning winner (List.map demote c) = false) as Hidx.
  { unfold breaks_unique_winning.
    change (isWinningBid winner) with true. cbn [andb].
    apply not_true_is_false. intros Hex. apply existsb_exists in Hex as (d' & Hin & Hd').
    apply in_map_iff in Hin as (d & <- & Hin).
    apply andb_true_iff in Hd' as [Hw Hn].
    apply negb_true_iff, id_eqb_false in Hn. change (_id winner) with (_id this) in Hn.
    rewrite Hid in Hn.
    change (auctionEventId winner) with (auctionEventId this) in Hw.
    change (playerId winner) with (playerId this) in Hw.
    rewrite Hdem in Hw by exact Hn. discriminate. }
  exists (replaceById (_id this) winner (List.map demote c)).
  assert (forall d, In d (replaceById (_id this) winner (List.map demote c)) ->
            is_winning_for (auctionEventId this) (playerId this) d = true -> d = winner)
    as Honly.
  { intros d Hin Hw. apply In_replaceById in Hin as [-> | [Hin Hne]]; [reflexivity|].
    apply in_map_iff in Hin as (d0 & <- & Hin0). rewrite Hid in Hne.
    rewrite Hdem in Hw by exact Hne. discriminate. }
  assert (In winner (replaceById (_id this) winner (List.map demote c))) as Hin.
  { unfold replaceById. apply in_map_iff. exists this. split.
    - rewrite id_eqb_refl. reflexivity.
    - apply bid_findById_some in Hfound1. tauto. }
  split; [|split; [|split; [|split]]].
  - unfold markAsWinning, outbidOthers, bind, modify. fold demote.
    fold winner. unfold save. rewrite Hval, Hpre. unfold bind, get.
    rewrite Hfound1. unfold winner at 1 2.
    rewrite bid_apply_modified_to_winning. fold winner.
    rewrite Hidx. reflexivity.
  - apply (bid_findById_replaceById_self _ _ _ _ Hfound1). reflexivity.
  - unfold getWinningBid. apply latest_all_equal.
    + intros Hnil.
      assert (In winner (List.filter (is_winning_for (auctionEventId this) (playerId this))
                (replaceById (_id this) winner (List.map demote c)))) as Hf
        by (apply filter_In; split; assumption).
      rewrite Hnil in Hf. destruct Hf.
    + intros d Hd. apply filter_In in Hd as [Hd Hw]. apply Honly; assumption.
  - exact Honly.
  - intros d Hd Hw Hne. apply bid_In_replaceById_other.
    + apply in_map_iff. exists d. split; [|exact Hd].
      unfold demote. rewrite Hw.
      assert (id_eqb (_id d) (_id this) = false) as -> by (apply id_eqb_false; exact Hne).
      reflexivity.
    + cbn. exact Hne.
Qed.

(** X8. Once [markAsWinning] has run on a stored bid, that bid is what
    [getWinningBid] returns for its event and player: it is stored with
    [isWinningBid] and status 'winning', it is the only stored document that
    wins the pair, and every other document that won the pair before is
    stored as 'outbid' with [outbidAt] set. The call succeeds whenever the
    bid's amount is positive. *)
Theorem markAsWinning_makes_the_single_winner this now c :
  findById (_id this) c = Some this ->
  0 < amount this ->
  let winner := set_status winning (set_isWinningBid true this) in
  exists c',
    markAsWinning this now c = (inr winner, c') /\
    findById (_id this) c' = Some winner /\
    getWinningBid (auctionEventId this) (playerId this) c' = Some winner /\
    (forall d, In d c' ->
       is_winning_for (auctionEventId this) (playerId this) d = true -> d = winner) /\
    (forall d, In d c ->
       is_winning_for (auctionEventId this) (playerId this) d = true ->
       _id d <> _id this ->
       In (set_outbidAt (Some now) (set_status outbid (set_isWinningBid false d))) c').
Proof. apply markAsWinning_ok. Qed.

Lemma markAsWinning_makes_the_single_winner_witness :
  exists c',
    markAsWinning (Samples.sample_bid "bidB" "team2" "user2" 30 2) 3
      [Samples.winningBid "bidA" "team1" "user1" 25 1;
       Samples.sample_bid "bidB" "team2" "user2" 30 2] =
      (inr (Samples.winningBid "bidB" "team2" "user2" 30 2), c') /\
    getWinningBid "event1" "player1" c' =
      Some (Samples.winningBid "bidB" "team2" "user2" 30 2).
Proof.
  destruct (markAsWinning_makes_the_single_winner
              (Samples.sample_bid "bidB" "team2" "user2" 30 2) 3
              [Samples.winningBid "bidA" "team1" "user1" 25 1;
               Samples.sample_bid "bidB" "team2" "user2" 30 2])
    as (c' & Hrun & _ & Hwin & _).
  - reflexivity.
  - cbn. lia.
  - exists c'. split; [exact Hrun | exact Hwin].
Defined.

(** X9. [markAsRejected] on the stored winning bid of a pair, in a collection
    that respects the unique index, leaves the pair without a winning bid:
    the bid is stored as 'rejected' with the reason given and
    [isWinningBid] false, and [getWinningBid] returns nothing for its event
    and player. Every other document is left as it was. *)
Theorem markAsRejected_clears_the_winner this reason c :
  index_ok c ->
  findById (_id this) c = Some this ->
  isWinningBid this = true ->
  0 < amount this ->
  let loser :=
    set_isWinningBid false (set_rejectionReason (Some reason) (set_status rejected this)) in
  markAsRejected this reason c = (inr loser, replaceById (_id this) loser c) /\
  findById (_id this) (replaceById (_id this) loser c) = Some loser /\
  getWinningBid (auctionEventId this) (playerId this) (replaceById (_id this) loser c) = None /\
  (forall d, In d c -> _id d <> _id this -> In d (replaceById (_id this) loser c)).
Proof.
  intros [Hnodup Huniq] Hfound Hwin Hpos loser.
  assert (validate loser = None) as Hval by (apply bid_validate_positive; exact Hpos).
  assert (pre_save loser = loser) as Hpre by reflexivity.
  split; [|split; [|split]].
  - unfold markAsRejected. fold loser. unfold save. rewrite Hval, Hpre.
    unfold bind, get. rewrite Hfound. unfold loser at 1 2.
    rewrite bid_apply_modified_to_rejected. fold loser.
    unfold breaks_unique_winning. change (isWinningBid loser) with false. reflexivity.
  - apply (bid_findById_replaceById_self _ _ _ _ Hfound). reflexivity.
  - unfold getWinningBid.
    destruct (latest _) as [d|] eqn:E; [exfalso | reflexivity].
    apply latest_in, filter_In in E as [Hin Hw].
    apply is_winning_for_true in Hw as (He & Hp & Hw).
    apply In_replaceById in Hin as [-> | [Hin Hne]]; [discriminate Hw|].
    apply Hne. apply bid_findById_some in Hfound as [Hthis _].
    apply (Huniq d this Hin Hthis Hw Hwin He Hp).
  - intros d Hd Hne. apply bid_In_replaceById_other; assumption.
Qed.

Lemma markAsRejected_clears_the_winner_witness :
  getWinningBid "event1" "player1"
    (replaceById "bidA"
       (set_isWinningBid false
          (set_rejectionReason (Some "Outbid by higher bid")
             (set_status rejected (Samples.winningBid "bidA" "team1" "user1" 25 1))))
       [Samples.winningBid "bidA" "team1" "user1" 25 1]) = None.
Proof.
  refine (proj1 (proj2 (proj2 (markAsRejected_clears_the_winner
    (Samples.winningBid "bidA" "team1" "user1" 25 1) "Outbid by higher bid"
    [Samples.winningBid "bidA" "team1" "user1" 25 1] _ eq_refl eq_refl _)))).
  - split.
    + cbn. apply NoDup_singleton.
    + intros d d' [<- | []] [<- | []] _ _ _ _. reflexivity.
  - cbn. lia.
Defined.

End MoreBidFacts.

(** ** The highest standing bid *)

Section BidQueryFacts.
Import BidQueries.

Lemma highest_in l d : highest l = Some d -> In d l.
Proof.
  revert d. induction l as [| a l IH]; intros d H; [discriminate|].
  cbn in H. destruct (highest l) as [d'|].
  - destruct (Bid.amount d' >? Bid.amount a); injection H as <-; [right; auto | left; auto].
  - injection H as <-. left. reflexivity.
Qed.

Lemma highest_is_max l d :
  highest l = Some d -> forall x, In x l -> Bid.amount x <= Bid.amount d.
Proof.
  revert d. induction l as [| a l IH]; intros d H x Hx; [destruct Hx|].
  cbn in H. destruct (highest l) as [d'|] eqn:E.
  - specialize (IH d' eq_refl).
    destruct (Z.gtb_spec (Bid.amount d') (Bid.amount a)); injection H as <-;
      destruct Hx as [<- | Hx]; try lia; specialize (IH x Hx); lia.
  - injection H as <-. destruct Hx as [<- | Hx]; [lia|].
    destruct l; [destruct Hx | cbn in E; destruct (highest l); [destruct (_ >? _)|]; discriminate].
Qed.

(** X10. [getHighestBidAmount] is the greatest amount among the bids of the
    event and player whose status is 'accepted' or 'winning': no such bid
    exceeds it, and it is the amount of one of them unless there is none,
    when it is 0. Rejected, outbid and pending bids do not count, whatever
    their amount. *)
Theorem getHighestBidAmount_is_the_greatest_standing event player c :
  (forall d, In d c -> is_standing_for event player d = true ->
     Bid.amount d <= getHighestBidAmount event player c) /\
  ((exists d, In d c /\ is_standing_for event player d = true /\
              getHighestBidAmount event player c = Bid.amount d) \/
   ((forall d, In d c -> is_standing_for event player d = false) /\
    getHighestBidAmount event player c = 0)) /\
  (forall d, is_standing_for event player d = true ->
     Bid.auctionEventId d = event /\ Bid.playerId d = player /\
     (Bid.status d = Bid.accepted \/ Bid.status d = Bid.winning)).
Proof.
  unfold getHighestBidAmount. split; [|split].
  - intros d Hin Hst.
    destruct (highest (List.filter (is_standing_for event player) c)) as [h|] eqn:E.
    + apply (highest_is_max _ _ E). apply filter_In. auto.
    + assert (In d (List.filter (is_standing_for event player) c)) as Hf
        by (apply filter_In; auto).
      destruct (List.filter (is_standing_for event player) c); [destruct Hf|].
      cbn in E. destruct (highest l); [destruct (_ >? _)|]; discriminate.
  - destruct (highest (List.filter (is_standing_for event player) c)) as [h|] eqn:E.
    + left. exists h. apply highest_in, filter_In in E. tauto.
    + right. split; [|reflexivity]. intros d Hin.
      destruct (is_standing_for event player d) eqn:Hst; [exfalso | reflexivity].
      assert (In d (List.filter (is_standing_for event player) c)) as Hf
        by (apply filter_In; auto).
      destruct (List.filter (is_standing_for event player) c); [destruct Hf|].
      cbn in E. destruct (highest l); [destruct (_ >? _)|]; discriminate.
  - intros d H. unfold is_standing_for in H.
    apply andb_true_iff in H as [H Hs]. apply andb_true_iff in H as [He Hp].
    apply id_eqb_true in He, Hp. repeat split; try assumption.
    destruct (Bid.status d); cbn in Hs; try discriminate; auto.
Qed.

Example getHighestBidAmount_ignores_rejected :
  getHighestBidAmount "event1" "player1"
    [Bid.set_status Bid.rejected (Samples.sample_bid "bidA" "team1" "user1" 40 1);
     Samples.winningBid "bidB" "team2" "user2" 30 2] = 30 /\
  getHighestBidAmount "event1" "player2"
    [Samples.winningBid "bidB" "team2" "user2" 30 2] = 0.
Proof. split; reflexivity. Qed.

End BidQueryFacts.

(** ** More of the player model *)

Section MorePlayerFacts.
Import Player.

Ltac player_validators H :=
  unfold validate in H |- *;
  cbn [name age basePrice currentPrice statistics status teamId soldPrice
       set_currentPrice set_soldPrice set_teamId set_status] in H |- *;
  repeat match type of H with
         | (if ?b then _ else _) = None =>
             let E := fresh "E" in destruct b eqn:E; [discriminate H|]
         end.

Lemma player_findById_updateById f id c d :
  findById id c = Some d -> _id (f d) = id ->
  findById id (updateById id f c) = Some (f d).
Proof.
  unfold findById, updateById. intros Hf Hx.
  induction c as [| a l IH]; [discriminate|].
  cbn [List.map List.find] in *.
  destruct (id_eqb (_id a) id) eqn:E.
  - injection Hf as <-. rewrite Hx, id_eqb_refl. reflexivity.
  - rewrite E. apply IH. exact Hf.
Qed.

Lemma player_In_updateById_other f id c d :
  In d c -> _id d <> id -> In d (updateById id f c).
Proof.
  intros Hin Hne. unfold updateById. apply in_map_iff. exists d. split; [|exact Hin].
  assert (id_eqb (_id d) id = false) as -> by (apply id_eqb_false; exact Hne). reflexivity.
Qed.

Lemma option_Z_eqb_refl (o : option Z) : option_eqb Z.eqb o o = true.
Proof. destruct o; cbn; [apply Z.eqb_refl | reflexivity]. Qed.

Lemma option_Z_eqb_eq (a b : option Z) : option_eqb Z.eqb a b = true -> a = b.
Proof.
  destruct a, b; cbn; try discriminate; try reflexivity.
  intros H. apply Z.eqb_eq in H. congruence.
Qed.

Lemma option_string_eqb_eq (a b : option string) : option_eqb String.eqb a b = true -> a = b.
Proof.
  destruct a, b; cbn; try discriminate; try reflexivity.
  intros H. apply String.eqb_eq in H. congruence.
Qed.

Lemma player_status_eqb_eq a b : status_eqb a b = true -> a = b.
Proof. destruct a, b; cbn; try discriminate; reflexivity. Qed.

(** A [save()] of the stored document itself stores the document as it is
    in memory after the hook. *)
Lemma player_apply_modified_self loaded now :
  _id now = _id loaded -> name now = name loaded -> age now = age loaded ->
  role now = role loaded -> basePrice now = basePrice loaded ->
  photo now = photo loaded -> statistics now = statistics loaded ->
  auctionEventId now = auctionEventId loaded ->
  apply_modified loaded now loaded = now.
Proof.
  unfold apply_modified.
  destruct loaded as [i n a r b cp ph st s t sp ev], now as [i' n' a' r' b' cp' ph' st' s' t' sp' ev'].
  cbn. intros -> -> -> -> -> -> -> ->.
  destruct (status_eqb s s') eqn:Es; [apply player_status_eqb_eq in Es; subst s'|];
  (destruct (option_eqb String.eqb t t') eqn:Et; [apply option_string_eqb_eq in Et; subst t'|]);
  (destruct (option_eqb Z.eqb sp sp') eqn:Esp; [apply option_Z_eqb_eq in Esp; subst sp'|]);
  (destruct (option_eqb Z.eqb cp cp') eqn:Ecp; [apply option_Z_eqb_eq in Ecp; subst cp'|]);
  reflexivity.
Qed.

Lemma markAsUnsold_ok this c :
  findById (_id this) c = Some this ->
  validate this = None ->
  let gone :=
    set_currentPrice (Some (basePrice this))
      (set_soldPrice None (set_teamId None (set_status unsold this))) in
  exists c',
    markAsUnsold this c = (inr gone, c') /\
    findById (_id this) c' = Some gone /\
    status gone = unsold /\ teamId gone = None /\ soldPrice gone = None /\
    currentPrice gone = Some (basePrice this) /\
    (forall d, In d c -> _id d <> _id this -> In d c').
Proof.
  intros Hfound Hvalid gone.
  assert (validate gone = None) as Hval.
  { unfold gone. player_validators Hvalid. cbn [min_ok].
    apply Z.ltb_ge in E3.
    destruct (Z.leb_spec 0 (basePrice this)); [reflexivity | lia]. }
  assert (pre_save gone = gone) as Hpre by reflexivity.
  exists (updateById (_id this) (apply_modified this gone) c).
  split; [|split; [|repeat (split; [reflexivity|])]].
  - unfold markAsUnsold. fold gone. unfold save. rewrite Hval, Hpre.
    unfold bind, get. rewrite Hfound. reflexivity.
  - rewrite (player_findById_updateById _ _ _ _ Hfound).
    + f_equal. apply player_apply_modified_self; reflexivity.
    + rewrite player_apply_modified_self; reflexivity.
  - intros d Hd Hne. apply player_In_updateById_other; assumption.
Qed.

(** X11. [markAsUnsold] on a stored, valid player succeeds and stores the
    player with status 'unsold', no team, no sold price and the current price
    back at the base price; nothing else of the player changes and no other
    player is touched. *)
Theorem markAsUnsold_withdraws_the_player this c :
  findById (_id this) c = Some this ->
  validate this = None ->
  let gone :=
    set_currentPrice (Some (basePrice this))
      (set_soldPrice None (set_teamId None (set_status unsold this))) in
  exists c',
    markAsUnsold this c = (inr gone, c') /\
    findById (_id this) c' = Some gone /\
    status gone = unsold /\ teamId gone = None /\ soldPrice gone = None /\
    currentPrice gone = Some (basePrice this) /\
    (forall d, In d c -> _id d <> _id this -> In d c').
Proof. apply markAsUnsold_ok. Qed.

Lemma markAsUnsold_withdraws_the_player_witness :
  exists c',
    markAsUnsold Samples.sample_player [Samples.sample_player] =
      (inr (set_currentPrice (Some 20)
              (set_soldPrice None (set_teamId None (set_status unsold Samples.sample_player)))),
       c') /\
    option_map status (findById "player1" c') = Some unsold.
Proof.
  destruct (markAsUnsold_withdraws_the_player Samples.sample_player [Samples.sample_player])
    as (c' & Hrun & Hfound & _).
  - reflexivity.
  - reflexivity.
  - exists c'. split; [exact Hrun|].
    change "player1" with (_id Samples.sample_player). rewrite Hfound. reflexivity.
Defined.

Lemma markAsSold_stored this team price event c :
  findById (_id this) c = Some this ->
  validate this = None ->
  (basePrice this <= price ->
   exists r c',
     markAsSold this team price event c = (inr r, c') /\
     findById (_id this) c' = Some r /\
     soldPrice r = Some price /\
     currentPrice r =
       Some (if status_eqb (status this) available then basePrice this else price) /\
     (forall d, In d c -> _id d <> _id this -> In d c')) /\
  (price < basePrice this ->
   markAsSold this team price event c =
     (inl (PlainError "Sold price cannot be less than base price"), c)).
Proof.
  intros Hfound Hvalid. split.
  - intros Hprice.
    set (now := set_currentPrice (Some price) (set_soldPrice (Some price) this)).
    assert (validate now = None) as Hval.
    { unfold now. player_validators Hvalid. cbn [min_ok].
      apply Z.ltb_ge in E3.
      destruct (Z.leb_spec 0 price); [|lia]. cbn [negb].
      destruct (Z.geb_spec price (basePrice this)); [|lia].
      cbn [negb]. rewrite andb_false_r. reflexivity. }
    exists (pre_save now), (updateById (_id this) (apply_modified this (pre_save now)) c).
    assert (apply_modified this (pre_save now) this = pre_save now) as Hself.
    { apply player_apply_modified_self; unfold pre_save, now;
        cbn [status soldPrice set_currentPrice set_soldPrice];
        destruct (status this); reflexivity. }
    split; [|split; [|split; [|split]]].
    + unfold markAsSold. destruct (Z.ltb_spec price (basePrice this)); [lia|].
      fold now. unfold save. rewrite Hval. unfold bind, get. rewrite Hfound. reflexivity.
    + rewrite (player_findById_updateById _ _ _ _ Hfound); rewrite Hself; [reflexivity|].
      unfold pre_save, now. cbn [status soldPrice set_currentPrice set_soldPrice].
      destruct (status this); reflexivity.
    + unfold pre_save, now. cbn [status soldPrice set_currentPrice set_soldPrice].
      destruct (status this); reflexivity.
    + unfold pre_save, now. cbn [status soldPrice set_currentPrice set_soldPrice].
      destruct (status this); reflexivity.
    + intros d Hd Hne. apply player_In_updateById_other; assumption.
  - intros Hlow. unfold markAsSold.
    destruct (Z.ltb_spec price (basePrice this)); [reflexivity | lia].
Qed.

(** X12. [markAsSold] on a stored, valid player at a price not below the base
    price succeeds and records the price as [soldPrice]. The current price
    follows the sale only for a player whose status is not 'available': for
    an available player the pre-save hook puts the current price back to the
    base price. The stored document is the one returned. Below the base price
    the method throws and writes nothing. *)
Theorem markAsSold_records_the_price this team price event c :
  findById (_id this) c = Some this ->
  validate this = None ->
  (basePrice this <= price ->
   exists r c',
     markAsSold this team price event c = (inr r, c') /\
     findById (_id this) c' = Some r /\
     soldPrice r = Some price /\
     currentPrice r =
       Some (if status_eqb (status this) available then basePrice this else price) /\
     (forall d, In d c -> _id d <> _id this -> In d c')) /\
  (price < basePrice this ->
   markAsSold this team price event c =
     (inl (PlainError "Sold price cannot be less than base price"), c)).
Proof. apply markAsSold_stored. Qed.

Lemma markAsSold_records_the_price_witness :
  exists r c',
    markAsSold Samples.sample_player "team1" 500 "event1" [Samples.sample_player] =
      (inr r, c') /\
    soldPrice r = Some 500 /\ currentPrice r = Some 20.
Proof.
  destruct (proj1 (markAsSold_records_the_price Samples.sample_player "team1" 500 "event1"
                     [Samples.sample_player] eq_refl eq_refl))
    as (r & c' & Hrun & _ & Hs & Hc & _).
  - cbn. lia.
  - exists r, c'. split; [exact Hrun|]. split; [exact Hs | exact Hc].
Defined.

End MorePlayerFacts.

(** ** The life cycle of an event *)

Section LifecycleFacts.
Import AuctionEvent.

Lemma event_status_eqb_eq a b : status_eqb a b = true <-> a = b.
Proof. destruct a, b; cbn; split; try discriminate; reflexivity. Qed.

(** A [save()] that does not touch [players] returns the document it was
    given and stores it under its id. *)
Lemma event_save_inr now loaded d c e' c' :
  save now loaded d c = (inr e', c') ->
  players loaded = players d ->
  e' = d /\ c' = replaceById (_id d) d c /\ findById (_id d) c' = Some d /\
  validate now d = None.
Proof.
  intros H Hp.
  destruct (event_save_cases now loaded d c) as [[err He] | (Hv & [d0 Hd0] & He)];
    rewrite He in H; [discriminate|].
  assert (pre_save loaded d = d) as Hpre
    by (unfold pre_save; rewrite Hp, ids_eqb_refl; reflexivity).
  rewrite Hpre in H. injection H as <- <-.
  repeat split; try assumption.
  apply (event_findById_replace _ _ _ _ Hd0). reflexivity.
Qed.

(** X13. The four life-cycle methods move an event along
    draft/scheduled -> live <-> paused -> completed only. [startAuction]
    succeeds only from 'draft' or 'scheduled' with at least one player and
    records who started it and when; [pauseAuction] only from 'live';
    [resumeAuction] only from 'paused'; [completeAuction] only from 'live' or
    'paused', setting [completedAt] and, when the event has no end date, the
    end date to the completion time. On success the stored event is the one
    returned. On a completed or cancelled event every method throws and the
    collection stays as it was. *)
Theorem lifecycle_methods_follow_the_status_graph now this c :
  (forall userId e' c',
     startAuction now this userId c = (inr e', c') ->
     (status this = draft \/ status this = scheduled) /\ players this <> [] /\
     status e' = live /\ startedBy e' = Some userId /\ startedAt e' = Some now /\
     findById (_id this) c' = Some e') /\
  (forall e' c',
     pauseAuction now this c = (inr e', c') ->
     status this = live /\ status e' = paused /\ findById (_id this) c' = Some e') /\
  (forall e' c',
     resumeAuction now this c = (inr e', c') ->
     status this = paused /\ status e' = live /\ findById (_id this) c' = Some e') /\
  (forall e' c',
     completeAuction now this c = (inr e', c') ->
     (status this = live \/ status this = paused) /\ status e' = completed /\
     completedAt e' = Some now /\
     endDate e' = Some match endDate this with Some d => d | None => now end /\
     findById (_id this) c' = Some e') /\
  (status this = completed \/ status this = cancelled ->
   (forall userId, exists m, startAuction now this userId c = (inl (PlainError m), c)) /\
   (exists m, pauseAuction now this c = (inl (PlainError m), c)) /\
   (exists m, resumeAuction now this c = (inl (PlainError m), c)) /\
   (exists m, completeAuction now this c = (inl (PlainError m), c))).
Proof.
  split; [|split; [|split; [|split]]].
  - intros userId e' c' H. unfold startAuction in H.
    destruct (negb (status_eqb (status this) draft) &&
              negb (status_eqb (status this) scheduled)) eqn:Es; [discriminate|].
    destruct (length (players this) =? 0)%nat eqn:El; [discriminate|].
    apply event_save_inr in H as (-> & _ & Hf & _); [|reflexivity].
    split; [destruct (status this); cbn in Es; try discriminate; auto|].
    split; [destruct (players this); [discriminate | discriminate]|].
    repeat split; try reflexivity. exact Hf.
  - intros e' c' H. unfold pauseAuction in H.
    destruct (status_eqb (status this) live) eqn:Es; [|discriminate].
    apply event_save_inr in H as (-> & _ & Hf & _); [|reflexivity].
    apply event_status_eqb_eq in Es. repeat split; try assumption.
  - intros e' c' H. unfold resumeAuction in H.
    destruct (status_eqb (status this) paused) eqn:Es; [|discriminate].
    apply event_save_inr in H as (-> & _ & Hf & _); [|reflexivity].
    apply event_status_eqb_eq in Es. repeat split; try assumption.
  - intros e' c' H. unfold completeAuction in H.
    destruct (negb (status_eqb (status this) live) &&
              negb (status_eqb (status this) paused)) eqn:Es; [discriminate|].
    cbn [endDate set_completedAt set_status completedAt] in H.
    split; [destruct (status this); cbn in Es; try discriminate; auto|].
    destruct (endDate this) as [d|] eqn:Ed;
      (apply event_save_inr in H as (-> & _ & Hf & _); [|reflexivity]);
      cbn; rewrite ?Ed; repeat split; try reflexivity; exact Hf.
  - intros Hst. unfold startAuction, pauseAuction, resumeAuction, completeAuction.
    destruct Hst as [-> | ->]; cbn; eauto 10.
Qed.

Example lifecycle_sample :
  let e := set_status scheduled (Samples.event None (Some true)) in
  let startDateLater := {| _id := _id e; startDate := 9000; endDate := endDate e;
      status := status e; players := players e; participatingTeams := participatingTeams e;
      currentPlayerId := None; currentPlayerStartTime := None;
      currentCategory := currentCategory e; settings := settings e; stats := stats e;
      createdBy := createdBy e; startedBy := None; startedAt := None;
      completedAt := None |} in
  option_map status
    (findById "event1" (exec (startAuction 500 startDateLater "admin1") [startDateLater]))
    = Some live /\
  outcome (pauseAuction 500 startDateLater) [startDateLater] =
    inl (PlainError "Only live auctions can be paused").
Proof. cbv zeta. split; reflexivity. Qed.

(** X14. [completeAuction] on a live or paused event without an end date
    sets the end date to the completion time, so it fails when that time is
    not after the event's start date (an event started ahead of its date):
    the validator of [endDate] refuses the save and the event stays as it
    was. *)
Theorem completeAuction_before_start_date_fails now this c :
  status this = live \/ status this = paused ->
  endDate this = None ->
  now <= startDate this ->
  completeAuction now this c =
    (inl (ValidationError "endDate" "End date must be after start date"), c).
Proof.
  intros Hst Hend Hnow. unfold completeAuction.
  assert (negb (status_eqb (status this) live) && negb (status_eqb (status this) paused)
          = false) as -> by (destruct Hst as [-> | ->]; reflexivity).
  cbn [endDate set_completedAt set_status completedAt]. rewrite Hend.
  unfold save, validate.
  cbn [status startDate endDate set_endDate set_completedAt set_status negb].
  destruct (Z.gtb_spec now (startDate this)); [lia | reflexivity].
Qed.

Lemma completeAuction_before_start_date_fails_witness :
  completeAuction 500
    {| _id := "event1"; startDate := 9000; endDate := None; status := live;
       players := ["player1"]; participatingTeams := []; currentPlayerId := None;
       currentPlayerStartTime := None; currentCategory := Some Player.batsman;
       settings := settings (Samples.event None None); stats := stats (Samples.event None None);
       createdBy := "admin1"; startedBy := Some "admin1"; startedAt := Some 100;
       completedAt := None |} [] =
    (inl (ValidationError "endDate" "End date must be after start date"), []).
Proof.
  apply completeAuction_before_start_date_fails; [left; reflexivity | reflexivity | cbn; lia].
Defined.

End LifecycleFacts.

(** ** Operator commands *)

Section OperatorFacts.
Import Engine.

Lemma event_valid_unsold now e :
  AuctionEvent.validate now e = None ->
  AuctionEvent.validate now
    (AuctionEvent.set_stats
       {| AuctionEvent.totalPlayers := AuctionEvent.totalPlayers (AuctionEvent.stats e);
          AuctionEvent.playersSold := AuctionEvent.playersSold (AuctionEvent.stats e);
          AuctionEvent.playersUnsold := AuctionEvent.playersUnsold (AuctionEvent.stats e) + 1;
          AuctionEvent.totalAmountSpent :=
            AuctionEvent.totalAmountSpent (AuctionEvent.stats e) |} e) = None.
Proof.
  intros H. unfold AuctionEvent.validate in H |- *.
  cbn [AuctionEvent.status AuctionEvent.startDate AuctionEvent.endDate AuctionEvent.settings
       AuctionEvent.stats AuctionEvent.set_stats AuctionEvent.totalPlayers
       AuctionEvent.playersSold AuctionEvent.playersUnsold AuctionEvent.totalAmountSpent]
    in H |- *.
  repeat match type of H with
         | (if ?b then _ else _) = None =>
             let E := fresh "E" in destruct b eqn:E; [discriminate H|]
         end.
  apply Z.ltb_ge in E7.
  destruct (Z.ltb_spec (AuctionEvent.playersUnsold (AuctionEvent.stats e) + 1) 0);
    [lia | reflexivity].
Qed.

Lemma finalizePlayerUnsold_effect now eventId playerId w e p :
  findEvent eventId w = Some e ->
  AuctionEvent.status e = AuctionEvent.live ->
  Player.findById playerId (players (db w)) = Some p ->
  Player.validate p = None ->
  AuctionEvent.validate now e = None ->
  let w' := exec (finalizePlayerUnsold now eventId playerId) w in
  outcome (finalizePlayerUnsold now eventId playerId) w = inr tt /\
  (exists p',
     Player.findById playerId (players (db w')) = Some p' /\
     Player.status p' = Player.unsold /\ Player.teamId p' = None /\
     Player.soldPrice p' = None) /\
  (exists e',
     findEvent eventId w' = Some e' /\
     AuctionEvent.playersUnsold (AuctionEvent.stats e') =
       AuctionEvent.playersUnsold (AuctionEvent.stats e) + 1 /\
     AuctionEvent.playersSold (AuctionEvent.stats e') =
       AuctionEvent.playersSold (AuctionEvent.stats e) /\
     AuctionEvent.currentPlayerId e' = None /\
     AuctionEvent.currentPlayerStartTime e' = None /\
     AuctionEvent.status e' = AuctionEvent.live) /\
  timers w' = delete eventId (timers w) /\
  emitted w' = emitted w ++ [PlayerUnsold eventId playerId] /\
  bids (db w') = bids (db w) /\
  budgets (db w') = budgets (db w) /\
  teams (db w') = teams (db w) /\
  timeouts w' = timeouts w.
Proof.
  intros He Hlive Hp Hvp Hve w'. unfold findEvent in He.
  pose proof (event_findById_some _ _ _ He) as [_ Hid].
  pose proof (player_findById_some _ _ _ Hp) as [_ Hpid].
  subst eventId playerId.
  destruct (markAsUnsold_ok p (players (db w))) as (ps1 & Hrun & Hfound & Hs & Ht & Hsp & _ & _);
    [exact Hp | exact Hvp |].
  set (e1 := AuctionEvent.set_stats
       {| AuctionEvent.totalPlayers := AuctionEvent.totalPlayers (AuctionEvent.stats e);
          AuctionEvent.playersSold := AuctionEvent.playersSold (AuctionEvent.stats e);
          AuctionEvent.playersUnsold := AuctionEvent.playersUnsold (AuctionEvent.stats e) + 1;
          AuctionEvent.totalAmountSpent :=
            AuctionEvent.totalAmountSpent (AuctionEvent.stats e) |} e).
  assert (AuctionEvent.validate now e1 = None) as Hv1 by (apply event_valid_unsold; exact Hve).
  assert (finalizePlayerUnsold now (AuctionEvent._id e) (Player._id p) w =
    (inr tt,
     {| db := {| events := AuctionEvent.replaceById (AuctionEvent._id e)
                             (AuctionEvent.set_current None None e1) (events (db w));
                 players := ps1; teams := teams (db w); users := users (db w);
                 bids := bids (db w); budgets := budgets (db w) |};
        timers := delete (AuctionEvent._id e) (timers w);
        emitted := emitted w ++ [PlayerUnsold (AuctionEvent._id e) (Player._id p)];
        timeouts := timeouts w |})) as Hrunw.
  { destruct w as [[evs ps ts us bs bg] tm em tos].
    cbn [events players teams users bids budgets db timers emitted timeouts] in *.
    unfold finalizePlayerUnsold. rewrite bind_get.
    cbn [events players db]. rewrite He, Hlive. cbn [AuctionEvent.status_eqb negb].
    rewrite Hp.
    erewrite bind_eq; [| apply zoom_eq; cbn; exact Hrun].
    erewrite bind_eq;
      [| apply zoom_eq; cbn; unfold AuctionEvent.updatePlayerUnsold;
         apply (event_save_ok now e e1 evs e); [exact Hv1 | reflexivity | exact He]].
    erewrite bind_eq; [| reflexivity].
    erewrite bind_eq;
      [| apply zoom_eq; cbn;
         apply (event_save_ok now e1 (AuctionEvent.set_current None None e1) _ e1);
         [ rewrite event_validate_set_current; exact Hv1
         | reflexivity
         | apply (event_findById_replace _ _ e); [exact He | reflexivity] ]].
    cbn. rewrite event_replace_replace by reflexivity. reflexivity. }
  unfold w', exec, outcome. rewrite Hrunw.
  cbn [fst snd db events players teams bids budgets timers emitted timeouts].
  split; [reflexivity|]. split; [|split; [|repeat (split; [reflexivity|]); reflexivity]].
  - eexists. split; [exact Hfound|]. auto.
  - exists (AuctionEvent.set_current None None e1). split.
    + unfold findEvent. cbn [db events].
      apply (event_findById_replace _ _ e); [exact He | reflexivity].
    + cbn. rewrite Hlive. auto.
Qed.

(** X15. The operator's "mark unsold" command, on a live event and a stored
    valid player, stores the player as 'unsold' (no team, no sold price),
    adds one to [stats.playersUnsold], clears the current player and its
    start time, removes the event's timer and announces the player as
    unsold. It does not touch any bid or budget row and schedules nothing: a
    winning bid the player has stays winning, and the rotation is not
    advanced. *)
Theorem finalizePlayerUnsold_withdraws_without_advancing now eventId playerId w e p :
  findEvent eventId w = Some e ->
  AuctionEvent.status e = AuctionEvent.live ->
  Player.findById playerId (players (db w)) = Some p ->
  Player.validate p = None ->
  AuctionEvent.validate now e = None ->
  let w' := exec (finalizePlayerUnsold now eventId playerId) w in
  outcome (finalizePlayerUnsold now eventId playerId) w = inr tt /\
  (exists p',
     Player.findById playerId (players (db w')) = Some p' /\
     Player.status p' = Player.unsold /\ Player.teamId p' = None /\
     Player.soldPrice p' = None) /\
  (exists e',
     findEvent eventId w' = Some e' /\
     AuctionEvent.playersUnsold (AuctionEvent.stats e') =
       AuctionEvent.playersUnsold (AuctionEvent.stats e) + 1 /\
     AuctionEvent.playersSold (AuctionEvent.stats e') =
       AuctionEvent.playersSold (AuctionEvent.stats e) /\
     AuctionEvent.currentPlayerId e' = None /\
     AuctionEvent.currentPlayerStartTime e' = None /\
     AuctionEvent.status e' = AuctionEvent.live) /\
  timers w' = delete eventId (timers w) /\
  emitted w' = emitted w ++ [PlayerUnsold eventId playerId] /\
  bids (db w') = bids (db w) /\
  budgets (db w') = budgets (db w) /\
  teams (db w') = teams (db w) /\
  timeouts w' = timeouts w.
Proof. apply finalizePlayerUnsold_effect. Qed.

Lemma finalizePlayerUnsold_withdraws_without_advancing_witness :
  outcome (finalizePlayerUnsold 2000 "event1" "player1") (Samples.world (Some true) []) =
    inr tt /\
  emitted (exec (finalizePlayerUnsold 2000 "event1" "player1") (Samples.world (Some true) []))
    = [] ++ [PlayerUnsold "event1" "player1"] /\
  timeouts (exec (finalizePlayerUnsold 2000 "event1" "player1") (Samples.world (Some true) []))
    = [].
Proof.
  destruct (finalizePlayerUnsold_withdraws_without_advancing 2000 "event1" "player1"
              (Samples.world (Some true) [])
              (Samples.event (Some "player1") (Some true))
              (Samples.player "player1" Player.batsman 20 Player.available)
              eq_refl eq_refl eq_refl eq_refl eq_refl)
    as (H1 & _ & _ & _ & H5 & _ & _ & _ & H9).
  split; [exact H1|]. split; [exact H5 | exact H9].
Defined.

Lemma startPlayerAuction_steps now id playerId w e p :
  findEvent id w = Some e ->
  AuctionEvent.status e = AuctionEvent.live ->
  Player.findById playerId (players (db w)) = Some p ->
  includes_id playerId (AuctionEvent.players e) = true ->
  Player.status p = Player.available ->
  let e0 := match AuctionEvent.currentCategory e with
            | Some _ => e
            | None => AuctionEvent.set_currentCategory (Some Player.batsman) e
            end in
  let e1 := AuctionEvent.set_current (Some playerId) (Some now) e0 in
  (AuctionEvent.validate now e <> None ->
   exists err, startPlayerAuction now User.admin id playerId w = (inl err, w)) /\
  (AuctionEvent.validate now e = None ->
   exists ems,
     startPlayerAuction now User.admin id playerId w =
       (inr tt,
        {| db := {| events := AuctionEvent.replaceById id e1 (events (db w));
                    players := players (db w); teams := teams (db w);
                    users := users (db w); bids := bids (db w);
                    budgets := budgets (db w) |};
           timers := <[id := {| timer_playerId := playerId; timer_duration := 20 * 1000 |}]>
                       (delete id (timers w));
           emitted := emitted w ++
             PlayerCurrent id playerId
               (option_map (fun b => (Bid.teamId b, Bid.amount b))
                  (Bid.getWinningBid id playerId (bids (db w))))
               match Bid.getWinningBid id playerId (bids (db w)) with
               | Some b => Bid.amount b
               | None => Player.basePrice p
               end now :: ems;
           timeouts := timeouts w |})).
Proof.
  intros He Hlive Hp Hin Hav e0 e1. unfold findEvent in He.
  pose proof (event_findById_some _ _ _ He) as [_ Hid].
  assert (AuctionEvent._id e0 = id) as Hid0 by (unfold e0; destruct (AuctionEvent.currentCategory e); exact Hid).
  assert (AuctionEvent.validate now e1 = AuctionEvent.validate now e) as Hv.
  { unfold e1. rewrite event_validate_set_current. unfold e0.
    destruct (AuctionEvent.currentCategory e); [reflexivity|].
    apply event_validate_set_category. }
  assert (AuctionEvent.players e0 = AuctionEvent.players e1) as Hpl by reflexivity.
  destruct w as [[evs ps ts us bs bg] tm em tos].
  cbn [events players teams users bids budgets db timers emitted timeouts] in *.
  unfold startPlayerAuction. cbn [negb]. rewrite bind_get.
  cbn [events players db]. rewrite He, Hlive. cbn [AuctionEvent.status_eqb negb].
  rewrite Hp, Hin, Hav. cbn [Player.status_eqb negb]. fold e0. fold e1.
  split.
  - intros Hbad. unfold onEvents, zoom, bind. cbn [events db].
    unfold AuctionEvent.save. destruct (AuctionEvent.validate now e1) eqn:E.
    + eexists. unfold throw. cbn. unfold set_events, set_db. cbn. reflexivity.
    + congruence.
  - intros Hok.
    erewrite bind_eq;
      [| apply zoom_eq; cbn;
         apply (event_save_ok now e0 e1 evs e);
         [rewrite Hv; exact Hok | exact Hpl | change (AuctionEvent._id e1) with (AuctionEvent._id e0); rewrite Hid0; exact He]].
    change (AuctionEvent._id e1) with (AuctionEvent._id e0). rewrite Hid0.
    erewrite bind_eq; [| reflexivity].
    rewrite bind_get. cbn [bids db set_events set_db].
    erewrite bind_eq; [| reflexivity].
    match goal with |- context [emitAvailablePlayersUpdate ?i ?x] =>
      destruct (emitAvailablePlayersUpdate_effect i (db x) (timers x) (emitted x) (timeouts x))
        as (ems & Hems) end.
    exists ems. cbn in Hems |- *. rewrite Hems. rewrite <- app_assoc. reflexivity.
Qed.

(** X16. [startPlayerAuction] succeeds exactly for an admin, on a live event
    that passes its validators, with a stored player of the event whose
    status is 'available'. The player is then the event's current player
    with the start time set to now, the event's timer is armed for that
    player with 20 seconds (replacing any timer the event had, leaving the
    timers of other events alone), the player is announced, and no player,
    bid or budget row changes. *)
Theorem startPlayerAuction_puts_the_player_on_auction now role id playerId w :
  (forall w',
     startPlayerAuction now role id playerId w = (inr tt, w') ->
     role = User.admin /\
     (exists e p,
        findEvent id w = Some e /\ AuctionEvent.status e = AuctionEvent.live /\
        Player.findById playerId (players (db w)) = Some p /\
        includes_id playerId (AuctionEvent.players e) = true /\
        Player.status p = Player.available /\
        AuctionEvent.validate now e = None) /\
     isCurrentPlayer id playerId w' = true /\
     (exists e', findEvent id w' = Some e' /\
                 AuctionEvent.currentPlayerStartTime e' = Some now) /\
     timers w' !! id = Some {| timer_playerId := playerId; timer_duration := 20000 |} /\
     (forall k, k <> id -> timers w' !! k = timers w !! k) /\
     players (db w') = players (db w) /\
     bids (db w') = bids (db w) /\
     budgets (db w') = budgets (db w) /\
     (exists currentBid currentBidAmount ems,
        emitted w' =
          emitted w ++ PlayerCurrent id playerId currentBid currentBidAmount now :: ems)) /\
  (forall e p,
     findEvent id w = Some e -> AuctionEvent.status e = AuctionEvent.live ->
     Player.findById playerId (players (db w)) = Some p ->
     includes_id playerId (AuctionEvent.players e) = true ->
     Player.status p = Player.available ->
     AuctionEvent.validate now e = None ->
     outcome (startPlayerAuction now User.admin id playerId) w = inr tt).
Proof.
  split.
  - intros w' H.
    assert (role = User.admin) as -> by (destruct role; [reflexivity | discriminate | discriminate]).
    split; [reflexivity|].
    destruct (findEvent id w) as [e|] eqn:He;
      [| unfold startPlayerAuction, findEvent in *; cbn [negb] in H; rewrite bind_get in H;
         rewrite He in H; discriminate].
    destruct (AuctionEvent.status_eqb (AuctionEvent.status e) AuctionEvent.live) eqn:Hlive;
      [| unfold startPlayerAuction, findEvent in *; cbn [negb] in H; rewrite bind_get in H;
         rewrite He, Hlive in H; discriminate].
    destruct (Player.findById playerId (players (db w))) as [p|] eqn:Hp;
      [| unfold startPlayerAuction, findEvent in *; cbn [negb] in H; rewrite bind_get in H;
         rewrite He, Hlive, Hp in H; discriminate].
    destruct (includes_id playerId (AuctionEvent.players e)) eqn:Hin;
      [| unfold startPlayerAuction, findEvent in *; cbn [negb] in H; rewrite bind_get in H;
         rewrite He, Hlive, Hp, Hin in H; discriminate].
    destruct (Player.status_eqb (Player.status p) Player.available) eqn:Hav;
      [| unfold startPlayerAuction, findEvent in *; cbn [negb] in H; rewrite bind_get in H;
         rewrite He, Hlive, Hp, Hin, Hav in H; discriminate].
    apply event_status_eqb_eq in Hlive. apply player_status_eqb_eq in Hav.
    destruct (startPlayerAuction_steps now id playerId w e p He Hlive Hp Hin Hav)
      as [Hbad Hgood].
    destruct (AuctionEvent.validate now e) eqn:Hv.
    { destruct Hbad as [err Herr]; [discriminate|]. rewrite Herr in H. discriminate. }
    destruct (Hgood eq_refl) as (ems & Hrun). rewrite Hrun in H. injection H as <-.
    pose proof He as He'. unfold findEvent in He'.
    pose proof (event_findById_some _ _ _ He') as [_ Hid].
    split; [exists e, p; repeat split; assumption|].
    match goal with |- context [isCurrentPlayer id playerId ?x] => set (w1 := x) end.
    assert (findEvent id w1 =
      Some (AuctionEvent.set_current (Some playerId) (Some now)
              match AuctionEvent.currentCategory e with
              | Some _ => e
              | None => AuctionEvent.set_currentCategory (Some Player.batsman) e
              end)) as Hnew.
    { unfold findEvent, w1. cbn [db events].
      apply (event_findById_replace _ _ e); [exact He'|].
      destruct (AuctionEvent.currentCategory e); exact Hid. }
    split; [unfold isCurrentPlayer; rewrite Hnew; cbn; rewrite id_eqb_refl; reflexivity|].
    split; [eexists; split; [exact Hnew | reflexivity]|].
    unfold w1. cbn [db events players bids budgets timers emitted].
    split; [apply lookup_insert_eq|].
    split; [intros k Hk; rewrite lookup_insert_ne by congruence;
            apply lookup_delete_ne; congruence|].
    repeat (split; [reflexivity|]). eauto.
  - intros e p He Hlive Hp Hin Hav Hv.
    destruct (startPlayerAuction_steps now id playerId w e p He Hlive Hp Hin Hav)
      as [_ Hgood].
    destruct (Hgood Hv) as (ems & Hrun). unfold outcome. rewrite Hrun. reflexivity.
Qed.



End OperatorFacts.

(** ** Bidding *)

Section BiddingFacts.
Import Engine.

Lemma getOrCreate_writes team event defaultBudget c r c' :
  TeamEventBudget.getOrCreate team event defaultBudget c = (r, c') ->
  c' = c \/
  (c !! (team, event) = None /\ exists row, r = inr row /\ c' = <[(team, event) := row]> c).
Proof.
  unfold TeamEventBudget.getOrCreate, bind, get.
  destruct (c !! (team, event)) as [b|] eqn:E.
  - intros [= <- <-]. left. reflexivity.
  - match goal with |- TeamEventBudget.save true ?d c = _ -> _ =>
      destruct (budget_save_cases true d c) as [[e He] | [_ He]]; rewrite He
    end.
    + intros [= <- <-]. left. reflexivity.
    + intros [= <- <-]. right. split; [reflexivity|]. eexists. split; reflexivity.
Qed.

(** What a bid request leaves behind when [placeBid] stops before recording a
    bid, and what it has established when its validation passes. *)
Lemma placeBid_validate_cases req w :
  (exists err w',
     placeBid_validate req w = (inl err, w') /\
     events (db w') = events (db w) /\ players (db w') = players (db w) /\
     teams (db w') = teams (db w) /\ users (db w') = users (db w) /\
     bids (db w') = bids (db w) /\
     timers w' = timers w /\ emitted w' = emitted w /\ timeouts w' = timeouts w /\
     (budgets (db w') = budgets (db w) \/
      exists k row, budgets (db w) !! k = None /\
                    budgets (db w') = <[k := row]> (budgets (db w)))) \/
  (exists o w' e p row,
     placeBid_validate req w = (inr o, w') /\
     user_role req = User.team_owner /\
     body_eventId req = Some (ob_eventId o) /\
     body_playerId req = Some (ob_playerId o) /\
     body_amount req = JsNum (Finite (ob_amount o)) /\
     findEvent (ob_eventId o) w = Some e /\ ob_event o = e /\
     AuctionEvent.status e = AuctionEvent.live /\
     AuctionEvent.currentPlayerId e = Some (ob_playerId o) /\
     Player.findById (ob_playerId o) (players (db w)) = Some p /\
     budgets (db w') !! (Team._id (ob_team o), ob_eventId o) = Some row /\
     AuctionRules.valid
       (AuctionRules.canPlaceBid (JsNum (Finite (ob_amount o)))
          (Some match Bid.getWinningBid (ob_eventId o) (ob_playerId o) (bids (db w)) with
                | Some b => Bid.amount b
                | None => Player.basePrice p
                end)
          (Some (TeamEventBudget.remainingBudget row))
          (Some (Z.of_nat (length (Team.players (ob_team o)))))
          {| AuctionRules.opt_currentBidAmount :=
               Some match Bid.getWinningBid (ob_eventId o) (ob_playerId o) (bids (db w)) with
                    | Some b => Bid.amount b
                    | None => Player.basePrice p
                    end;
             AuctionRules.opt_isOwnerBidding := Some true |}) = true).
Proof.
  assert (forall err,
    exists err0 w',
      (inl err, w) = (@inl JsError Observed err0, w') /\
      events (db w') = events (db w) /\ players (db w') = players (db w) /\
      teams (db w') = teams (db w) /\ users (db w') = users (db w) /\
      bids (db w') = bids (db w) /\
      timers w' = timers w /\ emitted w' = emitted w /\ timeouts w' = timeouts w /\
      (budgets (db w') = budgets (db w) \/
       exists k row, budgets (db w) !! k = None /\
                     budgets (db w') = <[k := row]> (budgets (db w)))) as Hstop.
  { intros err. exists err, w. repeat split; auto. }
  unfold placeBid_validate.
  destruct (user_role req) eqn:Hrole; cbn [negb]; try (left; apply Hstop).
  destruct (falsy_id (body_eventId req) || falsy_id (body_playerId req) ||
            falsy (body_amount req)); [left; apply Hstop|].
  destruct (body_eventId req) as [eventId|] eqn:Hev; [|left; apply Hstop].
  destruct (body_playerId req) as [playerId|] eqn:Hpl; [|left; apply Hstop].
  rewrite bind_get.
  destruct (AuctionEvent.findById eventId (events (db w))) as [event|] eqn:He;
    [|left; apply Hstop].
  destruct (AuctionEvent.status_eqb (AuctionEvent.status event) AuctionEvent.live) eqn:Hlive;
    cbn [negb]; [|left; apply Hstop].
  destruct (differs (AuctionEvent.currentPlayerId event) playerId) eqn:Hcur;
    [left; apply Hstop|].
  destruct (Player.findById playerId (players (db w))) as [player|] eqn:Hp;
    [|left; apply Hstop].
  destruct (User.findById (user_userId req) (users (db w))) as [user|]; [|left; apply Hstop].
  destruct (User.teamId user) as [teamId|]; [|left; apply Hstop].
  destruct (Team.findById teamId (teams (db w))) as [team|]; [|left; apply Hstop].
  unfold bind, onBudgets, zoom.
  destruct (TeamEventBudget.getOrCreate _ _ _ _) as [r c'] eqn:Hg.
  pose proof (getOrCreate_writes _ _ _ _ _ _ Hg) as Hwrites.
  assert (budgets (db (set_budgets c' w)) = budgets (db w) \/
          exists k row, budgets (db w) !! k = None /\
                        budgets (db (set_budgets c' w)) = <[k := row]> (budgets (db w)))
    as Hbud.
  { cbn. destruct Hwrites as [-> | (Hnone & row & _ & ->)]; [left; reflexivity|].
    right. eauto. }
  destruct r as [err | row].
  { left. exists err, (set_budgets c' w). repeat split; auto. }
  destruct (AuctionRules.valid _) eqn:Hvalid; cbn [negb].
  2:{ left. eexists _, (set_budgets c' w). split; [reflexivity|]. repeat split; auto. }
  pose proof Hvalid as Hv.
  apply canPlaceBid_valid_iff in Hv as (amount & minimum & Hamt & _).
  rewrite Hamt in *. right. unfold ret.
  eexists _, _, event, player, row. split; [reflexivity|].
  cbn [ob_eventId ob_playerId ob_amount ob_event ob_team db budgets set_budgets set_db].
  apply event_status_eqb_eq in Hlive.
  assert (AuctionEvent.currentPlayerId event = Some playerId) as Hcur'.
  { unfold differs in Hcur. destruct (AuctionEvent.currentPlayerId event) as [x|];
      [|discriminate]. apply negb_false_iff, id_eqb_true in Hcur. congruence. }
  apply getOrCreate_returns in Hg as [Hrow _].
  repeat split; auto.
Qed.

(** X18. A bid that passes the validation of [placeBid] comes from a team
    owner, is for the current player of a live event, is strictly above the
    amount it competes with (the winning bid's, or the base price when there
    is none) by at least the increment of the rules, is at most the cap of
    2000 and at most what is left of the team's budget for the event, and
    the team has fewer than 10 players. *)
Theorem accepted_bid_outbids_within_budget req w o w' :
  placeBid_validate req w = (inr o, w') ->
  exists e p row,
    user_role req = User.team_owner /\
    findEvent (ob_eventId o) w = Some e /\
    AuctionEvent.status e = AuctionEvent.live /\
    AuctionEvent.currentPlayerId e = Some (ob_playerId o) /\
    Player.findById (ob_playerId o) (players (db w)) = Some p /\
    let current :=
      match Bid.getWinningBid (ob_eventId o) (ob_playerId o) (bids (db w)) with
      | Some b => Bid.amount b
      | None => Player.basePrice p
      end in
    current < ob_amount o /\
    (exists next, AuctionRules.getNextBidAmount (Some current) = Some next /\
                  next <= ob_amount o) /\
    ob_amount o <= 2000 /\
    budgets (db w') !! (Team._id (ob_team o), ob_eventId o) = Some row /\
    ob_amount o <= TeamEventBudget.remainingBudget row /\
    Z.of_nat (length (Team.players (ob_team o))) < 10.
Proof.
  intros H.
  destruct (placeBid_validate_cases req w)
    as [(err & w0 & Hrun & _) |
        (o0 & w0 & e & p & row & Hrun & Hrole & _ & _ & _ & He & _ & Hlive & Hcur & Hp &
         Hrow & Hvalid)];
    rewrite Hrun in H; [discriminate|].
  injection H as -> ->.
  exists e, p, row.
  apply canPlaceBid_valid_iff in Hvalid
    as (amount & minimum & [= <-] & Hpos & Hcap & Hnext & Hmin & Hbal & Hcnt).
  cbn [param_default AuctionRules.opt_currentBidAmount] in Hnext, Hbal, Hcnt.
  repeat (split; [assumption|]). cbv zeta.
  set (current := match Bid.getWinningBid (ob_eventId o) (ob_playerId o) (bids (db w)) with
                  | Some b => Bid.amount b
                  | None => Player.basePrice p
                  end) in *.
  split.
  - destruct (Z.lt_ge_cases current 2000) as [Hlt | Hge].
    + destruct (getNextBidAmount_increases current Hlt) as (y & Hy & Hxy & _).
      rewrite Hy in Hnext. injection Hnext as <-. lia.
    + rewrite getNextBidAmount_at_cap in Hnext by lia. discriminate.
  - split; [exists minimum; auto|]. repeat split; assumption.
Qed.

Lemma accepted_bid_outbids_within_budget_witness :
  exists e p row,
    user_role (Samples.bidRequest "user1" 25) = User.team_owner /\
    findEvent "event1" (Samples.world (Some true) []) = Some e /\
    AuctionEvent.status e = AuctionEvent.live /\
    AuctionEvent.currentPlayerId e = Some "player1" /\
    Player.findById "player1" (players (db (Samples.world (Some true) []))) = Some p /\
    match Bid.getWinningBid "event1" "player1" (bids (db (Samples.world (Some true) []))) with
    | Some b => Bid.amount b
    | None => Player.basePrice p
    end < 25 /\
    (exists next,
       AuctionRules.getNextBidAmount
         (Some match Bid.getWinningBid "event1" "player1"
                       (bids (db (Samples.world (Some true) []))) with
               | Some b => Bid.amount b
               | None => Player.basePrice p
               end) = Some next /\ next <= 25) /\
    25 <= 2000 /\
    budgets (db Samples.firstValidated) !! ("team1", "event1") = Some row /\
    25 <= TeamEventBudget.remainingBudget row /\
    Z.of_nat (length (Team.players (Samples.team "team1" "user1"))) < 10.
Proof.
  refine (accepted_bid_outbids_within_budget (Samples.bidRequest "user1" 25)
            (Samples.world (Some true) []) (Samples.observed "user1" "team1" 25)
            Samples.firstValidated _).
  vm_compute. reflexivity.
Defined.

(** X19. A bid request that [placeBid] refuses before recording it makes
    [placeBid] fail with that error and stores no bid: events, players,
    teams, users and bids are as before, the timers are not touched, nothing
    is emitted and nothing is scheduled. The only write it can leave is the
    budget row of the bidder's team for the event, created on first use. *)
Theorem refused_bid_leaves_the_auction_as_it_was req w err w' :
  placeBid_validate req w = (inl err, w') ->
  (forall now bidId, placeBid now bidId req w = (inl err, w')) /\
  events (db w') = events (db w) /\ players (db w') = players (db w) /\
  teams (db w') = teams (db w) /\ users (db w') = users (db w) /\
  bids (db w') = bids (db w) /\
  timers w' = timers w /\ emitted w' = emitted w /\ timeouts w' = timeouts w /\
  (budgets (db w') = budgets (db w) \/
   exists k row, budgets (db w) !! k = None /\
                 budgets (db w') = <[k := row]> (budgets (db w))).
Proof.
  intros H. split.
  - intros now bidId. unfold placeBid, bind. rewrite H. reflexivity.
  - destruct (placeBid_validate_cases req w)
      as [(err0 & w0 & Hrun & Hframe) | (o0 & w0 & e & p & row & Hrun & _)];
      rewrite Hrun in H; [|discriminate].
    injection H as -> ->. exact Hframe.
Qed.

Lemma refused_bid_leaves_the_auction_as_it_was_witness :
  placeBid 2000 "bidA" (Samples.bidRequest "user1" 20) (Samples.world (Some true) []) =
    (inl (HttpError 400 "Bid must be at least 25 (current: 20, increment: 5)"),
     exec (placeBid_validate (Samples.bidRequest "user1" 20)) (Samples.world (Some true) [])) /\
  bids (db (exec (placeBid_validate (Samples.bidRequest "user1" 20))
              (Samples.world (Some true) []))) = [].
Proof.
  destruct (refused_bid_leaves_the_auction_as_it_was (Samples.bidRequest "user1" 20)
              (Samples.world (Some true) [])
              (HttpError 400 "Bid must be at least 25 (current: 20, increment: 5)")
              (exec (placeBid_validate (Samples.bidRequest "user1" 20))
                 (Samples.world (Some true) [])))
    as (Hrun & _ & _ & _ & _ & Hbids & _).
  - vm_compute. reflexivity.
  - split; [apply Hrun | exact Hbids].
Defined.

Lemma recordBid_stores_winner W bid now c r c' :
  Bid.recordBid W bid now c = (inr r, c') ->
  Bid.isWinningBid bid = true ->
  r = Bid.set_status Bid.winning bid /\
  Bid.findById (Bid._id bid) c' = Some r /\
  Bid.getWinningBid (Bid.auctionEventId bid) (Bid.playerId bid) c' = Some r /\
  (forall d, In d c' ->
     Bid.is_winning_for (Bid.auctionEventId bid) (Bid.playerId bid) d = true -> d = r).
Proof.
  intros H Hwin. unfold Bid.recordBid in H. unfold bind at 1 in H.
  destruct (match W with
            | Some w => bind (Bid.markAsRejected w "Outbid by higher bid") (fun _ => ret tt)
            | None => ret tt
            end c) as [[err | []] c1]; [discriminate|].
  unfold bind at 1 in H.
  destruct (bid_insert_cases bid c1) as [[e He] | (Hv & Hfresh & _ & He)];
    rewrite He in H; [discriminate|].
  assert (Bid.pre_save bid = Bid.set_status Bid.winning bid) as Hpre
    by (unfold Bid.pre_save; rewrite Hwin; reflexivity).
  rewrite Hpre in *.
  set (saved := Bid.set_status Bid.winning bid) in *.
  assert (Bid.set_status Bid.winning (Bid.set_isWinningBid true saved) = saved) as Hsame.
  { unfold saved. destruct bid. cbn in Hwin. subst. reflexivity. }
  assert (0 < Bid.amount saved) as Hpos.
  { unfold Bid.validate in Hv. change (Bid.amount saved) with (Bid.amount bid).
    destruct (Z.ltb_spec (Bid.amount bid) 0); [discriminate|].
    destruct (Z.gtb_spec (Bid.amount bid) 0); [lia | discriminate]. }
  assert (Bid.findById (Bid._id saved) (c1 ++ [saved]) = Some saved) as Hfound.
  { unfold Bid.findById. clear - Hfresh. induction c1 as [| a l IH]; cbn.
    - rewrite id_eqb_refl. reflexivity.
    - cbn in Hfresh. apply orb_false_iff in Hfresh as [Ha Hl]. rewrite Ha. apply IH, Hl. }
  destruct (markAsWinning_ok saved now (c1 ++ [saved]) Hfound Hpos)
    as (c2 & Hrun & Hf2 & Hw2 & Honly & _).
  rewrite Hsame in *. rewrite Hrun in H. injection H as <- <-.
  repeat split; assumption.
Qed.

Lemma placeBid_record_inr now bidId o w bid w' :
  placeBid_record now bidId o w = (inr bid, w') ->
  exists e' tail,
    Bid.recordBid (ob_currentWinningBid o) (newBid now bidId o) now (bids (db w)) =
      (inr bid, bids (db w')) /\
    AuctionEvent.save now (ob_event o)
      (AuctionEvent.set_currentPlayerStartTime (Some now) (ob_event o)) (events (db w)) =
      (inr e', events (db w')) /\
    timers w' =
      <[ob_eventId o := {| timer_playerId := ob_playerId o; timer_duration := 20 * 1000 |}]>
        (delete (ob_eventId o) (delete (ob_eventId o) (timers w))) /\
    players (db w') = players (db w) /\ teams (db w') = teams (db w) /\
    users (db w') = users (db w) /\ budgets (db w') = budgets (db w) /\
    timeouts w' = timeouts w /\
    emitted w' =
      emitted w ++
      BidReceived (ob_eventId o) (Bid._id bid) (ob_playerId o) (Team._id (ob_team o))
        (User._id (ob_user o)) (ob_amount o)
        (ob_amount o +
         or_default (AuctionEvent.bidIncrement (AuctionEvent.settings (ob_event o))) 50)
        (option_map (fun b => (Bid.teamId b, Bid.amount b)) (ob_currentWinningBid o))
      :: tail.
Proof.
  unfold placeBid_record. unfold bind at 1. unfold onBids, zoom.
  destruct (Bid.recordBid _ _ _ _) as [[err | b] c']; [discriminate|].
  destruct w as [[evs ps ts us bs bg] tm em tos].
  unfold bind, clearPlayerTimer, setPlayerTimer, bind, modify, onEvents, zoom, emit, get,
    modify, ret. cbn.
  destruct (AuctionEvent.save _ _ _ _) as [[err | e'] evs']; [discriminate|]. cbn.
  match goal with
  | |- context [match ?x with Some _ => _ | None => _ end] => destruct x
  end; cbn; intros [= <- <-]; cbn; eexists _, _;
    repeat (split; [reflexivity|]); rewrite <- ?app_assoc; reflexivity.
Qed.

(** X20. A bid [placeBid] accepts is from then on the winning bid of its
    event and player: what [getWinningBid] returns is the bid of the 201
    response, stored with status 'winning' under the id it was created with,
    for the amount, team and bidder of the request, and no other stored bid
    wins the pair. The event's timer is re-armed for the player with 20
    seconds, the player's start time is set to now, and the bid is announced
    with [amount + settings.bidIncrement] (50 when unset) as next amount. *)
Theorem placed_bid_becomes_the_winning_bid now bidId req w bid w' :
  placeBid now bidId req w = (inr bid, w') ->
  exists eventId playerId amount,
    body_eventId req = Some eventId /\ body_playerId req = Some playerId /\
    body_amount req = JsNum (Finite amount) /\
    Bid.getWinningBid eventId playerId (bids (db w')) = Some bid /\
    Bid.findById bidId (bids (db w')) = Some bid /\
    Bid._id bid = bidId /\ Bid.amount bid = amount /\
    Bid.bidderId bid = user_userId req /\
    Bid.status bid = Bid.winning /\ Bid.isWinningBid bid = true /\
    Bid.bidTime bid = now /\
    (forall d, In d (bids (db w')) ->
       Bid.is_winning_for eventId playerId d = true -> d = bid) /\
    timers w' !! eventId =
      Some {| timer_playerId := playerId; timer_duration := 20000 |} /\
    (exists e', findEvent eventId w' = Some e' /\
                AuctionEvent.currentPlayerStartTime e' = Some now /\
                AuctionEvent.currentPlayerId e' = Some playerId) /\
    (exists e previous tail,
       findEvent eventId w = Some e /\
       emitted w' =
         emitted w ++
         BidReceived eventId bidId playerId (Bid.teamId bid) (user_userId req) amount
           (amount + or_default (AuctionEvent.bidIncrement (AuctionEvent.settings e)) 50)
           previous :: tail).
Proof.
  intros H. unfold placeBid in H. unfold bind in H.
  destruct (placeBid_validate_cases req w)
    as [(err & w0 & Hrun & _) |
        (o & w0 & e & p & row & Hrun & Hrole & Hev & Hpl & Hamt & He & Hoe & Hlive & Hcur & Hp &
         Hrow & Hvalid)];
    rewrite Hrun in H; [discriminate|].
  pose proof (placeBid_validate_inv _ _ _ _ Hrun) as (Hb0 & Hem0 & Htm0 & _ & _).
  apply placeBid_record_inr in H
    as (e' & tail & Hrec & Hsave & Htm & _ & _ & _ & _ & _ & Hem).
  apply recordBid_stores_winner in Hrec as (Hbid & Hfound & Hwin & Honly); [|reflexivity].
  cbn [newBid Bid._id Bid.auctionEventId Bid.playerId] in Hfound, Hwin, Honly.
  exists (ob_eventId o), (ob_playerId o), (ob_amount o).
  split; [exact Hev|]. split; [exact Hpl|]. split; [exact Hamt|].
  split; [exact Hwin|]. split; [exact Hfound|].
  assert (Bid.bidderId bid = user_userId req) as Hbidder.
  { rewrite Hbid. cbn.
    clear - Hrun. unfold placeBid_validate in Hrun.
    destruct (negb _); [discriminate|].
    destruct (_ || _); [discriminate|].
    destruct (body_eventId req) as [eventId|]; [|discriminate].
    destruct (body_playerId req) as [playerId|]; [|discriminate].
    rewrite bind_get in Hrun.
    destruct (AuctionEvent.findById eventId (events (db w))) as [event|]; [|discriminate].
    destruct (negb _); [discriminate|].
    destruct (differs _ _); [discriminate|].
    destruct (Player.findById playerId (players (db w))) as [player|]; [|discriminate].
    destruct (User.findById (user_userId req) (users (db w))) as [user|] eqn:Hu;
      [|discriminate].
    destruct (User.teamId user) as [teamId|]; [|discriminate].
    destruct (Team.findById teamId (teams (db w))) as [team|]; [|discriminate].
    unfold bind, onBudgets, zoom in Hrun.
    destruct (TeamEventBudget.getOrCreate _ _ _ _) as [[err | row] c']; [discriminate|].
    destruct (negb _); [discriminate|].
    destruct (body_amount req) as [[amount| | |]| | | |]; try discriminate.
    injection Hrun as <- _. cbn.
    unfold User.findById in Hu. apply find_some in Hu as [_ Hu].
    apply id_eqb_true in Hu. exact Hu. }
  rewrite Hbid. cbn [Bid._id Bid.amount Bid.status Bid.isWinningBid Bid.bidTime
                     Bid.set_status newBid Bid.teamId].
  repeat (split; [reflexivity|]).
  split; [rewrite Hbid in Hbidder; exact Hbidder|].
  repeat (split; [reflexivity|]).
  split; [rewrite <- Hbid; exact Honly|].
  split; [rewrite Htm; apply lookup_insert_eq|].
  split.
  - unfold findEvent in He.
    assert (events (db w0) = events (db w)) as Hevs.
    { destruct (placeBid_validate_cases req w)
        as [(err & w1 & Hrun1 & _) | _]; [rewrite Hrun in Hrun1; discriminate|].
      clear - Hrun. unfold placeBid_validate in Hrun.
      destruct (negb _); [discriminate|].
      destruct (_ || _); [discriminate|].
      destruct (body_eventId req) as [eventId|]; [|discriminate].
      destruct (body_playerId req) as [playerId|]; [|discriminate].
      rewrite bind_get in Hrun.
      destruct (AuctionEvent.findById eventId (events (db w))) as [event|]; [|discriminate].
      destruct (negb _); [discriminate|].
      destruct (differs _ _); [discriminate|].
      destruct (Player.findById playerId (players (db w))) as [player|]; [|discriminate].
      destruct (User.findById (user_userId req) (users (db w))) as [user|]; [|discriminate].
      destruct (User.teamId user) as [teamId|]; [|discriminate].
      destruct (Team.findById teamId (teams (db w))) as [team|]; [|discriminate].
      unfold bind, onBudgets, zoom in Hrun.
      destruct (TeamEventBudget.getOrCreate _ _ _ _) as [[err | row] c']; [discriminate|].
      destruct (negb _); [discriminate|].
      destruct (body_amount req) as [[amount| | |]| | | |]; try discriminate.
      injection Hrun as _ <-. reflexivity. }
    rewrite Hevs in Hsave.
    apply event_save_inr in Hsave as (-> & Hevs' & Hf & _); [|reflexivity].
    pose proof (event_findById_some _ _ _ He) as [_ Hid].
    eexists. split.
    + unfold findEvent. cbn [AuctionEvent._id AuctionEvent.set_currentPlayerStartTime
        AuctionEvent.set_current] in Hf. rewrite Hoe, Hid in Hf. exact Hf.
    + cbn. auto.
  - rewrite Hem0 in Hem.
    exists e. eexists _, tail. split; [exact He|].
    rewrite Hbid in Hem, Hbidder. cbn in Hem, Hbidder. rewrite Hbidder, Hoe in Hem.
    cbn. exact Hem.
Qed.

Lemma placed_bid_becomes_the_winning_bid_witness :
  Bid.getWinningBid "event1" "player1"
    (bids (db (exec (placeBid 2000 "bidA" (Samples.bidRequest "user1" 25))
                 (Samples.world (Some true) [])))) =
  Some (Samples.winningBid "bidA" "team1" "user1" 25 2000).
Proof.
  assert (placeBid 2000 "bidA" (Samples.bidRequest "user1" 25) (Samples.world (Some true) []) =
          (inr (Samples.winningBid "bidA" "team1" "user1" 25 2000),
           exec (placeBid 2000 "bidA" (Samples.bidRequest "user1" 25))
             (Samples.world (Some true) []))) as H by (vm_compute; reflexivity).
  destruct (placed_bid_becomes_the_winning_bid _ _ _ _ _ _ H)
    as (eventId & playerId & amount & Hev & Hpl & _ & Hwin & _).
  injection Hev as <-. injection Hpl as <-. exact Hwin.
Defined.

End BiddingFacts.

(** ** The operator's sale *)

Section OperatorSaleFacts.
Import Engine.

Lemma timerCallback_not_current now eventId playerId w :
  isCurrentPlayer eventId playerId w = false ->
  timerCallback now eventId playerId w = (inr tt, w).
Proof.
  intros H. unfold isCurrentPlayer, findEvent in H.
  unfold timerCallback, try_catch, bind, get. cbn.
  destruct (AuctionEvent.findById eventId (events (db w))) as [e|]; [|reflexivity].
  apply negb_false_iff in H. rewrite H. reflexivity.
Qed.

(** X21. The operator's "finalize sold" command on a live event sells the
    player to the team of the winning bid, whether or not the player is the
    current one and whatever the player's status: the team's budget row for
    the event is debited by the bid, the event counts one more player sold
    and the amount spent, the current player and its start time are cleared
    and the sale is announced. No bid changes, nothing is scheduled and the
    timers are left as they are; a timer still armed for the event finds no
    current player when it fires and changes nothing. *)
Theorem finalizePlayerSold_books_the_sale now eventId playerId w e p b t :
  findEvent eventId w = Some e ->
  AuctionEvent.status e = AuctionEvent.live ->
  Bid.getWinningBid eventId playerId (bids (db w)) = Some b ->
  Player.findById playerId (players (db w)) = Some p ->
  Team.findById (Bid.teamId b) (teams (db w)) = Some t ->
  Player.basePrice p <= Bid.amount b ->
  Bid.amount b <= TeamEventBudget.remainingBudget (budgetOf (Team._id t) e w) ->
  AuctionEvent.validate now e = None ->
  Player.validate p = None ->
  Team.validate t = None ->
  ledgerRowOk (Team._id t) eventId w ->
  let w' := exec (finalizePlayerSold now eventId playerId) w in
  let row := budgetOf (Team._id t) e w in
  outcome (finalizePlayerSold now eventId playerId) w = inr tt /\
  budgets (db w') = <[(Team._id t, eventId) := debited row (Bid.amount b)]> (budgets (db w)) /\
  TeamEventBudget.remainingBudget (debited row (Bid.amount b)) =
    TeamEventBudget.remainingBudget row - Bid.amount b /\
  findEvent eventId w' = Some (afterSale e (Bid.amount b)) /\
  bids (db w') = bids (db w) /\
  timers w' = timers w /\
  timeouts w' = timeouts w /\
  (exists owner tail,
     emitted w' =
       emitted w ++ PlayerSold eventId playerId (Team._id t) owner (Bid.amount b) :: tail) /\
  (forall later anyPlayer,
     timerCallback later eventId anyPlayer w' = (inr tt, w')).
Proof.
  intros He Hlive Hb Hp Ht Hprice Hbudget Hve Hvp Hvt Hrow w' row.
  pose proof He as He0. unfold findEvent in He.
  pose proof (event_findById_some _ _ _ He) as [_ Hid].
  pose proof (player_findById_some _ _ _ Hp) as [_ Hpid].
  pose proof (team_findById_some _ _ _ Ht) as [_ Htid].
  pose proof (player_valid_facts p Hvp) as Hbase.
  assert (0 <= Bid.amount b) as Hamt by lia.
  subst eventId.
  pose proof (budgetOf_debited (Team._id t) e w (Bid.amount b) Hrow) as Hdeb.
  destruct (sale_ledger_steps now (Team._id t) e (Bid.amount b) w Hrow Hve Hamt Hbudget)
    as (c1 & Hg & Hadd).
  fold row in Hg, Hadd, Hdeb.
  set (owner := match Team.ownerId t with
                | Some ownerId => User.findById ownerId (users (db w))
                | None => None
                end).
  set (row' := debited row (Bid.amount b)) in *.
  clearbody row' row. clear Hrow Hbudget.
  assert (exists ps1 ts1 tail,
    finalizePlayerSold now (AuctionEvent._id e) playerId w =
    (inr tt,
     {| db := {| events := AuctionEvent.replaceById (AuctionEvent._id e)
                             (afterSale e (Bid.amount b)) (events (db w));
                 players := ps1;
                 teams := ts1;
                 users := users (db w); bids := bids (db w);
                 budgets := <[(Team._id t, AuctionEvent._id e) := row']> (budgets (db w)) |};
        timers := timers w;
        emitted := emitted w ++
          PlayerSold (AuctionEvent._id e) playerId (Team._id t) (option_map User._id owner)
            (Bid.amount b) :: tail;
        timeouts := timeouts w |})) as (ps1 & ts1 & tail & Hrun).
  { destruct w as [[evs ps ts us bs bg] tm em tos].
    cbn [events players teams users bids budgets db timers emitted timeouts] in *.
    unfold finalizePlayerSold. rewrite bind_get.
    cbn [events players teams users bids db].
    rewrite He, Hlive. cbn [AuctionEvent.status_eqb negb]. rewrite Hb, Hp, Ht. fold owner.
    destruct (proj1 (markAsSold_stored p (Team._id t) (Bid.amount b) (AuctionEvent._id e) ps
                      ltac:(rewrite Hpid; exact Hp) Hvp) Hprice)
      as (p' & ps1 & Hs1 & _).
    erewrite bind_eq; [| apply zoom_eq; exact Hs1].
    erewrite bind_eq; [| apply zoom_eq; cbn; exact Hg].
    erewrite bind_eq; [| apply zoom_eq; cbn; exact Hadd].
    cbn.
    assert (exists ts1,
      (if negb (includes_id playerId (Team.players t))
       then bind (onTeams (Team.save (Team.push_player playerId t))) (fun _ => ret tt)
       else ret tt)
        {| db := {| events := evs; players := ps1; teams := ts; users := us; bids := bs;
                    budgets := <[(Team._id t, AuctionEvent._id e) := row']> bg |};
           timers := tm; emitted := em; timeouts := tos |} =
      (inr tt,
       {| db := {| events := evs; players := ps1; teams := ts1; users := us; bids := bs;
                   budgets := <[(Team._id t, AuctionEvent._id e) := row']> bg |};
          timers := tm; emitted := em; timeouts := tos |})) as (ts1 & Hteam).
    { destruct (negb (includes_id playerId (Team.players t))).
      - destruct (team_save_push_ok playerId t ts) as (t' & ts1 & Hsave).
        + rewrite Htid. exact Ht.
        + exact Hvt.
        + exists ts1. erewrite bind_eq; [| apply zoom_eq; cbn; exact Hsave]. reflexivity.
      - exists ts. reflexivity. }
    erewrite bind_eq; [| exact Hteam].
    erewrite bind_eq;
      [| apply zoom_eq; cbn; unfold AuctionEvent.updatePlayerSold;
         apply (event_save_ok now e _ evs e);
         [apply event_valid_afterSale; assumption | reflexivity | exact He]].
    erewrite bind_eq;
      [| apply zoom_eq; cbn;
         apply (event_save_ok now _ (afterSale e (Bid.amount b)) _
                  (AuctionEvent.set_stats
                     {| AuctionEvent.totalPlayers := AuctionEvent.totalPlayers (AuctionEvent.stats e);
                        AuctionEvent.playersSold := AuctionEvent.playersSold (AuctionEvent.stats e) + 1;
                        AuctionEvent.playersUnsold := AuctionEvent.playersUnsold (AuctionEvent.stats e);
                        AuctionEvent.totalAmountSpent :=
                          AuctionEvent.totalAmountSpent (AuctionEvent.stats e) + Bid.amount b |} e));
         [ apply (event_valid_afterSale now e (Bid.amount b)); assumption
         | reflexivity
         | apply (event_findById_replace _ _ e); [exact He | reflexivity] ]].
    cbn. rewrite event_replace_replace by reflexivity.
    rewrite Hpid. unfold bind, emit, modify, get. cbn.
    unfold TeamEventBudget.findOne. rewrite lookup_insert_eq.
    destruct owner as [o|]; cbn.
    - eexists _, _, [_]. rewrite <- app_assoc. reflexivity.
    - eexists _, _, []. reflexivity. }
  unfold w', exec, outcome. rewrite Hrun.
  cbn [fst snd db events bids budgets timers emitted timeouts].
  split; [reflexivity|]. split; [reflexivity|]. split; [exact Hdeb|].
  assert (findEvent (AuctionEvent._id e)
            (snd (inr tt : result unit,
               {| db := {| events := AuctionEvent.replaceById (AuctionEvent._id e)
                                       (afterSale e (Bid.amount b)) (events (db w));
                           players := ps1;
                           teams := ts1;
                           users := users (db w); bids := bids (db w);
                           budgets := <[(Team._id t, AuctionEvent._id e) := row']>
                                        (budgets (db w)) |};
                  timers := timers w;
                  emitted := emitted w ++
                    PlayerSold (AuctionEvent._id e) playerId (Team._id t)
                      (option_map User._id owner) (Bid.amount b) :: tail;
                  timeouts := timeouts w |})) = Some (afterSale e (Bid.amount b))) as Hnew.
  { unfold findEvent. cbn [snd db events].
    apply (event_findById_replace _ _ e); [exact He | reflexivity]. }
  split; [exact Hnew|].
  repeat (split; [reflexivity|]).
  split; [eauto|].
  intros later anyPlayer. apply timerCallback_not_current.
  unfold isCurrentPlayer. cbn [snd] in Hnew. rewrite Hnew. reflexivity.
Qed.

Lemma finalizePlayerSold_books_the_sale_witness :
  outcome (finalizePlayerSold 21000 "event1" "player1")
    (Samples.world (Some true) [Samples.winningBid "bid1" "team1" "user1" 500 1500]) =
    inr tt /\
  budgets (db (exec (finalizePlayerSold 21000 "event1" "player1")
                 (Samples.world (Some true)
                    [Samples.winningBid "bid1" "team1" "user1" 500 1500])))
    !! ("team1", "event1") =
    Some {| TeamEventBudget.teamId := "team1"; TeamEventBudget.auctionEventId := "event1";
            TeamEventBudget.budget := 1000; TeamEventBudget.spent := 0 + 500;
            TeamEventBudget.remainingBudget := 1000 - (0 + 500) |}.
Proof.
  destruct (finalizePlayerSold_books_the_sale 21000 "event1" "player1"
              (Samples.world (Some true) [Samples.winningBid "bid1" "team1" "user1" 500 1500])
              (Samples.event (Some "player1") (Some true))
              (Samples.player "player1" Player.batsman 20 Player.available)
              (Samples.winningBid "bid1" "team1" "user1" 500 1500)
              (Samples.team "team1" "user1")
              eq_refl eq_refl eq_refl eq_refl eq_refl)
    as (Hout & Hbud & _).
  - cbn. lia.
  - vm_compute. discriminate.
  - reflexivity.
  - reflexivity.
  - reflexivity.
  - exact I.
  - split; [exact Hout|]. rewrite Hbud. apply lookup_insert_eq.
Defined.

End OperatorSaleFacts.

(** ** The rotation *)

Section RotationFacts.
Import Engine.










Example rotation_sample :
  timeouts (exec (autoMoveToNextPlayer 5000 "event1")
              (exec (finalizePlayerUnsold 2000 "event1" "player1")
                 (Samples.world (Some true) []))) =
    [(2000, StartNextPlayer "event1" "player1")].
Proof. vm_compute. reflexivity. Qed.

End RotationFacts.

(** ** The current bid *)

Section CurrentBidFacts.
Import Engine CurrentBid.

(** X23. [getCurrentBid] only reads. For an event with a current player it
    reports the amount to beat (the winning bid's, or the base price) and the
    next valid amount, and these agree with [placeBid]: every bid that
    [placeBid] accepts for the event is for that player and is at least the
    reported next amount; and when no next amount is reported, the cap being
    reached, [placeBid] accepts no bid for the event. *)
Theorem getCurrentBid_agrees_with_placeBid eventId w data w' :
  getCurrentBid eventId w = (inr data, w') ->
  w' = w /\
  forall player,
    currentPlayer data = Some player ->
    (exists e,
       findEvent eventId w = Some e /\
       AuctionEvent.currentPlayerId e = Some (Player._id player) /\
       currentBid data = Bid.getWinningBid eventId (Player._id player) (bids (db w)) /\
       currentBidAmount data =
         Some match currentBid data with
              | Some b => Bid.amount b
              | None => Player.basePrice player
              end) /\
    (forall req o w1,
       placeBid_validate req w = (inr o, w1) -> ob_eventId o = eventId ->
       ob_playerId o = Player._id player /\
       exists next, nextBidAmount data = Some next /\ next <= ob_amount o) /\
    (nextBidAmount data = None ->
     forall req, body_eventId req = Some eventId ->
       exists err w1, placeBid_validate req w = (inl err, w1)).
Proof.
  unfold getCurrentBid. rewrite bind_get.
  destruct (AuctionEvent.findById eventId (events (db w))) as [e|] eqn:He; [|discriminate].
  destruct (AuctionEvent.currentPlayerId e) as [pid|] eqn:Hcur.
  2:{ intros [= <- <-]. split; [reflexivity|]. discriminate. }
  destruct (Player.findById pid (players (db w))) as [p|] eqn:Hp.
  2:{ intros [= <- <-]. split; [reflexivity|]. discriminate. }
  intros [= <- <-]. split; [reflexivity|].
  cbn [currentPlayer currentBid currentBidAmount nextBidAmount].
  intros player [= <-].
  pose proof (player_findById_some _ _ _ Hp) as [_ Hpid]. subst pid.
  assert (forall req o w1,
    placeBid_validate req w = (inr o, w1) -> ob_eventId o = eventId ->
    ob_playerId o = Player._id p /\
    exists next,
      AuctionRules.getNextBidAmount
        (Some match Bid.getWinningBid eventId (Player._id p) (bids (db w)) with
              | Some b => Bid.amount b
              | None => Player.basePrice p
              end) = Some next /\ next <= ob_amount o) as Hacc.
  { intros req o w1 Hrun Hev.
    destruct (placeBid_validate_cases req w)
      as [(err & w0 & Hrun0 & _) |
          (o0 & w0 & e0 & p0 & row & Hrun0 & _ & _ & _ & _ & He0 & _ & _ & Hcur0 & Hp0 &
           _ & Hvalid)];
      rewrite Hrun0 in Hrun; [discriminate|].
    injection Hrun as -> ->. unfold findEvent in He0. rewrite Hev in *.
    rewrite He in He0. injection He0 as <-. rewrite Hcur in Hcur0. injection Hcur0 as Hpl.
    rewrite <- Hpl in *. rewrite Hp in Hp0. injection Hp0 as <-.
    split; [reflexivity|].
    apply canPlaceBid_valid_iff in Hvalid as (amount & minimum & [= <-] & _ & _ & Hnext & Hmin & _).
    cbn [param_default AuctionRules.opt_currentBidAmount] in Hnext.
    exists minimum. split; assumption. }
  split; [|split].
  - exists e. repeat split; try assumption; reflexivity.
  - exact Hacc.
  - intros Hnone req Hreq.
    destruct (placeBid_validate_cases req w)
      as [(err & w0 & Hrun0 & _) |
          (o0 & w0 & e0 & p0 & row & Hrun0 & _ & Hev0 & _)]; [eauto|].
    exfalso. rewrite Hreq in Hev0. injection Hev0 as Hev0.
    destruct (Hacc req o0 w0 Hrun0 (eq_sym Hev0)) as (_ & next & Hnext & _).
    rewrite Hnone in Hnext. discriminate.
Qed.

Lemma getCurrentBid_agrees_with_placeBid_witness :
  exists next,
    AuctionRules.getNextBidAmount (Some 20) = Some next /\ next <= 25.
Proof.
  destruct (getCurrentBid_agrees_with_placeBid "event1" (Samples.world (Some true) [])
              {| currentPlayer := Some (Samples.player "player1" Player.batsman 20
                                          Player.available);
                 currentBid := None; currentBidAmount := Some 20;
                 nextBidAmount := AuctionRules.getNextBidAmount (Some 20) |}
              (Samples.world (Some true) []) eq_refl) as [_ H].
  destruct (H _ eq_refl) as (_ & Hacc & _).
  destruct (Hacc (Samples.bidRequest "user1" 25) (Samples.observed "user1" "team1" 25)
              Samples.firstValidated) as (_ & next & Hnext & Hle).
  - vm_compute. reflexivity.
  - reflexivity.
  - exists next. split; [exact Hnext | exact Hle].
Defined.

End CurrentBidFacts.

(** ** The delayed start of the next player *)

Section ScheduledStartFacts.
Import Engine.

Lemma event_findById_replace_other id other x c :
  AuctionEvent._id x = id -> other <> id ->
  AuctionEvent.findById other (AuctionEvent.replaceById id x c) = AuctionEvent.findById other c.
Proof.
  intros Hx Hne. unfold AuctionEvent.findById, AuctionEvent.replaceById.
  induction c as [| a c IH]; cbn; [reflexivity|].
  destruct (id_eqb (AuctionEvent._id a) id) eqn:E.
  - apply id_eqb_true in E. rewrite Hx, E.
    destruct (id_eqb id other) eqn:E'; [apply id_eqb_true in E'; congruence | exact IH].
  - rewrite IH. reflexivity.
Qed.

(** X24. The delayed start that the rotation schedules never throws. When
    the event is gone or no longer live it changes nothing. On a live event
    that passes its validators it makes the given player the current one with
    the start time set to now, whatever the player's status, membership in
    the event or the player that was current before, and touches no other
    event, no player, bid, team or budget row and no scheduled task. If the
    player document exists, the event's timer is armed for it with 20 seconds
    and the player is announced with the amount to beat; if it does not, the
    event keeps the new current player but no timer is armed and nothing is
    announced. *)
Theorem scheduled_start_puts_the_player_on_auction now eventId nextPlayerId w :
  let w' := exec (startNextPlayer now eventId nextPlayerId) w in
  outcome (startNextPlayer now eventId nextPlayerId) w = inr tt /\
  ((forall e, findEvent eventId w = Some e -> AuctionEvent.status e <> AuctionEvent.live) ->
   w' = w) /\
  (forall e,
     findEvent eventId w = Some e -> AuctionEvent.status e = AuctionEvent.live ->
     AuctionEvent.validate now e = None ->
     findEvent eventId w' =
       Some (AuctionEvent.set_current (Some nextPlayerId) (Some now) e) /\
     (forall other, other <> eventId -> findEvent other w' = findEvent other w) /\
     players (db w') = players (db w) /\
     bids (db w') = bids (db w) /\
     teams (db w') = teams (db w) /\
     budgets (db w') = budgets (db w) /\
     timeouts w' = timeouts w /\
     match Player.findById nextPlayerId (players (db w)) with
     | Some nextPlayer =>
         let currentWinningBid := Bid.getWinningBid eventId nextPlayerId (bids (db w)) in
         timers w' =
           <[eventId := {| timer_playerId := nextPlayerId; timer_duration := 20000 |}]>
             (timers w) /\
         emitted w' =
           emitted w ++
           [PlayerCurrent eventId nextPlayerId
              (option_map (fun b => (Bid.teamId b, Bid.amount b)) currentWinningBid)
              match currentWinningBid with
              | Some b => Bid.amount b
              | None => Player.basePrice nextPlayer
              end now]
     | None => timers w' = timers w /\ emitted w' = emitted w
     end).
Proof.
  intros w'.
  split; [|split].
  - unfold outcome, startNextPlayer, try_catch, ret.
    match goal with |- fst (match ?m w with _ => _ end) = _ =>
      destruct (m w) as [[err | []] w1]; reflexivity end.
  - intros Hstop. unfold w', startNextPlayer. rewrite exec_try_catch_unit.
    unfold exec. rewrite bind_get.
    destruct (AuctionEvent.findById eventId (events (db w))) as [e|] eqn:He; [|reflexivity].
    destruct (AuctionEvent.status_eqb (AuctionEvent.status e) AuctionEvent.live) eqn:Hlive;
      [|reflexivity].
    exfalso. apply (Hstop e He). apply event_status_eqb_eq. exact Hlive.
  - intros e He Hlive Hv. unfold findEvent in He.
    pose proof (event_findById_some _ _ _ He) as [_ Hid]. subst eventId.
    set (e1 := AuctionEvent.set_current (Some nextPlayerId) (Some now) e).
    unfold w', startNextPlayer. rewrite exec_try_catch_unit.
    destruct w as [[evs ps ts us bs bg] tm em tos].
    cbn [events players teams users bids budgets db timers emitted timeouts] in *.
    unfold exec. rewrite bind_get. cbn [events players db].
    rewrite He, Hlive. cbn [AuctionEvent.status_eqb negb].
    erewrite bind_eq;
      [| apply zoom_eq; cbn;
         apply (event_save_ok now e e1 evs e); [exact Hv | reflexivity | exact He]].
    rewrite bind_get. cbn [set_events set_db db players bids events teams users budgets
                           timers emitted timeouts].
    assert (forall x : World,
      findEvent (AuctionEvent._id e) x =
        AuctionEvent.findById (AuctionEvent._id e) (events (db x))) as Hfe by reflexivity.
    destruct (Player.findById nextPlayerId ps) as [p|] eqn:Hp.
    + unfold bind, emit, setPlayerTimer, clearPlayerTimer, modify, get, set_timers. cbn.
      unfold findEvent. cbn [db events].
      split; [apply (event_findById_replace _ _ e); [exact He | reflexivity]|].
      split; [intros other Hne; apply event_findById_replace_other; [reflexivity | exact Hne]|].
      repeat (split; [reflexivity|]).
      split; [apply insert_delete_eq | reflexivity].
    + unfold throw. cbn.
      unfold findEvent. cbn [db events].
      split; [apply (event_findById_replace _ _ e); [exact He | reflexivity]|].
      split; [intros other Hne; apply event_findById_replace_other; [reflexivity | exact Hne]|].
      repeat (split; [reflexivity|]). split; reflexivity.
Qed.

End ScheduledStartFacts.
